(** * banana-slides-services: the archive ingestion client, the style
    extractor and the background stage, embedded and verified.

    Sources embedded here:
    - [utils/self_hosted_mineru.py]: [is_self_hosted_mineru],
      [resolve_self_hosted_endpoint], [_safe_extractall],
      [_flatten_single_top_level_dir],
      [_ensure_layout_json_from_middle_json], [_post_file_parse],
      [parse_pdf_via_self_hosted_mineru];
    - [utils/template_style_extractor.py]: [FontStyle], [StyleConfig],
      [extract_styles], [_parse_color], [get_hpe_default_style];
    - [pdf_to_pptx.py]: [pdf_to_images], [parse_pdf_with_mineru],
      [generate_clean_backgrounds], [create_editable_pptx], [main];
    - [experimental/pdf_to_pptx_recur.py]: [pdf_to_images],
      [check_environment].

    Conventions.  A Python [str] is a Rocq [string] whose characters are read
    as the code points 0..255.  A Python call that may raise is a value of
    [result]; code that also reads or writes the file system runs in the
    state-and-exception monad [M].  The file system of the model has no
    limits and no permissions: where the code hands the operating system
    a path that its caller has a say in, the error with which the
    operating system may refuse the path is a parameter of the
    surroundings ([exists_error], [path_error]).  The error classes of the
    specification
    ([ServiceError], [MalformedResponseError], [PathTraversalError],
    [ConfigurationError], [MissingArtifactError]) are all the one class
    [RuntimeError] in the code: they differ by their message only, and the
    theorems give the message. *)

From Stdlib Require Import ZArith Ascii String.
From stdpp Require Import gmap strings list fin_maps sorting pretty.

Local Open Scope string_scope.
Local Open Scope list_scope.
Local Open Scope Z_scope.

(** ** Exceptions and results *)

(** The exception classes the embedded code raises or catches; all of them
    are subclasses of Python's [Exception]. *)
Inductive exn : Type :=
| RuntimeError (msg : string)
| ValueError (msg : string)
| IndexError (msg : string)
| ImportError (msg : string)
| FileNotFoundError (msg : string)
| FileExistsError (msg : string)
| IsADirectoryError (msg : string)
| NotADirectoryError (msg : string)
| OSError (msg : string)
| BadZipFile (msg : string)
| OtherException (cls msg : string).

Inductive result (A : Type) : Type :=
| Ok (a : A)
| Raise (e : exn).
Arguments Ok {A} a.
Arguments Raise {A} e.

Definition is_Ok {A} (r : result A) : bool :=
  match r with Ok _ => true | Raise _ => false end.

(** ** Python [str] operations *)

Module PyStr.

(** [str.isspace] on the code points below 256: TAB..CR, FS..US, SPACE,
    NEL and NBSP. *)
Definition is_space (c : ascii) : bool :=
  let n := N_of_ascii c in
  ((9 <=? n) && (n <=? 13) || (28 <=? n) && (n <=? 32)
   || (n =? 133) || (n =? 160))%N.

(** [s.lstrip(chars)]: drop the longest prefix made of characters of the
    class [p]. *)
Fixpoint lstrip (p : ascii -> bool) (s : string) : string :=
  match s with
  | EmptyString => EmptyString
  | String c s' => if p c then lstrip p s' else s
  end.

(** [s.rstrip(chars)]: drop the longest suffix made of characters of the
    class [p]. *)
Fixpoint rstrip (p : ascii -> bool) (s : string) : string :=
  match s with
  | EmptyString => EmptyString
  | String c s' =>
      match rstrip p s' with
      | EmptyString => if p c then EmptyString else String c EmptyString
      | r => String c r
      end
  end.

(** [s.strip()] *)
Definition strip (s : string) : string := rstrip is_space (lstrip is_space s).

Definition is_slash (c : ascii) : bool := Ascii.eqb c "/".
Definition is_hash (c : ascii) : bool := Ascii.eqb c "#".

(** [s.endswith(suf)] *)
Fixpoint endswith (s suf : string) : bool :=
  if String.eqb s suf then true
  else match s with
       | EmptyString => false
       | String _ s' => endswith s' suf
       end.

(** [s.startswith(pre)] *)
Fixpoint startswith (s pre : string) : bool :=
  match pre, s with
  | EmptyString, _ => true
  | String _ _, EmptyString => false
  | String a pre', String b s' => Ascii.eqb a b && startswith s' pre'
  end.

(** Truthiness of a string: [bool(s)]. *)
Definition truthy (s : string) : bool :=
  match s with EmptyString => false | _ => true end.

(** [sep.join(l)] *)
Fixpoint join (sep : string) (l : list string) : string :=
  match l with
  | [] => ""
  | [x] => x
  | x :: l' => x +:+ sep +:+ join sep l'
  end.

(** [s[:n]] for [n >= 0]. *)
Fixpoint take (n : nat) (s : string) : string :=
  match n, s with
  | O, _ => ""
  | S _, EmptyString => ""
  | S n', String c s' => String c (take n' s')
  end.

(** [s.split(sep)] for a one-character separator: the list of the fields
    between the separators, never empty. *)
Fixpoint split (sep : ascii) (s : string) : list string :=
  match s with
  | EmptyString => [""]
  | String c s' =>
      if Ascii.eqb c sep then "" :: split sep s'
      else match split sep s' with
           | [] => [String c ""]
           | f :: fs => String c f :: fs
           end
  end.

End PyStr.

(** ** [resolve_self_hosted_endpoint] (self_hosted_mineru.py, lines 27-47) *)

Definition DEFAULT_SELF_HOSTED_ENDPOINT : string :=
  "http://ai23.labs.hpecorp.net:8023/file_parse".

(** [x or ""] for an [Optional[str]]. *)
Definition or_empty (x : option string) : string :=
  match x with Some s => s | None => "" end.

Definition resolve_self_hosted_endpoint
    (mineru_api_base_or_endpoint : option string) : string :=
  let url := PyStr.strip (or_empty mineru_api_base_or_endpoint) in
  let url := if PyStr.truthy url then url else DEFAULT_SELF_HOSTED_ENDPOINT in
  if PyStr.endswith url "/file_parse" then url
  else PyStr.rstrip PyStr.is_slash url +:+ "/file_parse".

(** ** Python [int(s, 16)] *)

Module PyInt.

(** [_PyLong_DigitValue] restricted to base 16. *)
Definition hex_value (c : ascii) : option Z :=
  let n := Z.of_N (N_of_ascii c) in
  if (48 <=? n) && (n <=? 57) then Some (n - 48)
  else if (97 <=? n) && (n <=? 102) then Some (n - 87)
  else if (65 <=? n) && (n <=? 70) then Some (n - 55)
  else None.

(** [Py_ISSPACE]: TAB..CR and SPACE. *)
Definition is_c_space (c : ascii) : bool :=
  let n := N_of_ascii c in ((9 <=? n) && (n <=? 13) || (n =? 32))%N.

(** [_PyUnicode_TransformDecimalAndSpaceToASCII] on the code points below
    256: ASCII is kept, NEL and NBSP become a space, and the other
    characters (none of them a decimal digit) become "?". *)
Definition to_ascii (c : ascii) : ascii :=
  let n := N_of_ascii c in
  if (n <? 127)%N then c
  else if ((n =? 133) || (n =? 160))%N then " "%char
  else "?"%char.

Fixpoint transform (s : string) : string :=
  match s with
  | EmptyString => EmptyString
  | String c s' => String (to_ascii c) (transform s')
  end.

(** The digit loop of [PyLong_FromString]: digits with single underscores
    between them.  [prev_us] says that the previous character was an
    underscore; the result is the value, the number of digits and the rest
    of the string, or [None] for a doubled or trailing underscore. *)
Fixpoint scan_digits (s : string) (prev_us : bool) (ndig : nat) (acc : Z)
  : option (Z * nat * string) :=
  match s with
  | EmptyString => if prev_us then None else Some (acc, ndig, s)
  | String c s' =>
      if Ascii.eqb c "_" then
        if prev_us then None else scan_digits s' true ndig acc
      else match hex_value c with
           | Some d => scan_digits s' false (S ndig) (16 * acc + d)
           | None => if prev_us then None else Some (acc, ndig, s)
           end
  end.

(** The optional sign. *)
Definition take_sign (s : string) : Z * string :=
  match s with
  | String "+" s' => (1, s')
  | String "-" s' => (-1, s')
  | _ => (1, s)
  end.

(** The optional "0x" or "0X" prefix of base 16, and the one underscore
    allowed after it. *)
Definition take_prefix (s : string) : string :=
  match s with
  | String "0" (String "x" s') | String "0" (String "X" s') =>
      match s' with
      | String "_" s'' => s''
      | _ => s'
      end
  | _ => s
  end.

Definition invalid_literal (s : string) : exn :=
  ValueError ("invalid literal for int() with base 16: " +:+ s).

(** [int(s, 16)] for a [str] argument. *)
Definition int16 (s : string) : result Z :=
  let t := PyStr.lstrip is_c_space (transform s) in
  let '(sign, t) := take_sign t in
  let t := take_prefix t in
  match t with
  | String "_" _ => Raise (invalid_literal s)
  | _ =>
      match scan_digits t false 0 0 with
      | None => Raise (invalid_literal s)
      | Some (v, ndig, rest) =>
          match ndig, PyStr.lstrip is_c_space rest with
          | S _, EmptyString => Ok (sign * v)
          | _, _ => Raise (invalid_literal s)
          end
      end
  end.

End PyInt.

(** ** Style data (template_style_extractor.py, lines 16-39) *)

Definition rgb : Type := Z * Z * Z.

Record FontStyle : Type := mkFontStyle {
  name : string;
  fallback_name : string;
  bold : bool;
  italic : bool;
  color_rgb : option rgb
}.

(** [FontStyle(name=.., bold=.., color_rgb=..)] with the dataclass defaults
    for the fields left out. *)
Definition FontStyle_new (n : string) (b : bool) (c : option rgb) : FontStyle :=
  {| name := n; fallback_name := "Arial"; bold := b; italic := false;
     color_rgb := c |}.

Record StyleConfig : Type := mkStyleConfig {
  title_font : FontStyle;
  body_font : FontStyle;
  source_template : option string
}.

(** [StyleConfig(source_template=..)] with the dataclass default fonts. *)
Definition StyleConfig_new (src : option string) : StyleConfig :=
  {| title_font := FontStyle_new "Arial" true None;
     body_font := FontStyle_new "Arial" false None;
     source_template := src |}.

(** ** [try ... except] *)

(** [try: body  except (classes): handler], where [catches] decides the
    classes named by the [except] clause. *)
Definition try_except {A} (body : result A) (catches : exn -> bool)
    (handler : exn -> result A) : result A :=
  match body with
  | Ok a => Ok a
  | Raise e => if catches e then handler e else Raise e
  end.

Definition is_ValueError_or_IndexError (e : exn) : bool :=
  match e with ValueError _ | IndexError _ => true | _ => false end.

Definition is_ImportError (e : exn) : bool :=
  match e with ImportError _ => true | _ => false end.

(** [except Exception]: every class of [exn] is a subclass of it. *)
Definition is_Exception (e : exn) : bool := true.

Definition bind_result {A B} (r : result A) (k : A -> result B) : result B :=
  match r with Ok a => k a | Raise e => Raise e end.

(** ** [_parse_color] (template_style_extractor.py, lines 172-198) *)

(** [s[i:j]] for [0 <= i <= j]. *)
Fixpoint drop (n : nat) (s : string) : string :=
  match n, s with
  | O, _ => s
  | S _, EmptyString => ""
  | S n', String _ s' => drop n' s'
  end.

Definition slice (i j : nat) (s : string) : string :=
  PyStr.take (j - i) (drop i s).

Definition _parse_color (color_str : option string) : result (option rgb) :=
  if negb (PyStr.truthy (or_empty color_str)) then Ok None
  else
    try_except
      (let color_str := PyStr.lstrip PyStr.is_hash (or_empty color_str) in
       if Nat.eqb (String.length color_str) 6 then
         bind_result (PyInt.int16 (slice 0 2 color_str)) (fun r =>
         bind_result (PyInt.int16 (slice 2 4 color_str)) (fun g =>
         bind_result (PyInt.int16 (slice 4 6 color_str)) (fun b =>
         Ok (Some (r, g, b)))))
       else Ok None)
      is_ValueError_or_IndexError
      (fun _ => Ok None).

(** The pattern [[0-9A-Fa-f]{6}] of the specification, as a full match. *)
Fixpoint all_hex (s : string) : bool :=
  match s with
  | EmptyString => true
  | String c s' =>
      match PyInt.hex_value c with Some _ => all_hex s' | None => false end
  end.




(** ** [pathlib] paths *)

Module Path.

(** A [PurePosixPath]: its root ("", "/" or "//") and its components, with
    the empty and "." components dropped by the constructor. *)
Record t : Type := mk { root : string; parts : list string }.

Definition keep_part (c : string) : bool :=
  negb (String.eqb c "" || String.eqb c ".").

(** [posixpath.splitroot]: one leading slash, or three and more, give the
    root "/"; exactly two give "//". *)
Definition split_root (s : string) : string :=
  match s with
  | String "/" (String "/" (String "/" _)) => "/"
  | String "/" (String "/" _) => "//"
  | String "/" _ => "/"
  | _ => ""
  end.

(** [Path(s)] *)
Definition parse (s : string) : t :=
  {| root := split_root s; parts := List.filter keep_part (PyStr.split "/" s) |}.

(** [a / b] *)
Definition joinpath (a b : t) : t :=
  if PyStr.truthy (root b) then b
  else {| root := root a; parts := parts a ++ parts b |}.

(** [str(p)] *)
Definition str (p : t) : string :=
  match root p, parts p with
  | EmptyString, [] => "."
  | r, l => r +:+ PyStr.join "/" l
  end.

(** The absolute path with the components [l]. *)
Definition of_abs (l : list string) : t := {| root := "/"; parts := l |}.

(** One step of [os.path.realpath] on a file system without symbolic
    links: ".." removes the last component (and stays at the root). *)
Definition resolve_step (acc : list string) (c : string) : list string :=
  if String.eqb c ".." then removelast acc else acc ++ [c].

(** [p.resolve()], in the working directory [cwd]: the components of the
    absolute path, with the root "//" read as "/". *)
Definition resolve (cwd : list string) (p : t) : list string :=
  fold_left resolve_step (parts p) (if PyStr.truthy (root p) then [] else cwd).

(** [name.rfind(".")]: the index of the last dot of a name, if any. *)
Fixpoint rfind_dot (s : string) : option nat :=
  match s with
  | EmptyString => None
  | String c s' =>
      match rfind_dot s' with
      | Some i => Some (S i)
      | None => if Ascii.eqb c "." then Some O else None
      end
  end.

End Path.

(** ** The file system *)

(** A node is a regular file with its bytes, or a directory.  There are no
    symbolic links in the model. *)
Inductive node : Type :=
| File (data : string)
| Dir.

(** The file system maps the component list of an absolute path to its
    node. *)
Abbreviation fs := (gmap (list string) node).

(** The order in which the operating system lists a directory is not
    specified: any rearrangement of the names. *)
Record dir_order : Type := mk_dir_order {
  scan :> list string -> list string;
  scan_perm : forall l, scan l ≡ₚ l
}.

(** Two orders, the one of the map and its reverse. *)
Definition map_order : dir_order :=
  {| scan := fun l => l; scan_perm := fun l => reflexivity l |}.

Definition reverse_order : dir_order :=
  {| scan := @reverse string; scan_perm := @reverse_Permutation string |}.

(** The state-and-exception monad: a raised exception keeps the writes made
    before it. *)
Definition M (A : Type) : Type := fs -> result A * fs.

Definition ret {A} (a : A) : M A := fun σ => (Ok a, σ).
Definition raise {A} (e : exn) : M A := fun σ => (Raise e, σ).
Definition bind {A B} (m : M A) (k : A -> M B) : M B :=
  fun σ => match m σ with
           | (Ok a, σ') => k a σ'
           | (Raise e, σ') => (Raise e, σ')
           end.
Definition lift {A} (r : result A) : M A := fun σ => (r, σ).
Definition gets {A} (f : fs -> A) : M A := fun σ => (Ok (f σ), σ).

Notation "'let*' x ':=' m 'in' k" := (bind m (fun x => k))
  (at level 10, x pattern, m at level 100, k at level 200).

(** [for x in l: f x] *)
Fixpoint for_each {A} (l : list A) (f : A -> M unit) : M unit :=
  match l with
  | [] => ret tt
  | x :: l' => let* _ := f x in for_each l' f
  end.

(** [try: body  except (classes): handler] with state. *)
Definition try_except_M {A} (body : M A) (catches : exn -> bool)
    (handler : exn -> M A) : M A :=
  fun σ => match body σ with
           | (Ok a, σ') => (Ok a, σ')
           | (Raise e, σ') => if catches e then handler e σ' else (Raise e, σ')
           end.

(** ** The text inventory read by [extract_styles] *)

(** The types of [templates/inventory.py], which is not among the sources:
    the attributes that [extract_styles] reads from a paragraph and from a
    shape.  An inventory is a dict of dicts; both are kept as association
    lists in iteration order. *)
Module Inventory.

Record ParagraphData : Type := mkParagraph {
  font_name : option string;
  bold : option bool;
  color : option string
}.

Record ShapeData : Type := mkShape {
  placeholder_type : option string;
  paragraphs : list ParagraphData
}.

Definition slide : Type := list (string * ShapeData).
Definition t : Type := list (string * slide).

End Inventory.

(** ** [get_hpe_default_style] (template_style_extractor.py, lines 200-221) *)

Definition get_hpe_default_style : StyleConfig :=
  {| title_font :=
       {| name := "HPE Graphik Semibold"; fallback_name := "Arial";
          bold := true; italic := false; color_rgb := None |};
     body_font :=
       {| name := "HPE Graphik"; fallback_name := "Arial";
          bold := false; italic := false; color_rgb := None |};
     source_template := Some "HPE defaults" |}.

(** ** [extract_styles] (template_style_extractor.py, lines 57-170) *)

(** What [extract_styles] asks of its surroundings: the outcome of
    [os.stat] on a path, and the import of [inventory], which raises or
    gives the function [extract_text_inventory], which in turn raises or
    gives an inventory.  [os.stat] refuses some paths with an error that
    [Path.exists] (of [pathlib] before 3.14) does not take for an absent
    file, such as a name that is too long (errno 36) or a directory that
    may not be searched: [exists_error] gives that error; for the other
    paths [template_exists] says whether something is there. *)
Record style_env : Type := mk_style_env {
  template_exists : Path.t -> bool;
  exists_error : Path.t -> option exn;
  import_inventory : result (Path.t -> result Inventory.t)
}.

(** [p.exists()]: the error of [os.stat] is raised again unless it says
    that nothing is there. *)
Definition template_path_exists (env : style_env) (p : Path.t) : result bool :=
  match exists_error env p with
  | Some e => Raise e
  | None => Ok (template_exists env p)
  end.

(** The six local variables of the scan (lines 90-95). *)
Record fonts : Type := mk_fonts {
  title_font_name : option string;
  title_font_bold : option bool;
  title_font_color : option rgb;
  body_font_name : option string;
  body_font_bold : option bool;
  body_font_color : option rgb
}.

Definition no_fonts : fonts :=
  {| title_font_name := None; title_font_bold := None;
     title_font_color := None; body_font_name := None;
     body_font_bold := None; body_font_color := None |}.

(** [x in [a, b, ...]] for an optional string. *)
Definition in_names (x : option string) (l : list string) : bool :=
  match x with
  | Some s => existsb (String.eqb s) l
  | None => false
  end.

(** The body of the inner loop (lines 100-128) for one shape. *)
Definition scan_shape (st : fonts) (shape_data : Inventory.ShapeData)
  : result fonts :=
  let placeholder_type := Inventory.placeholder_type shape_data in
  match Inventory.paragraphs shape_data with
  | [] => Ok st
  | first_para :: _ =>
      let font_name := Inventory.font_name first_para in
      let font_bold := Inventory.bold first_para in
      bind_result (_parse_color (Inventory.color first_para)) (fun font_color =>
      if negb (PyStr.truthy (or_empty font_name)) then Ok st
      else if in_names placeholder_type ["TITLE"; "CENTER_TITLE"] then
        if negb (PyStr.truthy (or_empty (title_font_name st))) then
          Ok {| title_font_name := font_name; title_font_bold := font_bold;
                title_font_color := font_color;
                body_font_name := body_font_name st;
                body_font_bold := body_font_bold st;
                body_font_color := body_font_color st |}
        else Ok st
      else if in_names placeholder_type ["BODY"; "SUBTITLE"; "FOOTER"] then
        if negb (PyStr.truthy (or_empty (body_font_name st))) then
          Ok {| title_font_name := title_font_name st;
                title_font_bold := title_font_bold st;
                title_font_color := title_font_color st;
                body_font_name := font_name; body_font_bold := font_bold;
                body_font_color := font_color |}
        else Ok st
      else Ok st)
  end.

Fixpoint scan_slide (st : fonts) (slide_data : Inventory.slide) : result fonts :=
  match slide_data with
  | [] => Ok st
  | (_, shape_data) :: rest =>
      bind_result (scan_shape st shape_data) (fun st' => scan_slide st' rest)
  end.

Fixpoint scan_inventory (st : fonts) (inventory : Inventory.t) : result fonts :=
  match inventory with
  | [] => Ok st
  | (_, slide_data) :: rest =>
      bind_result (scan_slide st slide_data) (fun st' => scan_inventory st' rest)
  end.

(** [b if b is not None else d] *)
Definition bool_or (b : option bool) (d : bool) : bool :=
  match b with Some v => v | None => d end.

(** Lines 130-163: the configuration built from the scanned variables. *)
Definition build_config (template_path : Path.t) (st : fonts) : StyleConfig :=
  let config := StyleConfig_new (Some (Path.str template_path)) in
  let config :=
    if PyStr.truthy (or_empty (title_font_name st)) then
      {| title_font := FontStyle_new (or_empty (title_font_name st))
                         (bool_or (title_font_bold st) true)
                         (title_font_color st);
         body_font := body_font config;
         source_template := source_template config |}
    else
      {| title_font := FontStyle_new "HPE Graphik Semibold" true None;
         body_font := body_font config;
         source_template := source_template config |} in
  if PyStr.truthy (or_empty (body_font_name st)) then
    {| title_font := title_font config;
       body_font := FontStyle_new (or_empty (body_font_name st))
                      (bool_or (body_font_bold st) false)
                      (body_font_color st);
       source_template := source_template config |}
  else
    {| title_font := title_font config;
       body_font := FontStyle_new "HPE Graphik" false None;
       source_template := source_template config |}.

Definition extract_styles (env : style_env) (template_dir : string)
    (content_template : string) : result StyleConfig :=
  let template_path :=
    Path.joinpath (Path.parse template_dir) (Path.parse content_template) in
  bind_result (template_path_exists env template_path) (fun e =>
  if negb e then Ok get_hpe_default_style
  else
    try_except
      (bind_result (import_inventory env) (fun extract_text_inventory =>
       bind_result (extract_text_inventory template_path) (fun inventory =>
       bind_result (scan_inventory no_fonts inventory) (fun st =>
       Ok (build_config template_path st)))))
      (fun e => is_ImportError e || is_Exception e)
      (fun e => if is_ImportError e then Ok get_hpe_default_style
                else Ok get_hpe_default_style)).

(** The default of the parameter [content_template]. *)
Definition default_content_template : string := "non-title-slide.pptx".

(** ** [generate_clean_backgrounds] (pdf_to_pptx.py, lines 135-166) *)

(** [bool(a and b)] for two optional strings. *)
Definition both_set (a b : option string) : bool :=
  PyStr.truthy (or_empty a) && PyStr.truthy (or_empty b).

(** [getenv] is [os.getenv]; [generate_clean_backgrounds_with_inpainting]
    is the static method of [InpaintingExportHelper], imported from
    [export_service_inpainting], which is not among the sources. *)
Definition generate_clean_backgrounds
    (getenv : string -> option string)
    (generate_clean_backgrounds_with_inpainting :
       list string -> string -> bool -> result (list string))
    (image_paths : list string) (mineru_result_dir : string)
  : result (list string) :=
  let volcengine_access_key := getenv "VOLCENGINE_ACCESS_KEY" in
  let volcengine_secret_key := getenv "VOLCENGINE_SECRET_KEY" in
  let use_inpainting := both_set volcengine_access_key volcengine_secret_key in
  if negb use_inpainting then Ok image_paths
  else generate_clean_backgrounds_with_inpainting
         image_paths mineru_result_dir use_inpainting.

(** ** The scan of [extract_styles], shape by shape *)

(** A font found by the scan: family, bold flag, colour. *)
Definition found_font : Type := string * option bool * option rgb.

(** The colour [_parse_color] gives, which is "no colour" if it fails. *)
Definition color_value (c : option string) : option rgb :=
  match _parse_color c with Ok v => v | Raise _ => None end.

(** What the scan reads of one shape (lines 103-113): its first
    paragraph, and only that one, when it names a font. *)
Definition first_run (s : Inventory.ShapeData) : option found_font :=
  match Inventory.paragraphs s with
  | [] => None
  | p :: _ =>
      if PyStr.truthy (or_empty (Inventory.font_name p)) then
        Some (or_empty (Inventory.font_name p), Inventory.bold p,
              color_value (Inventory.color p))
      else None
  end.

Definition is_title_shape (s : Inventory.ShapeData) : bool :=
  in_names (Inventory.placeholder_type s) ["TITLE"; "CENTER_TITLE"].

Definition is_body_shape (s : Inventory.ShapeData) : bool :=
  in_names (Inventory.placeholder_type s) ["BODY"; "SUBTITLE"; "FOOTER"].

(** The shapes of an inventory, in iteration order. *)
Definition shapes_of (inventory : Inventory.t) : list Inventory.ShapeData :=
  concat (map (fun kv => map snd (snd kv)) inventory).

(** What the scan keeps for one category: the reading of the first shape
    of the category that gives one. *)
Fixpoint first_font (cat : Inventory.ShapeData -> bool)
    (l : list Inventory.ShapeData) : option found_font :=
  match l with
  | [] => None
  | s :: l' =>
      match (if cat s then first_run s else None) with
      | Some f => Some f
      | None => first_font cat l'
      end
  end.

(** The font style a found font gives, with the bold flag [d] when the run
    has none; the brand default [dflt] when nothing was found. *)
Definition style_of (f : option found_font) (d : bool) (dflt : string)
  : FontStyle :=
  match f with
  | Some (n, b, c) => FontStyle_new n (bool_or b d) c
  | None => FontStyle_new dflt d None
  end.

(** The first character of [s], if any, is outside the class [p]. *)
Definition head_not (p : ascii -> bool) (s : string) : Prop :=
  match s with EmptyString => True | String c _ => p c = false end.

(** The title and the body font held by the scan variables. *)
Definition title_slot (st : fonts) : option found_font :=
  if PyStr.truthy (or_empty (title_font_name st)) then
    Some (or_empty (title_font_name st), title_font_bold st,
          title_font_color st)
  else None.

Definition body_slot (st : fonts) : option found_font :=
  if PyStr.truthy (or_empty (body_font_name st)) then
    Some (or_empty (body_font_name st), body_font_bold st,
          body_font_color st)
  else None.

(** A slot keeps what it has, and otherwise takes the new font. *)
Definition keep_or (a b : option found_font) : option found_font :=
  match a with Some x => Some x | None => b end.

(** The path [Path(template_dir) / content_template] of [extract_styles]. *)
Definition template_path_of (template_dir content_template : string) : Path.t :=
  Path.joinpath (Path.parse template_dir) (Path.parse content_template).

(** ** File system operations ([os], [pathlib]) *)

Module FS.

(** [os.path.dirname] on component lists. *)
Definition parent (p : list string) : list string := removelast p.

(** [k] without its prefix [d], if [d] is a prefix of [k]. *)
Fixpoint strip_prefix (d k : list string) : option (list string) :=
  match d, k with
  | [], _ => Some k
  | _ :: _, [] => None
  | a :: d', b :: k' => if String.eqb a b then strip_prefix d' k' else None
  end.

Definition under (d k : list string) : bool :=
  match strip_prefix d k with Some _ => true | None => false end.

Definition child_name (d k : list string) : option string :=
  match strip_prefix d k with
  | Some [n] => Some n
  | _ => None
  end.

(** The names of the entries of the directory [d], in the order of the
    map. *)
Definition children (σ : fs) (d : list string) : list string :=
  omap (child_name d) (map_to_list σ).*1.

(** The paths strictly below [d], relative to [d]. *)
Definition descendants (σ : fs) (d : list string) : list (list string) :=
  List.filter (fun q => match q with [] => false | _ => true end)
    (omap (strip_prefix d) (map_to_list σ).*1).

(** The part of the file system below [src], with paths relative to [src]. *)
Definition subtree (src : list string) (σ : fs) : fs :=
  list_to_map
    (omap (fun kv => (fun q => (q, snd kv)) <$> strip_prefix src (fst kv))
       (map_to_list σ)).

(** The file system with what is at and below [src] moved to [dst], in
    place of what was at [dst]. *)
Definition move (src dst : list string) (σ : fs) : fs :=
  kmap (fun q => dst ++ q) (subtree src σ)
  ∪ filter (fun kv => under src (fst kv) = false /\ under dst (fst kv) = false) σ.

Definition is_OSError (e : exn) : bool :=
  match e with
  | FileNotFoundError _ | FileExistsError _ | IsADirectoryError _
  | NotADirectoryError _ | OSError _ => true
  | _ => false
  end.

Definition is_FileNotFoundError (e : exn) : bool :=
  match e with FileNotFoundError _ => true | _ => false end.

Definition is_FileExistsError (e : exn) : bool :=
  match e with FileExistsError _ => true | _ => false end.

(** [p.exists()], [p.is_dir()], [p.is_file()] *)
Definition exists_ (p : list string) : M bool :=
  gets (fun σ => match σ !! p with Some _ => true | None => false end).

Definition is_dir (p : list string) : M bool :=
  gets (fun σ => match σ !! p with Some Dir => true | _ => false end).

Definition is_file (p : list string) : M bool :=
  gets (fun σ => match σ !! p with Some (File _) => true | _ => false end).

(** [list(d.iterdir())]: the entries of [d], in the order [o] of the
    operating system. *)
Definition iterdir (o : dir_order) (d : list string) : M (list (list string)) :=
  fun σ =>
    match σ !! d with
    | Some Dir => (Ok (map (fun n => d ++ [n]) (o (children σ d))), σ)
    | Some (File _) => (Raise (NotADirectoryError (Path.str (Path.of_abs d))), σ)
    | None => (Raise (FileNotFoundError (Path.str (Path.of_abs d))), σ)
    end.

(** The names [d.glob("*" + suffix)] finds: the entries of [d] whose name
    ends with [suffix] (hidden names included, as [pathlib] does), in the
    order [o]; nothing when [d] is not a directory. *)
Definition glob_names (o : dir_order) (σ : fs) (d : list string)
    (suffix : string) : list string :=
  match σ !! d with
  | Some Dir =>
      List.filter (fun n => PyStr.endswith n suffix) (o (children σ d))
  | _ => []
  end.

(** [list(d.glob("*" + suffix))] *)
Definition glob_suffix (o : dir_order) (d : list string) (suffix : string)
  : M (list (list string)) :=
  gets (fun σ => map (fun n => d ++ [n]) (glob_names o σ d suffix)).

(** The list [[p.relative_to(d).as_posix() for p in d.rglob("*")]]. *)
Definition relative_entries (o : dir_order) (σ : fs) (d : list string)
  : list string :=
  match σ !! d with
  | Some Dir => o (map (PyStr.join "/") (descendants σ d))
  | _ => []
  end.

Definition rglob_relative (o : dir_order) (d : list string) : M (list string) :=
  gets (fun σ => relative_entries o σ d).

(** [p.read_bytes()] *)
Definition read_bytes (p : list string) : M string :=
  fun σ =>
    match σ !! p with
    | Some (File data) => (Ok data, σ)
    | Some Dir => (Raise (IsADirectoryError (Path.str (Path.of_abs p))), σ)
    | None => (Raise (FileNotFoundError (Path.str (Path.of_abs p))), σ)
    end.

(** [p.write_bytes(data)], and [open(p, "wb")] followed by the write. *)
Definition write_bytes (p : list string) (data : string) : M unit :=
  fun σ =>
    match σ !! p with
    | Some Dir => (Raise (IsADirectoryError (Path.str (Path.of_abs p))), σ)
    | _ =>
        match σ !! parent p with
        | Some Dir => (Ok tt, <[p := File data]> σ)
        | Some (File _) =>
            (Raise (NotADirectoryError (Path.str (Path.of_abs p))), σ)
        | None => (Raise (FileNotFoundError (Path.str (Path.of_abs p))), σ)
        end
    end.

(** [os.mkdir(p)] *)
Definition os_mkdir (p : list string) : M unit :=
  fun σ =>
    match σ !! p with
    | Some _ => (Raise (FileExistsError (Path.str (Path.of_abs p))), σ)
    | None =>
        match σ !! parent p with
        | Some Dir => (Ok tt, <[p := Dir]> σ)
        | Some (File _) =>
            (Raise (NotADirectoryError (Path.str (Path.of_abs p))), σ)
        | None => (Raise (FileNotFoundError (Path.str (Path.of_abs p))), σ)
        end
    end.

(** [os.makedirs(p)]: the recursion goes up while the parent is missing;
    [fuel] bounds it by the length of [p]. *)
Fixpoint makedirs (fuel : nat) (p : list string) : M unit :=
  match fuel with
  | O => os_mkdir p
  | S fuel' =>
      let head := parent p in
      let* e := exists_ head in
      let* _ :=
        (if negb (bool_decide (p = [])) && negb e then
           try_except_M (makedirs fuel' head) is_FileExistsError
             (fun _ => ret tt)
         else ret tt) in
      os_mkdir p
  end.

(** [p.mkdir(parents=True, exist_ok=True)] *)
Fixpoint mkdir_parents_exist_ok (fuel : nat) (p : list string) : M unit :=
  try_except_M (os_mkdir p) is_OSError
    (fun e =>
       if is_FileNotFoundError e then
         match fuel with
         | S fuel' =>
             if bool_decide (parent p = p) then raise e
             else
               let* _ := mkdir_parents_exist_ok fuel' (parent p) in
               try_except_M (os_mkdir p) is_OSError
                 (fun e' => let* d := is_dir p in
                            if negb d then raise e' else ret tt)
         | O => raise e
         end
       else
         let* d := is_dir p in
         if negb d then raise e else ret tt).

(** [os.rename(src, dst)] *)
Definition rename (src dst : list string) : M unit :=
  fun σ =>
    match σ !! src with
    | None => (Raise (FileNotFoundError (Path.str (Path.of_abs src))), σ)
    | Some n =>
        if bool_decide (src = dst) then (Ok tt, σ)
        else if under src dst then
          (Raise (OSError "Invalid argument"), σ)
        else
          match σ !! parent dst with
          | Some Dir =>
              match σ !! dst, n with
              | None, _ => (Ok tt, move src dst σ)
              | Some (File _), File _ => (Ok tt, move src dst σ)
              | Some (File _), Dir =>
                  (Raise (NotADirectoryError (Path.str (Path.of_abs dst))), σ)
              | Some Dir, File _ =>
                  (Raise (IsADirectoryError (Path.str (Path.of_abs dst))), σ)
              | Some Dir, Dir =>
                  match children σ dst with
                  | [] => (Ok tt, move src dst σ)
                  | _ => (Raise (OSError "Directory not empty"), σ)
                  end
              end
          | Some (File _) =>
              (Raise (NotADirectoryError (Path.str (Path.of_abs dst))), σ)
          | None => (Raise (FileNotFoundError (Path.str (Path.of_abs dst))), σ)
          end
    end.

(** [p.rmdir()] *)
Definition rmdir (p : list string) : M unit :=
  fun σ =>
    match σ !! p with
    | Some Dir =>
        match children σ p with
        | [] => (Ok tt, delete p σ)
        | _ => (Raise (OSError "Directory not empty"), σ)
        end
    | Some (File _) => (Raise (NotADirectoryError (Path.str (Path.of_abs p))), σ)
    | None => (Raise (FileNotFoundError (Path.str (Path.of_abs p))), σ)
    end.

End FS.

(** [sorted(l)] for a list of strings: by code points. *)
Definition str_le (a b : string) : Prop := String.leb a b = true.

#[global] Instance str_le_dec (a b : string) : Decision (str_le a b) :=
  bool_eq_dec (String.leb a b) true.

Definition sorted (l : list string) : list string := merge_sort str_le l.

(** ** File names *)

(** The line feed of the messages. *)
Definition nl : string := String (ascii_of_nat 10) "".

(** [p.name]: the last component. *)
Definition path_name (p : list string) : string := List.last p "".

(** [p.suffix] and [p.stem] of a name (pathlib before 3.14): the name is
    cut at its last dot, unless that dot is its first or its last
    character. *)
Definition cut_at_dot (name : string) : option nat :=
  match Path.rfind_dot name with
  | Some i =>
      if (0 <? i)%nat && (i <? String.length name - 1)%nat then Some i else None
  | None => None
  end.

Definition suffix_of (name : string) : string :=
  match cut_at_dot name with Some i => drop i name | None => "" end.

Definition stem_of (name : string) : string :=
  match cut_at_dot name with Some i => PyStr.take i name | None => name end.

(** [s.lower()] on the code points below 256. *)
Definition lower_char (c : ascii) : ascii :=
  let n := N_of_ascii c in
  if ((65 <=? n) && (n <=? 90)
      || (192 <=? n) && (n <=? 222) && negb (n =? 215))%N
  then ascii_of_N (n + 32) else c.

Fixpoint lower (s : string) : string :=
  match s with
  | EmptyString => EmptyString
  | String c s' => String (lower_char c) (lower s')
  end.

(** ** Zip archives ([zipfile]) *)

(** A member of an archive: its name and its bytes. *)
Record ZipInfo : Type := mkZipInfo { filename : string; file_data : string }.

(** [member.is_dir()] *)
Definition zip_is_dir (member : ZipInfo) : bool :=
  PyStr.endswith (filename member) "/".

(** The components [ZipFile._extract_member] keeps of a member name. *)
Definition valid_part (c : string) : bool :=
  negb (String.eqb c "" || String.eqb c "." || String.eqb c "..").

(** [ZipFile._extract_member(member, targetpath)] *)
Definition extract_member (targetpath : list string) (member : ZipInfo) : M unit :=
  let arcname := List.filter valid_part (PyStr.split "/" (filename member)) in
  let targetpath := targetpath ++ arcname in
  let upperdirs := FS.parent targetpath in
  let* e := FS.exists_ upperdirs in
  let* _ := (if negb e then FS.makedirs (length upperdirs) upperdirs
             else ret tt) in
  if zip_is_dir member then
    let* d := FS.is_dir targetpath in
    if negb d then FS.os_mkdir targetpath else ret tt
  else FS.write_bytes targetpath (file_data member).

(** [zf.extractall(path)] *)
Definition extractall (zf : list ZipInfo) (path : list string) : M unit :=
  for_each zf (extract_member path).

(** ** [_safe_extractall] (self_hosted_mineru.py, lines 54-63) *)

(** The resolved destination of a member (line 60). *)
Definition member_dest (cwd out_dir_resolved : list string) (member : ZipInfo)
  : list string :=
  Path.resolve cwd
    (Path.joinpath (Path.of_abs out_dir_resolved) (Path.parse (filename member))).

(** The test of line 61. *)
Definition unsafe_dest (out_dir_resolved dest : list string) : bool :=
  negb (PyStr.startswith (Path.str (Path.of_abs dest))
          (Path.str (Path.of_abs out_dir_resolved) +:+ "/"))
  && negb (bool_decide (dest = out_dir_resolved)).

Definition _safe_extractall (cwd : list string) (zf : list ZipInfo)
    (out_dir : Path.t) : M unit :=
  let out_dir_resolved := Path.resolve cwd out_dir in
  let* _ :=
    for_each zf (fun member =>
      let dest := member_dest cwd out_dir_resolved member in
      if unsafe_dest out_dir_resolved dest then
        raise (RuntimeError ("Unsafe path in zip: " +:+ filename member))
      else ret tt) in
  extractall zf out_dir_resolved.

(** ** [_flatten_single_top_level_dir] (self_hosted_mineru.py, lines 66-101) *)

Definition ignored_names : list string := ["__MACOSX"; ".DS_Store"].

(** The loop of lines 77-82. *)
Fixpoint flatten_candidates (entries : list (list string))
  : M (list (list string)) :=
  match entries with
  | [] => ret []
  | p :: rest =>
      if existsb (String.eqb (path_name p)) ignored_names then
        flatten_candidates rest
      else
        let* f := FS.is_file p in
        if f && String.eqb (lower (suffix_of (path_name p))) ".zip" then
          flatten_candidates rest
        else
          let* candidates := flatten_candidates rest in
          ret (p :: candidates)
  end.

(** The body of the loop of lines 92-96. *)
Definition hoist_entry (extract_dir p : list string) : M unit :=
  let target := extract_dir ++ [path_name p] in
  let* e := FS.exists_ target in
  if e then
    raise (RuntimeError
             ("Cannot flatten zip output; target already exists: "
              +:+ Path.str (Path.of_abs target)))
  else FS.rename p target.

Definition _flatten_single_top_level_dir (o : dir_order)
    (extract_dir : list string) : M unit :=
  let* entries := FS.iterdir o extract_dir in
  let* candidates := flatten_candidates entries in
  match candidates with
  | [only] =>
      let* d := FS.is_dir only in
      if negb d then ret tt
      else
        let* inner := FS.iterdir o only in
        let* _ := for_each inner (hoist_entry extract_dir) in
        try_except_M (FS.rmdir only) FS.is_OSError (fun _ => ret tt)
  | _ => ret tt
  end.

(** ** [_ensure_layout_json_from_middle_json] (lines 104-132) *)

Definition multiple_middle_message (extract_dir : list string)
    (middle_candidates : list (list string)) : string :=
  "Multiple *_middle.json files found but layout.json is missing. "
  +:+ "Cannot choose which to copy in " +:+ Path.str (Path.of_abs extract_dir)
  +:+ "." +:+ nl +:+ "Candidates:" +:+ nl
  +:+ PyStr.join nl (sorted (map path_name middle_candidates)).

Definition _ensure_layout_json_from_middle_json (o : dir_order)
    (extract_dir : list string) (pdf_stem : string) : M unit :=
  let layout_path := extract_dir ++ ["layout.json"] in
  let* e := FS.exists_ layout_path in
  if e then ret tt
  else
    let preferred := extract_dir ++ [pdf_stem +:+ "_middle.json"] in
    let* middle_candidates := FS.glob_suffix o extract_dir "_middle.json" in
    let* pe := FS.exists_ preferred in
    let chosen :=
      if pe then Some preferred
      else match middle_candidates with
           | [c] => Some c
           | _ => None
           end in
    match chosen with
    | None =>
        match middle_candidates with
        | [] => ret tt
        | _ => raise (RuntimeError
                        (multiple_middle_message extract_dir middle_candidates))
        end
    | Some chosen =>
        let* data := FS.read_bytes chosen in
        FS.write_bytes layout_path data
    end.

(** ** [_post_file_parse] (self_hosted_mineru.py, lines 135-155) *)

(** A [requests.Response]: status, decoded text, raw content. *)
Record Response : Type := mkResponse {
  status_code : Z;
  text : string;
  content : string
}.

(** [resp.ok]: the status is not a 4xx or 5xx. *)
Definition resp_ok (resp : Response) : bool :=
  negb ((400 <=? status_code resp) && (status_code resp <? 600)).

(** What the client asks of its surroundings: the working directory and
    [expanduser] of [pathlib], [uuid.uuid4().hex], the time stamp,
    [requests.post] (endpoint, form fields, name and bytes of the file,
    timeout), [zipfile.is_zipfile] and the member list of
    [zipfile.ZipFile], the lenient UTF-8 decoder, and the order in which
    directories are listed.  [path_error] is the error with which the
    operating system refuses a path in a state of the file system, before
    it looks at what is there: a component that is too long (errno 36), a
    directory on the way that may not be searched.  Every call that is
    given the path fails with it, and [Path.exists] and [Path.is_dir] (of
    [pathlib] before 3.14) do not take it for an absent file. *)
Record client_env : Type := mk_client_env {
  cwd : list string;
  path_error : fs -> list string -> option exn;
  expanduser : Path.t -> Path.t;
  uuid4_hex : string;
  _timestamp : string;
  requests_post :
    string -> gmap string string -> string * string -> Z -> result Response;
  is_zipfile : string -> bool;
  ZipFile_infolist : string -> result (list ZipInfo);
  decode_utf8_replace : string -> string;
  listing : dir_order
}.

(** A call that is given the path [p], a path that the caller of the
    client has a say in: the operating system may refuse the path, and
    then nothing is done. *)
Definition on_path {A} (env : client_env) (p : list string) (m : M A) : M A :=
  fun σ => match path_error env σ p with
           | Some e => (Raise e, σ)
           | None => m σ
           end.

(** [p.exists()], [p.is_dir()], [os.mkdir(p)] and [p.write_bytes(data)] on
    such a path; [Path.exists] and [Path.is_dir] raise the error of the
    operating system again. *)
Definition path_exists (env : client_env) (p : list string) : M bool :=
  on_path env p (FS.exists_ p).

Definition path_is_dir (env : client_env) (p : list string) : M bool :=
  on_path env p (FS.is_dir p).

Definition path_mkdir (env : client_env) (p : list string) : M unit :=
  on_path env p (FS.os_mkdir p).

Definition path_write_bytes (env : client_env) (p : list string)
    (data : string) : M unit :=
  on_path env p (FS.write_bytes p data).

(** [p.mkdir(parents=True, exist_ok=True)] on such a path. *)
Fixpoint path_mkdir_parents_exist_ok (env : client_env) (fuel : nat)
    (p : list string) : M unit :=
  try_except_M (path_mkdir env p) FS.is_OSError
    (fun e =>
       if FS.is_FileNotFoundError e then
         match fuel with
         | S fuel' =>
             if bool_decide (FS.parent p = p) then raise e
             else
               let* _ := path_mkdir_parents_exist_ok env fuel' (FS.parent p) in
               try_except_M (path_mkdir env p) FS.is_OSError
                 (fun e' => let* d := path_is_dir env p in
                            if negb d then raise e' else ret tt)
         | O => raise e
         end
       else
         let* d := path_is_dir env p in
         if negb d then raise e else ret tt).

Definition truncation_marker : string := nl +:+ "... (truncated) ...".

(** Lines 150-152. *)
Definition error_snippet (body : string) : string :=
  if (Z.to_nat 10000 <? String.length body)%nat then
    PyStr.take (Z.to_nat 10000) body +:+ truncation_marker
  else body.

Definition _post_file_parse (env : client_env) (endpoint : string)
    (pdf_path : list string) (form_fields : gmap string string)
    (timeout_s : Z) : M string :=
  let* f := FS.read_bytes pdf_path in
  let* resp :=
    lift (requests_post env endpoint form_fields (path_name pdf_path, f)
            timeout_s) in
  if negb (resp_ok resp) then
    let snippet := error_snippet (text resp) in
    raise (RuntimeError
             ("Self-hosted MinerU error HTTP " +:+ pretty (status_code resp)
              +:+ ": " +:+ snippet))
  else ret (content resp).

(** ** [parse_pdf_via_self_hosted_mineru] (lines 158-240) *)

(** The form fields of lines 184-200. *)
Definition default_fields (output_dir_field : string) : gmap string string :=
  list_to_map
    [("return_middle_json", "true"); ("return_model_output", "true");
     ("return_md", "true"); ("return_images", "true");
     ("end_page_id", "99999"); ("parse_method", "auto");
     ("start_page_id", "0"); ("lang_list", "en");
     ("output_dir", output_dir_field); ("server_url", "string");
     ("return_content_list", "true"); ("backend", "hybrid-auto-engine");
     ("table_enable", "true"); ("response_format_zip", "true");
     ("formula_enable", "true")].

(** Lines 184-202: the defaults, updated with the overrides when there are
    some. *)
Definition request_fields (output_dir_field : string)
    (form_overrides : option (gmap string string)) : gmap string string :=
  let fields := default_fields output_dir_field in
  match form_overrides with
  | Some ov => if bool_decide (ov = ∅) then fields else ov ∪ fields
  | None => fields
  end.

Definition non_zip_message (zip_path : list string) (sniff : string) : string :=
  "Self-hosted MinerU returned non-zip payload. "
  +:+ "Saved to " +:+ Path.str (Path.of_abs zip_path) +:+ ". Snippet:" +:+ nl
  +:+ sniff.

(** The preview of lines 231-234: at most 200 entries, and a marker when
    there are more. *)
Definition listing_preview (entries : list string) : string :=
  let preview := PyStr.join nl (List.firstn (Z.to_nat 200) entries) in
  if (Z.to_nat 200 <? length entries)%nat then preview +:+ truncation_marker
  else preview.

Definition missing_content_list_message (extract_dir : list string)
    (preview : string) : string :=
  "Self-hosted MinerU ZIP extracted, but no *_content_list.json was found under "
  +:+ Path.str (Path.of_abs extract_dir) +:+ "." +:+ nl
  +:+ "Extracted entries:" +:+ nl +:+ preview.

(** Lines 227-240: the check of the expected artifacts, and the result. *)
Definition check_content_list (o : dir_order) (extract_id : string)
    (extract_dir : list string) : M (string * list string) :=
  let* content_list_files := FS.glob_suffix o extract_dir "_content_list.json" in
  match content_list_files with
  | [] =>
      let* rel := FS.rglob_relative o extract_dir in
      let entries := sorted rel in
      raise (RuntimeError
               (missing_content_list_message extract_dir
                  (listing_preview entries)))
  | _ => ret (extract_id, extract_dir)
  end.

(** Lines 172-225: the request, the saved archive, the unpacking and the
    normalization; the result is the identifier and the directory. *)
Definition fetch_and_unpack (env : client_env) (pdf_path : Path.t)
    (mineru_api_base : string) (upload_folder : Path.t)
    (output_dir_field : string) (timeout_s : Z)
    (form_overrides : option (gmap string string))
  : M (string * list string) :=
  let endpoint := resolve_self_hosted_endpoint (Some mineru_api_base) in
  let pdf_path := Path.resolve (cwd env) (expanduser env pdf_path) in
  let upload_folder := Path.resolve (cwd env) (expanduser env upload_folder) in
  let* e := path_exists env pdf_path in
  if negb e then
    raise (FileNotFoundError
             ("PDF not found: " +:+ Path.str (Path.of_abs pdf_path)))
  else
    let extract_id := PyStr.take 8 (uuid4_hex env) in
    let extract_dir := upload_folder ++ ["mineru_files"; extract_id] in
    let* _ :=
      path_mkdir_parents_exist_ok env (length extract_dir) extract_dir in
    let fields := request_fields output_dir_field form_overrides in
    let* content :=
      _post_file_parse env endpoint pdf_path fields timeout_s in
    let zip_path :=
      extract_dir ++ [stem_of (path_name pdf_path) +:+ "-mineru-"
                      +:+ _timestamp env +:+ ".zip"] in
    let* _ := path_write_bytes env zip_path content in
    if negb (is_zipfile env content) then
      let sniff := decode_utf8_replace env (PyStr.take (Z.to_nat 5000) content) in
      raise (RuntimeError (non_zip_message zip_path sniff))
    else
      let* saved := FS.read_bytes zip_path in
      let* zf := lift (ZipFile_infolist env saved) in
      let* _ := _safe_extractall (cwd env) zf (Path.of_abs extract_dir) in
      let* _ := _flatten_single_top_level_dir (listing env) extract_dir in
      let* _ := _ensure_layout_json_from_middle_json (listing env) extract_dir
                  (stem_of (path_name pdf_path)) in
      ret (extract_id, extract_dir).

Definition parse_pdf_via_self_hosted_mineru (env : client_env)
    (pdf_path : Path.t) (mineru_api_base : string) (upload_folder : Path.t)
    (output_dir_field : string) (timeout_s : Z)
    (form_overrides : option (gmap string string))
  : M (string * list string) :=
  let* unpacked :=
    fetch_and_unpack env pdf_path mineru_api_base upload_folder
      output_dir_field timeout_s form_overrides in
  check_content_list (listing env) (fst unpacked) (snd unpacked).

(** ** The hoist of [_flatten_single_top_level_dir], path by path *)

(** The entries the loop of lines 77-82 keeps. *)
Definition flatten_candidate (σ : fs) (p : list string) : bool :=
  negb (existsb (String.eqb (path_name p)) ignored_names)
  && negb (match σ !! p with Some (File _) => true | _ => false end
           && String.eqb (lower (suffix_of (path_name p))) ".zip").

(** The node at [p] once the entries named [l] of the directory
    [d/top] are moved up into [d]. *)
Definition hoisted (σ : fs) (d : list string) (top : string)
    (l : list string) (p : list string) : option node :=
  match FS.strip_prefix d p with
  | Some (n :: q) =>
      if bool_decide (n ∈ l) then σ !! (d ++ top :: n :: q)
      else if bool_decide (n = top) then
        match q with
        | m :: _ => if bool_decide (m ∈ l) then None else σ !! p
        | [] => σ !! p
        end
      else σ !! p
  | _ => σ !! p
  end.

(** ** Names without a separator *)

(** No character of [s] is the separator "/". *)
Fixpoint no_slash (s : string) : bool :=
  match s with
  | EmptyString => true
  | String c s' => negb (Ascii.eqb c "/") && no_slash s'
  end.

(** What a directory creation changes: only missing prefixes of the path,
    which become directories. *)
Definition only_creates (p : list string) (σ σ1 : fs) : Prop :=
  forall k, σ1 !! k = σ !! k
            \/ (σ !! k = None /\ σ1 !! k = Some Dir /\ FS.under k p = true).

(** What an unpacking into [out] changes: paths at or below [out], and
    missing ancestors of [out], which become directories. *)
Definition writes_within (out : list string) (σ σ1 : fs) : Prop :=
  forall k, σ1 !! k = σ !! k
            \/ FS.under out k = true
            \/ (σ !! k = None /\ σ1 !! k = Some Dir /\ FS.under k out = true).

(** What the loop of the hoist needs of the names still to move. *)
Definition hoist_inv (d : list string) (top : string) (σ : fs)
    (l : list string) : Prop :=
  NoDup l
  /\ (forall n, n ∈ l -> is_Some (σ !! ((d ++ [top]) ++ [n])))
  /\ σ !! d = Some Dir
  /\ σ !! (d ++ [top]) = Some Dir.

(** ** Inside a directory *)

(** [dest] is strictly inside [out]: below it, and not [out] itself. *)
Definition strictly_inside (out dest : list string) : Prop :=
  FS.under out dest = true /\ dest <> out.

(** [l] joined with a "/" after each name. *)
Fixpoint join_trailing (l : list string) : string :=
  match l with
  | [] => ""
  | a :: l' => a +:+ "/" +:+ join_trailing l'
  end.

(** The names the loop of lines 77-82 keeps. *)
Definition candidate_names (o : dir_order) (d : list string) (σ : fs)
  : list string :=
  List.filter (fun n => flatten_candidate σ (d ++ [n])) (o (FS.children σ d)).

(** An entry of [d] that is neither ignored nor a saved zip file. *)
Definition top_level_candidate (σ : fs) (d : list string) (n : string) : Prop :=
  is_Some (σ !! (d ++ [n])) /\ flatten_candidate σ (d ++ [n]) = true.

(** The paths of [_ensure_layout_json_from_middle_json] (lines 110, 114),
    and an entry of the directory named [*_middle.json]. *)
Definition layout_path_of (extract_dir : list string) : list string :=
  extract_dir ++ ["layout.json"].

Definition preferred_middle (extract_dir : list string) (pdf_stem : string)
  : list string :=
  extract_dir ++ [pdf_stem +:+ "_middle.json"].

Definition middle_candidate (σ : fs) (extract_dir : list string) (n : string)
  : Prop :=
  is_Some (σ !! (extract_dir ++ [n])) /\ PyStr.endswith n "_middle.json" = true.

(** The names an extraction call computes (lines 172-181 and 211). *)
Definition call_endpoint (mineru_api_base : string) : string :=
  resolve_self_hosted_endpoint (Some mineru_api_base).

Definition call_pdf (env : client_env) (pdf_path : Path.t) : list string :=
  Path.resolve (cwd env) (expanduser env pdf_path).

Definition call_extract_dir (env : client_env) (upload_folder : Path.t)
  : list string :=
  Path.resolve (cwd env) (expanduser env upload_folder)
  ++ ["mineru_files"; PyStr.take 8 (uuid4_hex env)].

Definition call_zip_path (env : client_env) (pdf_path upload_folder : Path.t)
  : list string :=
  call_extract_dir env upload_folder
  ++ [stem_of (path_name (call_pdf env pdf_path)) +:+ "-mineru-"
      +:+ _timestamp env +:+ ".zip"].

(** ** Sample inputs *)

(** [c * n] *)
Fixpoint replicate_char (n : nat) (c : ascii) : string :=
  match n with
  | O => ""
  | S n' => String c (replicate_char n' c)
  end.

(** Linux refuses a name of more than 255 bytes: [os.stat] of a path whose
    first component, under the root, is that long fails with errno 36. *)
Definition first_name_too_long (p : list string) : option exn :=
  match p with
  | c :: _ =>
      if (255 <? String.length c)%nat then
        Some (OSError ("[Errno 36] File name too long: '"
                       +:+ Path.str (Path.of_abs p) +:+ "'"))
      else None
  | [] => None
  end.




(** An inventory with two title placeholders and a body placeholder. *)
Definition sample_inventory : Inventory.t :=
  [("slide-0",
    [("shape-0",
      Inventory.mkShape (Some "TITLE")
        [Inventory.mkParagraph (Some "Metric") None (Some "01A982")]);
     ("shape-1",
      Inventory.mkShape (Some "BODY")
        [Inventory.mkParagraph (Some "Metric Light") (Some false) None]);
     ("shape-2",
      Inventory.mkShape (Some "CENTER_TITLE")
        [Inventory.mkParagraph (Some "Other") (Some false) None])])].

Definition env_sample : style_env :=
  {| template_exists := fun _ => true;
     exists_error := fun _ => None;
     import_inventory := Ok (fun _ => Ok sample_inventory) |}.

(** A file system with an upload folder and two PDF files. *)
Definition sample_fs : fs :=
  list_to_map
    [([], Dir); (["up"], Dir); (["doc.pdf"], File "%PDF-1.7");
     (["t"], Dir); (["t"; "saved.zip"], File "PK");
     (["t"; "doc"], Dir); (["t"; "doc"; "doc_middle.json"], File "{}");
     (["t"; "doc"; "images"], Dir);
     (["t"; "doc"; "images"; "a.png"], File "PNG")].

(** Three services: one that answers 500, one that answers 200 with a page
    of HTML, and one that answers 200 with an archive. *)
Definition sample_client (resp : Response) (zip : bool) : client_env :=
  {| cwd := [];
     path_error := fun _ => first_name_too_long;
     expanduser := fun p => p;
     uuid4_hex := "0123abcd4567ef890123abcd4567ef89";
     _timestamp := "20260101-120000";
     requests_post := fun _ _ _ _ => Ok resp;
     is_zipfile := fun _ => zip;
     ZipFile_infolist :=
       fun _ => Ok [mkZipInfo "doc/doc_content_list.json" "[]";
                    mkZipInfo "doc/doc_middle.json" "{}"];
     decode_utf8_replace := fun s => s;
     listing := map_order |}.

Definition sample_extract_dir : list string := ["up"; "mineru_files"; "0123abcd"].

(** ** [is_self_hosted_mineru] (self_hosted_mineru.py, lines 30-31) *)

(** [sub in s] *)
Fixpoint str_in (sub s : string) : bool :=
  if PyStr.startswith s sub then true
  else match s with
       | EmptyString => false
       | String _ s' => str_in sub s'
       end.

Definition is_self_hosted_mineru (mineru_api_base : option string) : bool :=
  str_in "hpecorp" (lower (or_empty mineru_api_base)).

(** ** [os.getenv] *)

(** [os.getenv(key, default)]: the default stands in only when the
    variable is unset. *)
Definition getenv_default (getenv : string -> option string)
    (key default : string) : string :=
  match getenv key with Some v => v | None => default end.

(** ** [os.path.join] *)

(** [os.path.join(a, b)] of [posixpath]: an absolute [b] stands alone, and
    a separator is put between the two unless [a] is empty or ends with
    one. *)
Definition os_path_join (a b : string) : string :=
  if PyStr.startswith b "/" then b
  else if negb (PyStr.truthy a) || PyStr.endswith a "/" then a +:+ b
  else a +:+ "/" +:+ b.

(** ** [pdf_to_images] (pdf_to_pptx.py, lines 48-76) *)

Fixpoint zeros (n : nat) : string :=
  match n with
  | O => ""
  | S n' => String "0" (zeros n')
  end.

(** [format(i, "03d")] for [i >= 0]: the decimal digits, with zeros on the
    left up to three characters. *)
Definition format_03d (i : nat) : string :=
  zeros (3 - String.length (pretty i)) +:+ pretty i.

(** [f"page_{i:03d}.png"] *)
Definition page_file_name (i : nat) : string :=
  "page_" +:+ format_03d i +:+ ".png".

(** What [pdf_to_images] asks of its surroundings:
    [os.makedirs(path, exist_ok=True)], and of PyMuPDF [fitz.open(path)],
    which raises or gives the pages of the document,
    [page.get_pixmap(matrix=fitz.Matrix(a, b))] ([None]: without a matrix),
    [pix.save(path)] and [doc.close()]. *)
Record pdf_env : Type := mk_pdf_env {
  page : Type;
  pixmap : Type;
  os_makedirs_exist_ok : string -> M unit;
  fitz_open : string -> M (list page);
  get_pixmap : page -> option (Z * Z) -> result pixmap;
  pix_save : pixmap -> string -> M unit;
  doc_close : M unit
}.

(** The loop of lines 67-73 from the index [i] on, with the paths it
    appends. *)
Fixpoint save_pages (env : pdf_env) (matrix : option (Z * Z))
    (output_dir : string) (i : nat) (doc : list (page env)) : M (list string) :=
  match doc with
  | [] => ret []
  | page :: rest =>
      let* pix := lift (get_pixmap env page matrix) in
      let img_path := os_path_join output_dir (page_file_name i) in
      let* _ := pix_save env pix img_path in
      let* image_paths := save_pages env matrix output_dir (S i) rest in
      ret (img_path :: image_paths)
  end.

Definition pdf_to_images (env : pdf_env) (pdf_path output_dir : string)
  : M (list string) :=
  let* _ := os_makedirs_exist_ok env output_dir in
  let* doc := fitz_open env pdf_path in
  let* image_paths := save_pages env (Some (2, 2)) output_dir 0 doc in
  let* _ := doc_close env in
  ret image_paths.

(** ** experimental/pdf_to_pptx_recur.py *)

Module Recur.

(** The dictionary [check_environment] returns. *)
Record env_config : Type := mk_env_config {
  mineru_token : string;
  mineru_api_base : string;
  baidu_ocr_enabled : bool
}.

(** [check_environment] (lines 83-113), without its log lines. *)
Definition check_environment (getenv : string -> option string)
  : result env_config :=
  let mineru_token := getenv "MINERU_TOKEN" in
  let volcengine_ak := getenv "VOLCENGINE_ACCESS_KEY" in
  let volcengine_sk := getenv "VOLCENGINE_SECRET_KEY" in
  let baidu_api_key := getenv "BAIDU_OCR_API_KEY" in
  if negb (PyStr.truthy (or_empty mineru_token)) then
    Raise (ValueError "MINERU_TOKEN not configured in .env file")
  else if negb (PyStr.truthy (or_empty volcengine_ak))
          || negb (PyStr.truthy (or_empty volcengine_sk)) then
    Raise (ValueError "VOLCENGINE credentials not configured in .env file")
  else
    Ok {| mineru_token := or_empty mineru_token;
          mineru_api_base :=
            getenv_default getenv "MINERU_API_BASE" "https://mineru.net";
          baidu_ocr_enabled := PyStr.truthy (or_empty baidu_api_key) |}.

(** [pdf_to_images] (lines 52-80): as in [pdf_to_pptx.py], but the pages
    are rendered at their native size. *)
Definition pdf_to_images (env : pdf_env) (pdf_path output_dir : string)
  : M (list string) :=
  let* _ := os_makedirs_exist_ok env output_dir in
  let* doc := fitz_open env pdf_path in
  let* image_paths := save_pages env None output_dir 0 doc in
  let* _ := doc_close env in
  ret image_paths.

End Recur.

(** ** [parse_pdf_with_mineru] (pdf_to_pptx.py, lines 80-132) *)

(** The tuple [FileParserService.parse_file] returns. *)
Record ParseFileResult : Type := mkParseFileResult {
  batch_id : option string;
  markdown : option string;
  parsed_extract_id : option string;
  parse_error : option string;
  failed_count : Z
}.

(** What the script asks of its surroundings: the environment variables,
    its own path ([__file__]), the client's surroundings, and
    [FileParserService(mineru_token, mineru_api_base).parse_file(pdf_path,
    filename)] of [file_parser_service], which is not among the sources. *)
Record script_env : Type := mk_script_env {
  os_getenv : string -> option string;
  script_file : Path.t;
  client : client_env;
  parse_file : string -> string -> string -> string -> M ParseFileResult
}.

(** [p.parent] of a resolved path. *)
Definition parent3 (p : list string) : list string :=
  FS.parent (FS.parent (FS.parent p)).

Definition parse_pdf_with_mineru (env : script_env) (pdf_path filename : string)
  : M string :=
  let mineru_token := os_getenv env "MINERU_TOKEN" in
  let mineru_api_base :=
    getenv_default (os_getenv env) "MINERU_API_BASE" "https://mineru.net" in
  if is_self_hosted_mineru (Some mineru_api_base) then
    let upload_folder := os_getenv env "UPLOAD_FOLDER" in
    let upload_root :=
      if PyStr.truthy (or_empty upload_folder) then
        Path.parse (or_empty upload_folder)
      else
        Path.joinpath
          (Path.of_abs
             (parent3 (Path.resolve (cwd (client env)) (script_file env))))
          (Path.parse "uploads") in
    let* unpacked :=
      parse_pdf_via_self_hosted_mineru (client env) (Path.parse pdf_path)
        mineru_api_base upload_root "./output" 300 None in
    ret (fst unpacked)
  else if negb (PyStr.truthy (or_empty mineru_token)) then
    raise (ValueError
             "MINERU_TOKEN not configured in .env file (required for mineru.net)")
  else
    let* parsed :=
      parse_file env (or_empty mineru_token) mineru_api_base pdf_path filename in
    if PyStr.truthy (or_empty (parse_error parsed)) then
      raise (ValueError
               ("MinerU parsing failed: " +:+ or_empty (parse_error parsed)))
    else if negb (PyStr.truthy (or_empty (parsed_extract_id parsed))) then
      raise (ValueError "MinerU parsing failed: no extract_id returned")
    else ret (or_empty (parsed_extract_id parsed)).

(** ** [os.path.basename], [os.path.dirname] *)

(** [s.rfind(c)]: the index of the last [c] of [s], if any. *)
Fixpoint str_rfind (c : ascii) (s : string) : option nat :=
  match s with
  | EmptyString => None
  | String a s' =>
      match str_rfind c s' with
      | Some i => Some (S i)
      | None => if Ascii.eqb a c then Some O else None
      end
  end.

(** [p.rfind("/") + 1] *)
Definition after_last_slash (p : string) : nat :=
  match str_rfind "/" p with Some i => S i | None => O end.

(** [os.path.basename(p)] *)
Definition os_path_basename (p : string) : string := drop (after_last_slash p) p.

(** [sep * n] *)
Fixpoint slashes (n : nat) : string :=
  match n with
  | O => ""
  | S n' => String "/" (slashes n')
  end.

(** [os.path.dirname(p)] *)
Definition os_path_dirname (p : string) : string :=
  let head := PyStr.take (after_last_slash p) p in
  if PyStr.truthy head && negb (String.eqb head (slashes (String.length head)))
  then PyStr.rstrip PyStr.is_slash head
  else head.

(** [p.parent] of a pure path. *)
Definition path_parent (p : Path.t) : Path.t :=
  {| Path.root := Path.root p; Path.parts := removelast (Path.parts p) |}.

(** ** [create_editable_pptx], [main] (pdf_to_pptx.py, lines 169-323) *)

(** What the script asks of its surroundings besides the MinerU services
    and the rendering of the pages: the test that something is at a path
    given as a string ([os.path.exists] at line 217, [Path.exists] at line
    231), an action that answers or raises, the size of an
    image opened with [PIL.Image.open], and the two services
    [InpaintingExportHelper.generate_clean_backgrounds_with_inpainting] and
    [ExportService.create_editable_pptx_from_mineru], which are not among
    the sources. *)
Record main_env : Type := mk_main_env {
  script : script_env;
  pdf : pdf_env;
  os_path_exists : string -> M bool;
  image_size : string -> M (Z * Z);
  generate_clean_backgrounds_with_inpainting :
    list string -> string -> bool -> result (list string);
  create_editable_pptx_from_mineru :
    string -> string -> Z -> Z -> list string -> option string -> M unit
}.

Definition create_editable_pptx (env : main_env)
    (mineru_result_dir output_file : string) (slide_width slide_height : Z)
    (background_images : list string) (template_dir : option string) : M unit :=
  let output_dir := os_path_dirname output_file in
  let* _ := (if PyStr.truthy output_dir
             then os_makedirs_exist_ok (pdf env) output_dir
             else ret tt) in
  create_editable_pptx_from_mineru env mineru_result_dir output_file
    slide_width slide_height background_images template_dir.

(** [script_dir = Path(__file__).parent] (line 33). *)
Definition script_dir (env : main_env) : Path.t :=
  path_parent (script_file (script env)).

(** Step 2 of [main] (lines 260-296): the directory of the MinerU results,
    an existing one that is checked, or the one of a new parse. *)
Definition mineru_results_of (env : main_env) (pdf_path : string)
    (mineru_results_dir : option string) : M string :=
  if PyStr.truthy (or_empty mineru_results_dir) then
    let c := client (script env) in
    let mineru_dir :=
      Path.resolve (cwd c)
        (expanduser c (Path.parse (or_empty mineru_results_dir))) in
    let* e := path_exists c mineru_dir in
    let* d := (if e then path_is_dir c mineru_dir else ret false) in
    if negb e || negb d then
      raise (ValueError
               ("--mineru-results-dir does not exist or is not a directory: "
                +:+ Path.str (Path.of_abs mineru_dir)))
    else
      let* content_list_files :=
        FS.glob_suffix (listing c) mineru_dir "_content_list.json" in
      match content_list_files with
      | [] =>
          raise (ValueError
                   ("No *_content_list.json found in --mineru-results-dir: "
                    +:+ Path.str (Path.of_abs mineru_dir)))
      | _ => ret (Path.str (Path.of_abs mineru_dir))
      end
  else
    let* extract_id :=
      parse_pdf_with_mineru (script env) pdf_path (os_path_basename pdf_path) in
    let upload_folder := os_getenv (script env) "UPLOAD_FOLDER" in
    let upload_folder :=
      if negb (PyStr.truthy (or_empty upload_folder)) then
        let project_root := path_parent (path_parent (script_dir env)) in
        Path.str (Path.joinpath project_root (Path.parse "uploads"))
      else or_empty upload_folder in
    ret (os_path_join (os_path_join upload_folder "mineru_files") extract_id).

(** How a run of the script ends when it raises nothing: at its end, or in
    [sys.exit]. *)
Inductive exit_status : Type :=
| Completed
| Exited (code : Z).

Definition main (env : main_env) (pdf_path : string)
    (output_dir template_dir mineru_results_dir : option string)
  : M exit_status :=
  let* e := os_path_exists env pdf_path in
  if negb e then ret (Exited 1)
  else
    let output_dir :=
      match output_dir with
      | None => Path.joinpath (script_dir env) (Path.parse "output_files")
      | Some d => Path.parse d
      end in
    let images_dir := Path.joinpath output_dir (Path.parse "images") in
    let* _ := os_makedirs_exist_ok (pdf env) (Path.str images_dir) in
    let* template_dir :=
      match template_dir with
      | None =>
          let default_template_dir :=
            Path.joinpath (script_dir env) (Path.parse "templates") in
          let* t := os_path_exists env (Path.str default_template_dir) in
          if t then ret (Some (Path.str default_template_dir)) else ret None
      | Some t => ret (Some t)
      end in
    let pdf_name := stem_of (path_name (Path.parts (Path.parse pdf_path))) in
    let output_pptx :=
      Path.joinpath output_dir (Path.parse (pdf_name +:+ ".pptx")) in
    let* image_paths := pdf_to_images (pdf env) pdf_path (Path.str images_dir) in
    let* size :=
      match image_paths with
      | [] => raise (IndexError "list index out of range")
      | first :: _ => image_size env first
      end in
    let* mineru_result_dir := mineru_results_of env pdf_path mineru_results_dir in
    let* clean_bg_paths :=
      lift (generate_clean_backgrounds (os_getenv (script env))
              (generate_clean_backgrounds_with_inpainting env)
              image_paths mineru_result_dir) in
    let* _ :=
      create_editable_pptx env mineru_result_dir (Path.str output_pptx)
        (fst size) (snd size) clean_bg_paths template_dir in
    ret Completed.

(** A script run from [/srv/app/src/pdf_to_pptx.py] with the environment
    variables [vars], the surroundings [c] of the client, and a cloud
    parser that answers [parsed] and writes nothing. *)
Definition sample_script (vars : list (string * string)) (c : client_env)
    (parsed : ParseFileResult) : script_env :=
  {| os_getenv := fun k => (list_to_map vars : gmap string string) !! k;
     script_file := Path.parse "/srv/app/src/pdf_to_pptx.py";
     client := c;
     parse_file := fun _ _ _ _ => ret parsed |}.

(** The client whose service answers 200 with an archive. *)
Definition sample_archive_client : client_env :=
  sample_client (mkResponse 200 "" "PK-archive") true.

(** A document of three pages whose page [k] is rendered as "png-k";
    paths are read from the root directory. *)
Definition sample_pdf_env : pdf_env :=
  {| page := string;
     pixmap := string;
     os_makedirs_exist_ok := fun d =>
       FS.mkdir_parents_exist_ok 8 (Path.resolve [] (Path.parse d));
     fitz_open := fun _ => ret ["1"; "2"; "3"];
     get_pixmap := fun p _ => Ok ("png-" +:+ p);
     pix_save := fun pix path =>
       FS.write_bytes (Path.resolve [] (Path.parse path)) pix;
     doc_close := ret tt |}.

(** The surroundings of a run of the script [s]: the sample document, an
    image size, no inpainting service and an export that writes the
    presentation; paths are read from the root directory. *)
Definition sample_main (s : script_env) : main_env :=
  {| script := s;
     pdf := sample_pdf_env;
     os_path_exists := fun p => FS.exists_ (Path.resolve [] (Path.parse p));
     image_size := fun _ => ret (1920, 1080);
     generate_clean_backgrounds_with_inpainting := fun l _ _ => Ok l;
     create_editable_pptx_from_mineru := fun _ output_file _ _ _ _ =>
       FS.write_bytes (Path.resolve [] (Path.parse output_file)) "PPTX" |}.

(** A self-hosted configuration with the upload folder [/up]. *)
Definition sample_self_hosted : script_env :=
  sample_script [("MINERU_API_BASE", "http://ai23.labs.hpecorp.net:8023");
                 ("UPLOAD_FOLDER", "/up")]
    sample_archive_client
    (mkParseFileResult None None None (Some "not reached") 0).

(** ** Frames *)

(** What a call confined to [d] changes: nothing that is not at or below
    [d]. *)
Definition confined (d : list string) (σ σ1 : fs) : Prop :=
  forall k, FS.under d k = false -> σ1 !! k = σ !! k.

(** An action that, whatever its outcome, changes only paths at or below
    [out], and missing ancestors of [out], which become directories. *)
Definition within {A} (out : list string) (m : M A) : Prop :=
  forall σ r σ1, m σ = (r, σ1) -> writes_within out σ σ1.

(** ** Colour components *)

(** The range of [int(s, 16)] on two characters: a sign and a digit give
    down to -15, two digits up to 255. *)
Definition component_ok (v : Z) : Prop := -15 <= v <= 255.

Definition rgb_ok (c : option rgb) : Prop :=
  match c with
  | Some (r, g, b) => component_ok r /\ component_ok g /\ component_ok b
  | None => True
  end.

(** What every font style of a configuration satisfies. *)
Definition font_ok (f : FontStyle) : Prop :=
  name f <> "" /\ fallback_name f = "Arial" /\ italic f = false
  /\ rgb_ok (color_rgb f).

(** The path [ZipFile._extract_member] writes a member to, under [out]. *)
Definition member_target (out : list string) (member : ZipInfo) : list string :=
  out ++ List.filter valid_part (PyStr.split "/" (filename member)).

(** The digits of a number: not empty, and with a leading zero only for
    "0" itself. *)
Definition canonical_digits (s : string) : Prop :=
  s <> "" /\ forall t, s = String "0" t -> t = "".

(** The paths [pdf_to_images] returns for a document of [n] pages. *)
Definition page_paths (output_dir : string) (i n : nat) : list string :=
  map (fun j => os_path_join output_dir (page_file_name j)) (seq i n).

(** ** Colour strings, read pair by pair *)

(** The place of a character in a string, counted from 0. *)
Fixpoint place_in (c : ascii) (s : string) : option nat :=
  match s with
  | EmptyString => None
  | String a s' =>
      if Ascii.eqb a c then Some O
      else match place_in c s' with Some i => Some (S i) | None => None end
  end.

(** The value of a hexadecimal digit: its place among the sixteen digits,
    in lower or in upper case. *)
Definition hex_digit (c : ascii) : option Z :=
  match place_in c "0123456789abcdef", place_in c "ABCDEF" with
  | Some i, _ => Some (Z.of_nat i)
  | None, Some i => Some (10 + Z.of_nat i)
  | None, None => None
  end.

(** The blanks that [int] skips around a number: TAB, LF, VT, FF, CR,
    SPACE, NEL and NBSP. *)
Definition int_blank (c : ascii) : bool :=
  existsb (N.eqb (N_of_ascii c)) [9; 10; 11; 12; 13; 32; 133; 160]%N.

(** The pairs of characters that [int(pair, 16)] reads, and their values:
    two digits; a sign and a digit; a blank and a digit; a digit and a
    blank.  Every other pair is refused. *)
Definition pair_value (a b : ascii) : option Z :=
  match hex_digit a, hex_digit b with
  | Some x, Some y => Some (16 * x + y)
  | None, Some y =>
      if Ascii.eqb a "+" then Some y
      else if Ascii.eqb a "-" then Some (- y)
      else if int_blank a then Some y
      else None
  | Some x, None => if int_blank b then Some x else None
  | None, None => None
  end.

(** What is left of a string once its leading "#" characters are
    removed. *)
Fixpoint after_hashes (s : string) : string :=
  match s with
  | String "#" s' => after_hashes s'
  | _ => s
  end.

(** The colour of six characters, pair by pair; no colour when a pair is
    refused, and for a string of another length. *)
Definition six_chars_color (t : string) : option rgb :=
  match t with
  | String a (String b (String c (String d (String e (String f EmptyString))))) =>
      match pair_value a b, pair_value c d, pair_value e f with
      | Some r, Some g, Some b' => Some (r, g, b')
      | _, _, _ => None
      end
  | _ => None
  end.

(** The colour of a colour string. *)
Definition color_of (color_str : option string) : option rgb :=
  match color_str with
  | Some s => six_chars_color (after_hashes s)
  | None => None
  end.

(** The 256 characters. *)
Definition all_chars : list ascii := map ascii_of_nat (seq 0 256).

(** ** The scan of [extract_styles], as the specification words it *)

(** "The first non-empty run of text in a placeholder" of a category: the
    runs are the paragraphs of the placeholders of the category, in
    iteration order, and a run is not empty when it names a font. *)
Definition non_empty_run (p : Inventory.ParagraphData) : bool :=
  PyStr.truthy (or_empty (Inventory.font_name p)).

Definition spec_first_non_empty_run (cat : Inventory.ShapeData -> bool)
    (inventory : Inventory.t) : option Inventory.ParagraphData :=
  List.find non_empty_run
    (concat (map Inventory.paragraphs (List.filter cat (shapes_of inventory)))).

(** ** The first match of the scan *)

(** The placeholder type of [s] is one of [types]. *)
Definition has_type (types : list string) (s : Inventory.ShapeData) : Prop :=
  exists t, Inventory.placeholder_type s = Some t /\ t ∈ types.

(** The first paragraph of [s] is [p], and it names the font [n]. *)
Definition leads_with_font (s : Inventory.ShapeData)
    (p : Inventory.ParagraphData) (n : string) : Prop :=
  (exists ps, Inventory.paragraphs s = p :: ps)
  /\ Inventory.font_name p = Some n /\ n <> "".

(** No shape of [l] has a type of [types] and a first paragraph that names
    a font. *)
Definition no_match (types : list string) (l : list Inventory.ShapeData)
  : Prop :=
  forall s p n, s ∈ l -> has_type types s -> ~ leads_with_font s p n.

(** The first shape of [shapes] with a type of [types] whose first
    paragraph names a font has the first paragraph [p], which names [n]. *)
Definition first_match (types : list string)
    (shapes : list Inventory.ShapeData) (p : Inventory.ParagraphData)
    (n : string) : Prop :=
  exists before s after,
    shapes = before ++ s :: after
    /\ has_type types s /\ leads_with_font s p n
    /\ no_match types before.

(** ** More sample inputs *)


(** A title placeholder whose first paragraph names no font and whose
    second one does, followed by another title placeholder. *)
Definition two_paragraph_inventory : Inventory.t :=
  [("slide-0",
    [("shape-0",
      Inventory.mkShape (Some "TITLE")
        [Inventory.mkParagraph None None None;
         Inventory.mkParagraph (Some "SecondParagraphFont") (Some true) None]);
     ("shape-1",
      Inventory.mkShape (Some "TITLE")
        [Inventory.mkParagraph (Some "LaterShapeFont") None (Some "GGGGGG")])])].

Definition env_two_paragraphs : style_env :=
  {| template_exists := fun _ => true;
     exists_error := fun _ => None;
     import_inventory := Ok (fun _ => Ok two_paragraph_inventory) |}.

(** A service that answers 200 with a page of HTML followed by the end
    record of an archive whose directory is cut short:
    [zipfile.is_zipfile] finds the record and accepts the payload, and
    [zipfile.ZipFile] raises [BadZipFile]. *)
Definition html_with_end_record : string :=
  "<html>PK"
  +:+ string_of_list_ascii
        (map ascii_of_nat [5; 6; 0; 0; 0; 0; 1; 0; 1; 0; 4; 0; 0; 0; 0; 0; 0; 0;
                           0; 0])%nat.

Definition sample_bad_zip_client : client_env :=
  {| cwd := [];
     path_error := fun _ => first_name_too_long;
     expanduser := fun p => p;
     uuid4_hex := "0123abcd4567ef890123abcd4567ef89";
     _timestamp := "20260101-120000";
     requests_post := fun _ _ _ _ => Ok (mkResponse 200 "" html_with_end_record);
     is_zipfile := fun _ => true;
     ZipFile_infolist := fun _ => Raise (BadZipFile "Truncated central directory");
     decode_utf8_replace := fun s => s;
     listing := map_order |}.

(** A service that answers 200 with an archive that holds the members
    [zf]. *)
Definition sample_client_of (zf : list ZipInfo) : client_env :=
  {| cwd := [];
     path_error := fun _ => first_name_too_long;
     expanduser := fun p => p;
     uuid4_hex := "0123abcd4567ef890123abcd4567ef89";
     _timestamp := "20260101-120000";
     requests_post := fun _ _ _ _ => Ok (mkResponse 200 "" "PK-archive");
     is_zipfile := fun _ => true;
     ZipFile_infolist := fun _ => Ok zf;
     decode_utf8_replace := fun s => s;
     listing := map_order |}.

(** The refusal of a name of more than 255 bytes, wherever it stands in
    the path. *)
Definition name_too_long (p : list string) : option exn :=
  if existsb (fun c => (255 <? String.length c)%nat) p then
    Some (OSError ("[Errno 36] File name too long: '"
                   +:+ Path.str (Path.of_abs p) +:+ "'"))
  else None.

(** A PDF whose name the operating system accepts, of a stem so long that
    the name of the archive file, <stem>-mineru-<timestamp>.zip, is
    refused, and a service that answers 200 with a page of HTML. *)
Definition long_stem : string := replicate_char 240 "d".

Definition long_stem_fs : fs :=
  <[[long_stem +:+ ".pdf"] := File "%PDF-1.7"]> sample_fs.

Definition long_stem_client : client_env :=
  {| cwd := [];
     path_error := fun _ => name_too_long;
     expanduser := fun p => p;
     uuid4_hex := "0123abcd4567ef890123abcd4567ef89";
     _timestamp := "20260101-120000";
     requests_post := fun _ _ _ _ => Ok (mkResponse 200 "<html>" "<html>");
     is_zipfile := fun _ => false;
     ZipFile_infolist := fun _ => Raise (BadZipFile "File is not a zip file");
     decode_utf8_replace := fun s => s;
     listing := map_order |}.

(** * Theorems *)

(** Discharge the first hypothesis of [H] by evaluation. *)
Ltac discharge H :=
  match type of H with
  | ?A -> _ =>
      let HA := fresh "HA" in
      assert (HA : A) by (vm_compute; first [reflexivity | discriminate]);
      specialize (H HA); clear HA
  end.

(** * Facts about the string operations *)

Section strip_facts.
Variable p : ascii -> bool.

Lemma lstrip_head_not s : head_not p (PyStr.lstrip p s).
Proof.
  induction s as [|c s IH]; simpl; [exact I|].
  destruct (p c) eqn:E; [exact IH | exact E].
Qed.

Lemma lstrip_fixed s : head_not p s -> PyStr.lstrip p s = s.
Proof. destruct s as [|c s]; simpl; [reflexivity|]. intros ->. reflexivity. Qed.

Lemma rstrip_head_not s : head_not p s -> head_not p (PyStr.rstrip p s).
Proof.
  destruct s as [|c s]; simpl; [auto|]. intros Hc.
  destruct (PyStr.rstrip p s); [rewrite Hc|]; exact Hc.
Qed.

Lemma rstrip_idem s : PyStr.rstrip p (PyStr.rstrip p s) = PyStr.rstrip p s.
Proof.
  induction s as [|c s IH]; simpl; [reflexivity|].
  destruct (PyStr.rstrip p s) as [|d r] eqn:E.
  - destruct (p c) eqn:Ec; simpl; [reflexivity|]. rewrite Ec. reflexivity.
  - change (PyStr.rstrip p (String c (String d r)))
      with (match PyStr.rstrip p (String d r) with
            | EmptyString => if p c then EmptyString else String c EmptyString
            | r' => String c r'
            end).
    rewrite IH. reflexivity.
Qed.

Lemma rstrip_app a b :
  PyStr.rstrip p b <> "" -> PyStr.rstrip p (a +:+ b) = a +:+ PyStr.rstrip p b.
Proof.
  intros Hb. induction a as [|c a IH]; [reflexivity|].
  change (String c a +:+ b) with (String c (a +:+ b)).
  change (String c a +:+ PyStr.rstrip p b)
    with (String c (a +:+ PyStr.rstrip p b)).
  simpl. rewrite IH. destruct (a +:+ PyStr.rstrip p b) eqn:E; [|reflexivity].
  destruct a; simpl in E; [contradiction | discriminate].
Qed.
End strip_facts.

Lemma strip_idem s : PyStr.strip (PyStr.strip s) = PyStr.strip s.
Proof.
  unfold PyStr.strip.
  rewrite (lstrip_fixed PyStr.is_space).
  - apply rstrip_idem.
  - apply rstrip_head_not, lstrip_head_not.
Qed.

Lemma strip_head_not s : head_not PyStr.is_space (PyStr.strip s).
Proof. apply rstrip_head_not, lstrip_head_not. Qed.

Lemma endswith_refl s : PyStr.endswith s s = true.
Proof. destruct s; simpl; rewrite ?String.eqb_refl, ?Ascii.eqb_refl; reflexivity. Qed.

Lemma endswith_app a suf : PyStr.endswith (a +:+ suf) suf = true.
Proof.
  induction a as [|c a IH].
  - apply endswith_refl.
  - change (String c a +:+ suf) with (String c (a +:+ suf)).
    simpl. rewrite IH.
    match goal with |- (if ?b then _ else _) = _ => destruct b end; reflexivity.
Qed.

Lemma truthy_false s : PyStr.truthy s = false -> s = "".
Proof. destruct s; [reflexivity | discriminate]. Qed.

(** The result of [resolve_self_hosted_endpoint] is already stripped. *)
Lemma resolve_stripped x :
  PyStr.strip (resolve_self_hosted_endpoint x) = resolve_self_hosted_endpoint x.
Proof.
  unfold resolve_self_hosted_endpoint.
  set (u := PyStr.strip (or_empty x)).
  assert (Hu : PyStr.strip u = u) by apply strip_idem.
  assert (Hh : head_not PyStr.is_space u) by apply strip_head_not.
  destruct (PyStr.truthy u) eqn:Et.
  - destruct (PyStr.endswith u "/file_parse") eqn:Ee; [exact Hu|].
    unfold PyStr.strip. rewrite lstrip_fixed.
    + rewrite rstrip_app; [reflexivity | discriminate].
    + pose proof (rstrip_head_not PyStr.is_slash u) as Hr.
      destruct u as [|c u']; [discriminate|].
      simpl in *. destruct (PyStr.rstrip PyStr.is_slash u').
      * destruct (PyStr.is_slash c); simpl; [reflexivity | exact Hh].
      * exact Hh.
  - reflexivity.
Qed.

Lemma resolve_truthy x : PyStr.truthy (resolve_self_hosted_endpoint x) = true.
Proof.
  unfold resolve_self_hosted_endpoint.
  set (u := PyStr.strip (or_empty x)).
  destruct (PyStr.truthy u) eqn:Et.
  - destruct (PyStr.endswith u "/file_parse"); [exact Et|].
    destruct (PyStr.rstrip PyStr.is_slash u); reflexivity.
  - reflexivity.
Qed.

Lemma resolve_endswith x :
  PyStr.endswith (resolve_self_hosted_endpoint x) "/file_parse" = true.
Proof.
  unfold resolve_self_hosted_endpoint.
  set (u := PyStr.strip (or_empty x)).
  destruct (PyStr.truthy u).
  - destruct (PyStr.endswith u "/file_parse") eqn:Ee; [exact Ee|].
    apply endswith_app.
  - reflexivity.
Qed.

(** C10. For every input (a string, or [None]) the result ends in
    "/file_parse"; a blank or empty input gives the default endpoint; an
    input that, stripped, already ends in "/file_parse" is returned
    stripped; otherwise "/file_parse" is appended once the trailing slashes
    are removed; and the function is idempotent. *)
Theorem resolve_self_hosted_endpoint_spec (x : option string) :
  let u := PyStr.strip (or_empty x) in
  let r := resolve_self_hosted_endpoint x in
  PyStr.endswith r "/file_parse" = true
  /\ (u = "" -> r = DEFAULT_SELF_HOSTED_ENDPOINT)
  /\ (PyStr.endswith u "/file_parse" = true -> r = u)
  /\ (u <> "" -> PyStr.endswith u "/file_parse" = false ->
      r = PyStr.rstrip PyStr.is_slash u +:+ "/file_parse")
  /\ resolve_self_hosted_endpoint (Some r) = r.
Proof.
  intros u r. split; [apply resolve_endswith|].
  split; [|split; [|split]].
  - intros Hu. subst r. unfold resolve_self_hosted_endpoint.
    fold u. rewrite Hu. reflexivity.
  - intros He. subst r. unfold resolve_self_hosted_endpoint. fold u.
    destruct (PyStr.truthy u) eqn:Et; [rewrite He; reflexivity|].
    apply truthy_false in Et. rewrite Et in He. discriminate.
  - intros Hne He. subst r. unfold resolve_self_hosted_endpoint. fold u.
    destruct u; [contradiction|]. simpl PyStr.truthy. cbv iota.
    rewrite He. reflexivity.
  - unfold resolve_self_hosted_endpoint at 1. simpl or_empty.
    fold r. subst r. rewrite resolve_stripped, resolve_truthy, resolve_endswith.
    reflexivity.
Qed.

(** * [_parse_color] *)

Lemma int16_raises s e :
  PyInt.int16 s = Raise e -> is_ValueError_or_IndexError e = true.
Proof.
  unfold PyInt.int16, PyInt.invalid_literal. intros H.
  repeat case_match; simplify_eq; reflexivity.
Qed.



Lemma parse_color_Ok x : is_Ok (_parse_color x) = true.
Proof.
  unfold _parse_color. destruct (negb _); [reflexivity|].
  unfold try_except, bind_result.
  repeat case_match; simplify_eq; try reflexivity;
    match goal with
    | H : PyInt.int16 _ = Raise _ |- _ => apply int16_raises in H; congruence
    end.
Qed.




(** The leniency of [int] shows at inputs with no "#" as well. *)
Example parse_color_signed :
  _parse_color (Some "+1+2+3") = Ok (Some (1, 2, 3))
  /\ _parse_color (Some "-1-2-3") = Ok (Some (-1, -2, -3)).
Proof. split; vm_compute; reflexivity. Qed.

Lemma all_ascii (c : ascii) : In c (map ascii_of_nat (seq 0 256)).
Proof.
  rewrite <- (ascii_nat_embedding c). apply in_map, in_seq.
  pose proof (nat_ascii_bounded c). lia.
Qed.

(** [int(pair, 16)] on each of the 65536 pairs of characters: the value of
    the table, or a [ValueError]. *)
Lemma int16_pairs_table :
  forallb
    (fun c1 =>
       forallb
         (fun c2 =>
            match PyInt.int16 (String c1 (String c2 "")), pair_value c1 c2 with
            | Ok v, Some w => Z.eqb v w
            | Raise (ValueError _), None => true
            | _, _ => false
            end)
         all_chars)
    all_chars = true.
Proof. vm_compute. reflexivity. Qed.

Lemma int16_pair (c1 c2 : ascii) :
  match pair_value c1 c2 with
  | Some v => PyInt.int16 (String c1 (String c2 "")) = Ok v
  | None => exists msg, PyInt.int16 (String c1 (String c2 "")) = Raise (ValueError msg)
  end.
Proof.
  pose proof int16_pairs_table as Hall.
  rewrite forallb_forall in Hall. specialize (Hall c1 (all_ascii c1)).
  rewrite forallb_forall in Hall. specialize (Hall c2 (all_ascii c2)).
  destruct (pair_value c1 c2) as [w|];
    destruct (PyInt.int16 (String c1 (String c2 ""))) as [v|[]];
    try discriminate Hall.
  - apply Z.eqb_eq in Hall. subst w. reflexivity.
  - eexists. reflexivity.
Qed.

Lemma lstrip_after_hashes (s : string) :
  PyStr.lstrip PyStr.is_hash s = after_hashes s.
Proof.
  induction s as [|c s IH]; [reflexivity|]. cbn [PyStr.lstrip].
  destruct (PyStr.is_hash c) eqn:E.
  - apply Ascii.eqb_eq in E. subst c. exact IH.
  - destruct c as [[] [] [] [] [] [] [] []]; first [reflexivity | discriminate E].
Qed.


Lemma six_chars_color_length (t : string) :
  String.length t <> 6%nat -> six_chars_color t = None.
Proof.
  intros H. do 6 (destruct t as [|? t]; [reflexivity|]).
  destruct t; [contradiction H; reflexivity | reflexivity].
Qed.

(** [_parse_color] computes the colour of the table. *)
Lemma parse_color_eq (x : option string) : _parse_color x = Ok (color_of x).
Proof.
  destruct x as [s|]; [|reflexivity].
  unfold _parse_color, color_of. cbn [or_empty].
  destruct s as [|c0 s0]; [reflexivity|].
  cbn [PyStr.truthy negb]. rewrite lstrip_after_hashes.
  generalize (after_hashes (String c0 s0)). clear c0 s0. intros t.
  destruct (Nat.eqb (String.length t) 6) eqn:El.
  2:{ apply Nat.eqb_neq in El. rewrite (six_chars_color_length t El).
      reflexivity. }
  do 6 (destruct t as [|? t]; [discriminate El|]).
  destruct t; [|discriminate El].
  unfold slice. cbn [drop PyStr.take Nat.sub six_chars_color].
  pose proof (int16_pair a a0) as H1. pose proof (int16_pair a1 a2) as H2.
  pose proof (int16_pair a3 a4) as H3.
  destruct (pair_value a a0) as [r|]; [rewrite H1|destruct H1 as [m ->]];
    [|reflexivity].
  destruct (pair_value a1 a2) as [g|]; [rewrite H2|destruct H2 as [m ->]];
    [|reflexivity].
  destruct (pair_value a3 a4) as [b|]; [rewrite H3|destruct H3 as [m ->]];
    reflexivity.
Qed.


(** * [generate_clean_backgrounds] *)

(** C5. When the access key or the secret key is unset (or empty),
    [generate_clean_backgrounds] returns the list of page images it was
    given, whatever the list, and raises nothing. *)
Theorem generate_clean_backgrounds_identity
    (getenv : string -> option string)
    (helper : list string -> string -> bool -> result (list string))
    (image_paths : list string) (mineru_result_dir : string) :
  both_set (getenv "VOLCENGINE_ACCESS_KEY") (getenv "VOLCENGINE_SECRET_KEY")
    = false ->
  generate_clean_backgrounds getenv helper image_paths mineru_result_dir
    = Ok image_paths.
Proof. intros H. unfold generate_clean_backgrounds. rewrite H. reflexivity. Qed.

(** * [extract_styles] *)

Section scan_facts.
Import Inventory.

Lemma title_body_disjoint s : is_title_shape s = true -> is_body_shape s = false.
Proof.
  unfold is_title_shape, is_body_shape, in_names.
  destruct (placeholder_type s) as [t|]; [|discriminate]. simpl.
  rewrite !orb_false_r. intros H. apply orb_true_iff in H.
  destruct H as [H|H]; apply String.eqb_eq in H; subst t; reflexivity.
Qed.

Lemma scan_shape_slots st s :
  exists st', scan_shape st s = Ok st'
    /\ title_slot st' =
         keep_or (title_slot st) (if is_title_shape s then first_run s else None)
    /\ body_slot st' =
         keep_or (body_slot st) (if is_body_shape s then first_run s else None).
Proof.
  unfold scan_shape, first_run, color_value.
  pose proof (title_body_disjoint s) as Hd.
  fold (is_title_shape s). fold (is_body_shape s).
  destruct (paragraphs s) as [|p ps].
  { exists st. split; [reflexivity|].
    split; [destruct (is_title_shape s) | destruct (is_body_shape s)];
      destruct (title_slot st), (body_slot st); reflexivity. }
  pose proof (parse_color_Ok (color p)) as Hc.
  destruct (_parse_color (color p)) as [c|e]; [clear Hc | discriminate Hc].
  simpl bind_result.
  destruct (PyStr.truthy (or_empty (font_name p))) eqn:En; simpl negb; cbv iota.
  2:{ exists st. split; [reflexivity|].
      split; [destruct (is_title_shape s) | destruct (is_body_shape s)];
        destruct (title_slot st), (body_slot st); reflexivity. }
  destruct (is_title_shape s) eqn:Et.
  - rewrite (Hd eq_refl).
    destruct (PyStr.truthy (or_empty (title_font_name st))) eqn:Es;
      simpl negb; cbv iota; eexists; (split; [reflexivity|]);
      unfold title_slot, body_slot, keep_or; simpl; rewrite ?Es, ?En;
      split; repeat case_match; first [reflexivity | congruence].
  - destruct (is_body_shape s) eqn:Eb.
    + destruct (PyStr.truthy (or_empty (body_font_name st))) eqn:Es;
        simpl negb; cbv iota; eexists; (split; [reflexivity|]);
        unfold title_slot, body_slot, keep_or; simpl; rewrite ?Es, ?En;
        split; repeat case_match; first [reflexivity | congruence].
    + exists st. split; [reflexivity|].
      split; [destruct (title_slot st) | destruct (body_slot st)]; reflexivity.
Qed.

Lemma keep_or_assoc a b c : keep_or (keep_or a b) c = keep_or a (keep_or b c).
Proof. destruct a; reflexivity. Qed.

Lemma first_font_app cat l1 l2 :
  first_font cat (l1 ++ l2) = keep_or (first_font cat l1) (first_font cat l2).
Proof.
  induction l1 as [|s l1 IH]; simpl; [reflexivity|].
  destruct (if cat s then first_run s else None); [reflexivity | exact IH].
Qed.

Lemma scan_slide_slots slide_data : forall st,
  exists st', scan_slide st slide_data = Ok st'
    /\ title_slot st' =
         keep_or (title_slot st) (first_font is_title_shape (map snd slide_data))
    /\ body_slot st' =
         keep_or (body_slot st) (first_font is_body_shape (map snd slide_data)).
Proof.
  induction slide_data as [|[k s] rest IH]; intros st; simpl.
  - exists st. split; [reflexivity|].
    split; [destruct (title_slot st) | destruct (body_slot st)]; reflexivity.
  - destruct (scan_shape_slots st s) as (st1 & E1 & Ht1 & Hb1).
    rewrite E1. simpl bind_result.
    destruct (IH st1) as (st2 & E2 & Ht2 & Hb2).
    exists st2. split; [exact E2|].
    rewrite Ht2, Hb2, Ht1, Hb1, !keep_or_assoc. split; reflexivity.
Qed.

Lemma scan_inventory_slots inventory : forall st,
  exists st', scan_inventory st inventory = Ok st'
    /\ title_slot st' =
         keep_or (title_slot st) (first_font is_title_shape (shapes_of inventory))
    /\ body_slot st' =
         keep_or (body_slot st) (first_font is_body_shape (shapes_of inventory)).
Proof.
  induction inventory as [|[k sl] rest IH]; intros st; simpl.
  - exists st. split; [reflexivity|].
    split; [destruct (title_slot st) | destruct (body_slot st)]; reflexivity.
  - destruct (scan_slide_slots sl st) as (st1 & E1 & Ht1 & Hb1).
    rewrite E1. simpl bind_result.
    destruct (IH st1) as (st2 & E2 & Ht2 & Hb2).
    exists st2. split; [exact E2|].
    unfold shapes_of in *. simpl. rewrite !first_font_app.
    rewrite Ht2, Hb2, Ht1, Hb1, !keep_or_assoc. split; reflexivity.
Qed.

Lemma build_config_slots template_path st :
  build_config template_path st =
    {| title_font := style_of (title_slot st) true "HPE Graphik Semibold";
       body_font := style_of (body_slot st) false "HPE Graphik";
       source_template := Some (Path.str template_path) |}.
Proof.
  unfold build_config, title_slot, body_slot, style_of.
  destruct (PyStr.truthy (or_empty (title_font_name st)));
    destruct (PyStr.truthy (or_empty (body_font_name st))); reflexivity.
Qed.
End scan_facts.

Lemma extract_styles_exists_raises env template_dir content_template e :
  exists_error env (template_path_of template_dir content_template) = Some e ->
  extract_styles env template_dir content_template = Raise e.
Proof.
  intros H. unfold extract_styles, template_path_exists.
  fold (template_path_of template_dir content_template). rewrite H. reflexivity.
Qed.

Lemma extract_styles_after_exists env template_dir content_template :
  let template_path := template_path_of template_dir content_template in
  exists_error env template_path = None ->
  extract_styles env template_dir content_template =
    if negb (template_exists env template_path) then Ok get_hpe_default_style
    else
      try_except
        (bind_result (import_inventory env) (fun extract_text_inventory =>
         bind_result (extract_text_inventory template_path) (fun inventory =>
         bind_result (scan_inventory no_fonts inventory) (fun st =>
         Ok (build_config template_path st)))))
        (fun e => is_ImportError e || is_Exception e)
        (fun e => if is_ImportError e then Ok get_hpe_default_style
                  else Ok get_hpe_default_style).
Proof.
  intros template_path H. unfold extract_styles, template_path_exists.
  fold (template_path_of template_dir content_template). fold template_path.
  rewrite H. reflexivity.
Qed.




Lemma extract_styles_scan env template_dir content_template f inventory :
  let template_path := template_path_of template_dir content_template in
  exists_error env template_path = None ->
  template_exists env template_path = true ->
  import_inventory env = Ok f ->
  f template_path = Ok inventory ->
  extract_styles env template_dir content_template =
    Ok {| title_font :=
            style_of (first_font is_title_shape (shapes_of inventory))
              true "HPE Graphik Semibold";
          body_font :=
            style_of (first_font is_body_shape (shapes_of inventory))
              false "HPE Graphik";
          source_template := Some (Path.str template_path) |}.
Proof.
  intros template_path Hx He Hi Hf.
  rewrite (extract_styles_after_exists _ _ _ Hx). fold template_path.
  rewrite He, Hi. simpl. rewrite Hf. simpl.
  destruct (scan_inventory_slots inventory no_fonts) as (st & Es & Ht & Hb).
  rewrite Es. simpl. rewrite build_config_slots, Ht, Hb. reflexivity.
Qed.

Lemma first_font_shapes_app cat (inventory more : Inventory.t) :
  first_font cat (shapes_of (inventory ++ more)) =
    keep_or (first_font cat (shapes_of inventory)) (first_font cat (shapes_of more)).
Proof. unfold shapes_of. rewrite map_app, concat_app. apply first_font_app. Qed.

(** ** The first match, and what the scan keeps *)

Lemma in_names_has_type (types : list string) (s : Inventory.ShapeData) :
  in_names (Inventory.placeholder_type s) types = true <-> has_type types s.
Proof.
  unfold in_names, has_type.
  destruct (Inventory.placeholder_type s) as [t|].
  - rewrite existsb_exists. split.
    + intros (y & Hy & E). apply String.eqb_eq in E. subst y.
      exists t. split; [reflexivity|]. apply list_elem_of_In, Hy.
    + intros (y & [= <-] & Hy). exists t. split; [apply list_elem_of_In, Hy|].
      apply String.eqb_refl.
  - split; [discriminate|]. intros (y & E & _). discriminate E.
Qed.

Lemma first_run_leads (s : Inventory.ShapeData) (p : Inventory.ParagraphData)
    (n : string) :
  leads_with_font s p n ->
  first_run s = Some (n, Inventory.bold p, color_of (Inventory.color p)).
Proof.
  intros ((ps & Hp) & Hn & Hne). unfold first_run, color_value.
  rewrite Hp, Hn, parse_color_eq. cbn [or_empty].
  destruct n; [contradiction|]. reflexivity.
Qed.

Lemma first_run_none (s : Inventory.ShapeData) :
  (forall p n, ~ leads_with_font s p n) -> first_run s = None.
Proof.
  intros H. unfold first_run.
  destruct (Inventory.paragraphs s) as [|p ps] eqn:Hp; [reflexivity|].
  destruct (Inventory.font_name p) as [n|] eqn:Hn; [|reflexivity].
  destruct n as [|c n]; [reflexivity|].
  exfalso. apply (H p (String c n)). split; [exists ps; exact Hp|].
  split; [exact Hn | discriminate].
Qed.

Lemma first_font_no_match (types : list string) (l : list Inventory.ShapeData) :
  no_match types l ->
  first_font (fun s => in_names (Inventory.placeholder_type s) types) l = None.
Proof.
  induction l as [|s l IH]; intros H; [reflexivity|]. cbn [first_font].
  assert (Hs : (if in_names (Inventory.placeholder_type s) types
                then first_run s else None) = None).
  { destruct (in_names (Inventory.placeholder_type s) types) eqn:E;
      [|reflexivity].
    apply first_run_none. intros p n. apply (H s p n); [left|].
    apply in_names_has_type, E. }
  rewrite Hs. apply IH. intros s' p n Hin. apply H. right. exact Hin.
Qed.

Lemma first_font_first_match (types : list string)
    (shapes : list Inventory.ShapeData) (p : Inventory.ParagraphData)
    (n : string) :
  first_match types shapes p n ->
  first_font (fun s => in_names (Inventory.placeholder_type s) types) shapes
  = Some (n, Inventory.bold p, color_of (Inventory.color p)).
Proof.
  intros (before & s & after & -> & Ht & Hl & Hb).
  rewrite first_font_app, (first_font_no_match types before Hb).
  cbn [keep_or first_font].
  apply in_names_has_type in Ht. rewrite Ht, (first_run_leads s p n Hl).
  reflexivity.
Qed.

Lemma first_match_app (types : list string)
    (shapes more : list Inventory.ShapeData) (p : Inventory.ParagraphData)
    (n : string) :
  first_match types shapes p n -> first_match types (shapes ++ more) p n.
Proof.
  intros (before & s & after & -> & H). exists before, s, (after ++ more).
  split; [|exact H]. rewrite <- app_assoc. reflexivity.
Qed.

Lemma shapes_of_app (inventory more : Inventory.t) :
  shapes_of (inventory ++ more) = shapes_of inventory ++ shapes_of more.
Proof. unfold shapes_of. rewrite map_app, concat_app. reflexivity. Qed.

(** Every list of shapes has a first match or none. *)
Lemma first_match_or_none (types : list string)
    (shapes : list Inventory.ShapeData) :
  (exists p n, first_match types shapes p n) \/ no_match types shapes.
Proof.
  induction shapes as [|s l IH].
  - right. intros s p n Hin. inversion Hin.
  - destruct (in_names (Inventory.placeholder_type s) types) eqn:Et.
    + destruct (first_run s) as [[[n b] c]|] eqn:Er.
      * left. unfold first_run in Er.
        destruct (Inventory.paragraphs s) as [|p ps] eqn:Hp; [discriminate Er|].
        destruct (Inventory.font_name p) as [m|] eqn:Hn; [|discriminate Er].
        destruct m as [|c0 m]; [discriminate Er|].
        exists p, (String c0 m), [], s, l. split; [reflexivity|].
        split; [apply in_names_has_type, Et|].
        split; [|intros s' p' n' Hin; inversion Hin].
        split; [exists ps; exact Hp|]. split; [exact Hn | discriminate].
      * assert (Hs : forall p n, ~ leads_with_font s p n).
        { intros p n Hl. rewrite (first_run_leads s p n Hl) in Er.
          discriminate Er. }
        destruct IH as [(p & n & before & s0 & after & -> & H1 & H2 & H3)|IH].
        -- left. exists p, n, (s :: before), s0, after.
           split; [reflexivity|]. split; [exact H1|]. split; [exact H2|].
           intros s' p' n' Hin Ht. apply elem_of_cons in Hin as [->|Hin];
             [apply Hs | apply (H3 s' p' n' Hin Ht)].
        -- right. intros s' p' n' Hin Ht. apply elem_of_cons in Hin as [->|Hin];
             [apply Hs | apply (IH s' p' n' Hin Ht)].
    + assert (Hs : ~ has_type types s).
      { intros Ht. apply in_names_has_type in Ht. rewrite Ht in Et.
        discriminate Et. }
      destruct IH as [(p & n & before & s0 & after & -> & H1 & H2 & H3)|IH].
      * left. exists p, n, (s :: before), s0, after.
        split; [reflexivity|]. split; [exact H1|]. split; [exact H2|].
        intros s' p' n' Hin Ht. apply elem_of_cons in Hin as [->|Hin];
          [contradiction | apply (H3 s' p' n' Hin Ht)].
      * right. intros s' p' n' Hin Ht. apply elem_of_cons in Hin as [->|Hin];
          [contradiction | apply (IH s' p' n' Hin Ht)].
Qed.

(** C9 as stated fails: when the first paragraph of a title placeholder
    names no font and its second one does, the first non-empty run of the
    title placeholders is that second paragraph, and the code, which reads
    the first paragraph of a shape only, takes the font of a later
    placeholder. *)
Lemma extract_styles_first_run_counterexample :
  ~ (forall (env : style_env) (template_dir : string)
            (extract_text_inventory : Path.t -> result Inventory.t)
            (inventory : Inventory.t) (config : StyleConfig)
            (p : Inventory.ParagraphData),
       import_inventory env = Ok extract_text_inventory ->
       extract_text_inventory
         (template_path_of template_dir default_content_template)
       = Ok inventory ->
       extract_styles env template_dir default_content_template = Ok config ->
       spec_first_non_empty_run is_title_shape inventory = Some p ->
       Some (name (title_font config)) = Inventory.font_name p).
Proof.
  intros H.
  specialize (H env_two_paragraphs "templates"
                (fun _ => Ok two_paragraph_inventory) two_paragraph_inventory
                _ _ eq_refl eq_refl eq_refl eq_refl).
  vm_compute in H. discriminate H.
Qed.

(** C9 (amended). When the template is there and its inventory is read,
    the title font is taken from the first TITLE or CENTER_TITLE
    placeholder, in iteration order, whose first paragraph names a font
    (a placeholder whose first paragraph names none is passed over, whatever
    its later paragraphs hold): the family is the font of that paragraph,
    the bold flag is its flag, or bold when it has none, and the colour is
    the one its colour string writes; the fallback is "Arial" and there is
    no italic.  With no such placeholder the title font is "HPE Graphik
    Semibold", bold, without a colour.  The body font is taken in the same
    way from the BODY, SUBTITLE and FOOTER placeholders, not bold when the
    paragraph has no flag, and is "HPE Graphik" by default.  Every
    inventory is in one of the two cases, and a category that is filled
    stays as it is whatever placeholders follow. *)
Theorem extract_styles_first_match
    (env : style_env) (template_dir content_template : string)
    (extract_text_inventory : Path.t -> result Inventory.t)
    (inventory : Inventory.t) :
  let template_path := template_path_of template_dir content_template in
  let shapes := shapes_of inventory in
  let titles := ["TITLE"; "CENTER_TITLE"] in
  let bodies := ["BODY"; "SUBTITLE"; "FOOTER"] in
  exists_error env template_path = None ->
  template_exists env template_path = true ->
  import_inventory env = Ok extract_text_inventory ->
  extract_text_inventory template_path = Ok inventory ->
  exists config,
    extract_styles env template_dir content_template = Ok config
    /\ (forall p n, first_match titles shapes p n ->
          title_font config =
            {| name := n; fallback_name := "Arial";
               bold := match Inventory.bold p with Some b => b | None => true end;
               italic := false;
               color_rgb := color_of (Inventory.color p) |})
    /\ (no_match titles shapes ->
          title_font config =
            {| name := "HPE Graphik Semibold"; fallback_name := "Arial";
               bold := true; italic := false; color_rgb := None |})
    /\ (forall p n, first_match bodies shapes p n ->
          body_font config =
            {| name := n; fallback_name := "Arial";
               bold := match Inventory.bold p with Some b => b | None => false end;
               italic := false;
               color_rgb := color_of (Inventory.color p) |})
    /\ (no_match bodies shapes ->
          body_font config =
            {| name := "HPE Graphik"; fallback_name := "Arial";
               bold := false; italic := false; color_rgb := None |})
    /\ ((exists p n, first_match titles shapes p n) \/ no_match titles shapes)
    /\ ((exists p n, first_match bodies shapes p n) \/ no_match bodies shapes)
    /\ forall (more : Inventory.t) (config' : StyleConfig),
         extract_styles
           {| template_exists := template_exists env;
              exists_error := exists_error env;
              import_inventory := Ok (fun _ => Ok (inventory ++ more)) |}
           template_dir content_template = Ok config' ->
         ((exists p n, first_match titles shapes p n) ->
          title_font config' = title_font config)
         /\ ((exists p n, first_match bodies shapes p n) ->
             body_font config' = body_font config).
Proof.
  intros template_path shapes titles bodies Hx He Hi Hf.
  eexists. split; [apply (extract_styles_scan _ _ _ _ _ Hx He Hi Hf)|].
  cbn [title_font body_font].
  change is_title_shape
    with (fun s => in_names (Inventory.placeholder_type s) titles).
  change is_body_shape
    with (fun s => in_names (Inventory.placeholder_type s) bodies).
  split; [|split; [|split; [|split; [|split; [|split]]]]].
  - intros p n Hm. fold shapes. rewrite (first_font_first_match _ _ _ _ Hm).
    cbn [style_of]. destruct (Inventory.bold p); reflexivity.
  - intros Hm. fold shapes. rewrite (first_font_no_match _ _ Hm). reflexivity.
  - intros p n Hm. fold shapes. rewrite (first_font_first_match _ _ _ _ Hm).
    cbn [style_of]. destruct (Inventory.bold p); reflexivity.
  - intros Hm. fold shapes. rewrite (first_font_no_match _ _ Hm). reflexivity.
  - apply first_match_or_none.
  - apply first_match_or_none.
  - intros more config' H'.
    rewrite (extract_styles_scan _ template_dir content_template
               (fun _ => Ok (inventory ++ more)) (inventory ++ more)) in H';
      [|exact Hx | exact He | reflexivity | reflexivity].
    injection H' as <-. cbn [title_font body_font].
    change is_title_shape
      with (fun s => in_names (Inventory.placeholder_type s) titles).
    change is_body_shape
      with (fun s => in_names (Inventory.placeholder_type s) bodies).
    rewrite !shapes_of_app. fold shapes.
    split; intros (p & n & Hm);
      rewrite (first_font_first_match _ _ _ _ (first_match_app _ _ _ _ _ Hm)),
        (first_font_first_match _ _ _ _ Hm); reflexivity.
Qed.

(** * The monad *)

Lemma bind_ok {A B} (m : M A) (k : A -> M B) (σ σ' : fs) (a : A) :
  m σ = (Ok a, σ') -> bind m k σ = k a σ'.
Proof. intros H. unfold bind. rewrite H. reflexivity. Qed.

Lemma bind_raise {A B} (m : M A) (k : A -> M B) (σ σ' : fs) (e : exn) :
  m σ = (Raise e, σ') -> bind m k σ = (Raise e, σ').
Proof. intros H. unfold bind. rewrite H. reflexivity. Qed.

(** * Facts about the file system *)

Lemma strip_prefix_Some d k q : FS.strip_prefix d k = Some q <-> k = d ++ q.
Proof.
  revert k. induction d as [|a d IH]; intros k; simpl.
  - split; [intros [= ->]; reflexivity | intros ->; reflexivity].
  - destruct k as [|b k]; [split; discriminate|].
    destruct (String.eqb a b) eqn:E.
    + apply String.eqb_eq in E. subst b. rewrite IH.
      split; [intros ->; reflexivity | intros [= ->]; reflexivity].
    + apply String.eqb_neq in E. split; [discriminate | intros [= -> _]; contradiction].
Qed.

Lemma strip_prefix_app d q : FS.strip_prefix d (d ++ q) = Some q.
Proof. apply strip_prefix_Some. reflexivity. Qed.

Lemma under_true d k : FS.under d k = true <-> exists q, k = d ++ q.
Proof.
  unfold FS.under. destruct (FS.strip_prefix d k) as [q|] eqn:E.
  - apply strip_prefix_Some in E. split; [eauto | reflexivity].
  - split; [discriminate|]. intros [q ->]. rewrite strip_prefix_app in E. discriminate.
Qed.

Lemma under_app d q : FS.under d (d ++ q) = true.
Proof. apply under_true. eauto. Qed.

Lemma child_name_Some d k n : FS.child_name d k = Some n <-> k = d ++ [n].
Proof.
  unfold FS.child_name. destruct (FS.strip_prefix d k) as [q|] eqn:E.
  - apply strip_prefix_Some in E. subst k.
    destruct q as [|m [|m' q]]; split; try discriminate.
    + intros H. apply app_inv_head in H. discriminate.
    + intros [= ->]. reflexivity.
    + intros H. apply app_inv_head in H. injection H as ->. reflexivity.
    + intros H. apply app_inv_head in H. discriminate.
  - split; [discriminate|]. intros ->. rewrite strip_prefix_app in E. discriminate.
Qed.

Lemma elem_of_children (σ : fs) d n :
  n ∈ FS.children σ d <-> is_Some (σ !! (d ++ [n])).
Proof.
  unfold FS.children. rewrite list_elem_of_omap. split.
  - intros (k & Hk & Hc). apply child_name_Some in Hc. subst k.
    apply list_elem_of_fmap in Hk as ([k v] & -> & Hkv).
    apply elem_of_map_to_list in Hkv. eauto.
  - intros [v Hv]. exists (d ++ [n]). split.
    + apply list_elem_of_fmap. exists (d ++ [n], v). split; [reflexivity|].
      apply elem_of_map_to_list, Hv.
    + apply child_name_Some. reflexivity.
Qed.

Lemma NoDup_children (σ : fs) d : NoDup (FS.children σ d).
Proof.
  unfold FS.children.
  assert (Hnd : NoDup (map_to_list σ).*1) by apply NoDup_fst_map_to_list.
  induction Hnd as [|k l Hk Hl IH]; simpl; [constructor|].
  destruct (FS.child_name d k) as [n|] eqn:E; [|exact IH].
  constructor; [|exact IH]. rewrite list_elem_of_omap. intros (k' & Hk' & E').
  apply child_name_Some in E, E'. congruence.
Qed.

Lemma children_nil (σ : fs) d :
  FS.children σ d = [] <-> forall n, σ !! (d ++ [n]) = None.
Proof.
  split.
  - intros H n. destruct (σ !! (d ++ [n])) eqn:E; [|reflexivity].
    assert (Hin : n ∈ FS.children σ d) by (apply elem_of_children; eauto).
    rewrite H in Hin. inversion Hin.
  - intros H. destruct (FS.children σ d) as [|n l] eqn:E; [reflexivity|].
    assert (Hin : n ∈ FS.children σ d) by (rewrite E; left).
    apply elem_of_children in Hin as [v Hv]. rewrite H in Hv. discriminate.
Qed.

(** What the operating system lists is what the directory holds. *)
Lemma elem_of_scan (o : dir_order) (l : list string) n : n ∈ o l <-> n ∈ l.
Proof. rewrite (scan_perm o l). reflexivity. Qed.

Lemma NoDup_scan (o : dir_order) (l : list string) : NoDup l -> NoDup (o l).
Proof. rewrite (scan_perm o l). auto. Qed.

Lemma scan_nil (o : dir_order) (l : list string) : o l = [] <-> l = [].
Proof.
  split; intros H.
  - apply Permutation_nil_r. rewrite <- H. symmetry. apply scan_perm.
  - subst l. apply Permutation_nil_r. apply scan_perm.
Qed.

Lemma lookup_subtree (σ : fs) src q : FS.subtree src σ !! q = σ !! (src ++ q).
Proof.
  unfold FS.subtree. apply option_eq. intros v.
  rewrite <- elem_of_list_to_map.
  - rewrite list_elem_of_omap. split.
    + intros ([k w] & Hkw & Hf). simpl in Hf.
      destruct (FS.strip_prefix src k) as [q'|] eqn:E; [|discriminate].
      simpl in Hf. injection Hf as -> ->. apply strip_prefix_Some in E. subst k.
      apply elem_of_map_to_list, Hkw.
    + intros Hv. exists (src ++ q, v). split; [apply elem_of_map_to_list, Hv|].
      simpl. rewrite strip_prefix_app. reflexivity.
  - assert (Hnd : NoDup (map_to_list σ).*1) by apply NoDup_fst_map_to_list.
    revert Hnd. generalize (map_to_list σ) as l.
    induction l as [|[k w] l IH]; simpl; intros Hnd; [constructor|].
    apply NoDup_cons in Hnd as [Hk Hl].
    destruct (FS.strip_prefix src k) as [q'|] eqn:E; simpl; [|auto].
    constructor; [|auto]. intros Hin.
    apply list_elem_of_fmap in Hin as ([q2 w2] & Hq & Hin). simpl in Hq. subst q2.
    apply list_elem_of_omap in Hin as ([k2 w3] & Hin2 & Hf). simpl in Hf.
    destruct (FS.strip_prefix src k2) as [q3|] eqn:E2; [|discriminate].
    simpl in Hf. injection Hf as -> ->.
    apply strip_prefix_Some in E, E2. subst k k2.
    apply Hk. apply list_elem_of_fmap. exists (src ++ q', w2).
    split; [reflexivity | exact Hin2].
Qed.

(** The state after a move, path by path. *)
Lemma lookup_move (σ : fs) src dst p :
  FS.move src dst σ !! p =
    match FS.strip_prefix dst p with
    | Some q => σ !! (src ++ q)
    | None => if FS.under src p then None else σ !! p
    end.
Proof.
  unfold FS.move. destruct (FS.strip_prefix dst p) as [q|] eqn:E.
  - apply strip_prefix_Some in E. subst p.
    destruct (σ !! (src ++ q)) as [v|] eqn:Ev.
    + apply lookup_union_Some_l. rewrite (lookup_kmap (fun q => dst ++ q)).
      rewrite lookup_subtree. exact Ev.
    + apply lookup_union_None. split.
      * rewrite (lookup_kmap (fun q => dst ++ q)). rewrite lookup_subtree. exact Ev.
      * apply map_lookup_filter_None. right. intros v _ [_ H]. simpl in H.
        rewrite under_app in H. discriminate.
  - assert (Hk : (kmap (fun q => dst ++ q) (FS.subtree src σ) : fs) !! p = None).
    { apply lookup_kmap_None; [apply _|]. intros q ->.
      rewrite strip_prefix_app in E. discriminate. }
    rewrite lookup_union_r by exact Hk.
    assert (Hd : FS.under dst p = false) by (unfold FS.under; rewrite E; reflexivity).
    destruct (FS.under src p) eqn:Es.
    + apply map_lookup_filter_None. right. intros v _ [H _]. simpl in H. congruence.
    + destruct (σ !! p) as [v|] eqn:Ev.
      * apply map_lookup_filter_Some. split; [exact Ev|]. simpl. auto.
      * apply map_lookup_filter_None. left. exact Ev.
Qed.

Lemma filter_nil_iff {A} (f : A -> bool) (l : list A) :
  List.filter f l = [] <-> forall x, x ∈ l -> f x = false.
Proof.
  induction l as [|a l IH]; simpl.
  - split; [intros _ x Hx; inversion Hx | reflexivity].
  - destruct (f a) eqn:E.
    + split; [discriminate|]. intros H.
      specialize (H a (list_elem_of_here _ _)). congruence.
    + rewrite IH. split.
      * intros H x Hx. apply elem_of_cons in Hx as [->|Hx]; auto.
      * intros H x Hx. apply H. right. exact Hx.
Qed.

Lemma elem_of_List_filter {A} (f : A -> bool) (l : list A) x :
  x ∈ List.filter f l <-> x ∈ l /\ f x = true.
Proof. rewrite !list_elem_of_In. apply filter_In. Qed.

Lemma NoDup_List_filter {A} (f : A -> bool) (l : list A) :
  NoDup l -> NoDup (List.filter f l).
Proof.
  induction 1 as [|a l Ha Hl IH]; simpl; [constructor|].
  destruct (f a); [|exact IH]. constructor; [|exact IH].
  rewrite elem_of_List_filter. tauto.
Qed.

Lemma elem_of_glob_names (o : dir_order) (σ : fs) (d : list string)
    (suffix n : string) :
  σ !! d = Some Dir ->
  n ∈ FS.glob_names o σ d suffix <->
  is_Some (σ !! (d ++ [n])) /\ PyStr.endswith n suffix = true.
Proof.
  intros Hd. unfold FS.glob_names. rewrite Hd.
  rewrite elem_of_List_filter, elem_of_scan, elem_of_children.
  reflexivity.
Qed.

Lemma NoDup_glob_names (o : dir_order) (σ : fs) (d : list string)
    (suffix : string) :
  NoDup (FS.glob_names o σ d suffix).
Proof.
  unfold FS.glob_names. destruct (σ !! d) as [[|]|]; try constructor.
  apply NoDup_List_filter, NoDup_scan, NoDup_children.
Qed.

Lemma glob_names_none (o : dir_order) (σ : fs) (d : list string)
    (suffix : string) :
  (forall n, is_Some (σ !! (d ++ [n])) -> PyStr.endswith n suffix = false) ->
  FS.glob_names o σ d suffix = [].
Proof.
  intros H. unfold FS.glob_names.
  destruct (σ !! d) as [[|]|]; try reflexivity.
  apply filter_nil_iff. intros n Hn.
  apply elem_of_scan, elem_of_children in Hn. auto.
Qed.

(** * [parse_pdf_via_self_hosted_mineru]: the check of the artifacts *)

Lemma check_content_list_missing (o : dir_order) (extract_id : string)
    (extract_dir : list string) (σ : fs) :
  (forall n, is_Some (σ !! (extract_dir ++ [n])) ->
             PyStr.endswith n "_content_list.json" = false) ->
  check_content_list o extract_id extract_dir σ =
    (Raise (RuntimeError
              (missing_content_list_message extract_dir
                 (listing_preview
                    (sorted (FS.relative_entries o σ extract_dir))))),
     σ).
Proof.
  intros H. unfold check_content_list, bind, FS.glob_suffix, gets.
  rewrite (glob_names_none _ _ _ _ H). reflexivity.
Qed.

Lemma check_content_list_found (o : dir_order) (extract_id : string)
    (extract_dir : list string) (σ : fs) (n : string) :
  σ !! extract_dir = Some Dir ->
  is_Some (σ !! (extract_dir ++ [n])) ->
  PyStr.endswith n "_content_list.json" = true ->
  check_content_list o extract_id extract_dir σ =
    (Ok (extract_id, extract_dir), σ).
Proof.
  intros Hd Hn He. unfold check_content_list, bind, FS.glob_suffix, gets.
  destruct (FS.glob_names o σ extract_dir "_content_list.json") as [|m l] eqn:E;
    [|reflexivity].
  assert (Hin : n ∈ FS.glob_names o σ extract_dir "_content_list.json")
    by (apply elem_of_glob_names; auto).
  rewrite E in Hin. inversion Hin.
Qed.

Lemma fetch_and_unpack_result
    (env : client_env) (pdf_path : Path.t) (mineru_api_base : string)
    (upload_folder : Path.t) (output_dir_field : string) (timeout_s : Z)
    (form_overrides : option (gmap string string)) (σ σ1 : fs)
    (extract_id : string) (extract_dir : list string) :
  fetch_and_unpack env pdf_path mineru_api_base upload_folder
    output_dir_field timeout_s form_overrides σ
    = (Ok (extract_id, extract_dir), σ1) ->
  extract_id = PyStr.take 8 (uuid4_hex env)
  /\ extract_dir =
       Path.resolve (cwd env) (expanduser env upload_folder)
       ++ ["mineru_files"; extract_id].
Proof.
  unfold fetch_and_unpack, bind, raise, ret. intros H.
  repeat (case_match; try discriminate H);
    injection H as <- <- _; split; reflexivity.
Qed.

(** * [_post_file_parse] and the payload that is not an archive *)

Lemma length_append (a b : string) :
  String.length (a +:+ b) = (String.length a + String.length b)%nat.
Proof.
  induction a as [|c a IH]; [reflexivity|].
  change (String c a +:+ b) with (String c (a +:+ b)). simpl. rewrite IH. reflexivity.
Qed.

Lemma length_take (n : nat) (s : string) :
  (String.length (PyStr.take n s) <= n)%nat.
Proof.
  revert s. induction n as [|n IH]; intros [|c s]; simpl; try lia.
  specialize (IH s). lia.
Qed.

Lemma error_snippet_bound (body : string) :
  Z.of_nat (String.length (error_snippet body))
    <= 10000 + Z.of_nat (String.length truncation_marker)
  /\ (Z.of_nat (String.length body) <= 10000 -> error_snippet body = body)
  /\ (10000 < Z.of_nat (String.length body) ->
      error_snippet body =
        PyStr.take (Z.to_nat 10000) body +:+ truncation_marker).
Proof.
  unfold error_snippet. generalize (Z2Nat.id 10000 ltac:(lia)).
  generalize (Z.to_nat 10000) as n. intros n Hn.
  destruct (n <? String.length body)%nat eqn:E.
  - apply Nat.ltb_lt in E. split; [|split]; [|lia|reflexivity].
    rewrite length_append. pose proof (length_take n body). lia.
  - apply Nat.ltb_ge in E. split; [|split]; [lia|reflexivity|lia].
Qed.

Lemma post_file_parse_error (env : client_env) (endpoint : string)
    (pdf_path : list string) (form_fields : gmap string string)
    (timeout_s : Z) (σ : fs) (f : string) (resp : Response) :
  σ !! pdf_path = Some (File f) ->
  requests_post env endpoint form_fields (path_name pdf_path, f) timeout_s
    = Ok resp ->
  resp_ok resp = false ->
  _post_file_parse env endpoint pdf_path form_fields timeout_s σ =
    (Raise (RuntimeError
              ("Self-hosted MinerU error HTTP " +:+ pretty (status_code resp)
               +:+ ": " +:+ error_snippet (text resp))),
     σ).
Proof.
  intros Hf Hp Hok. unfold _post_file_parse, bind, FS.read_bytes, lift.
  rewrite Hf, Hp, Hok. reflexivity.
Qed.

Lemma post_file_parse_ok (env : client_env) (endpoint : string)
    (pdf_path : list string) (form_fields : gmap string string)
    (timeout_s : Z) (σ : fs) (f : string) (resp : Response) :
  σ !! pdf_path = Some (File f) ->
  requests_post env endpoint form_fields (path_name pdf_path, f) timeout_s
    = Ok resp ->
  resp_ok resp = true ->
  _post_file_parse env endpoint pdf_path form_fields timeout_s σ =
    (Ok (content resp), σ).
Proof.
  intros Hf Hp Hok. unfold _post_file_parse, bind, FS.read_bytes, lift.
  rewrite Hf, Hp, Hok. reflexivity.
Qed.

Lemma parent_app (d : list string) (n : string) : FS.parent (d ++ [n]) = d.
Proof. unfold FS.parent. apply removelast_last. Qed.

Lemma under_refl (p : list string) : FS.under p p = true.
Proof. apply under_true. exists []. symmetry. apply app_nil_r. Qed.

Lemma under_parent (k p : list string) :
  FS.under k (FS.parent p) = true -> FS.under k p = true.
Proof.
  destruct p as [|a p] using rev_ind; [auto|].
  rewrite parent_app. intros H. apply under_true in H as [q ->].
  apply under_true. exists (q ++ [a]). rewrite app_assoc. reflexivity.
Qed.

Lemma only_creates_refl (p : list string) (σ : fs) : only_creates p σ σ.
Proof. intros k. left. reflexivity. Qed.

Lemma only_creates_trans (p q : list string) (σ σ1 σ2 : fs) :
  (forall k, FS.under k p = true -> FS.under k q = true) ->
  only_creates p σ σ1 -> only_creates q σ1 σ2 -> only_creates q σ σ2.
Proof.
  intros Hpq H1 H2 k. destruct (H2 k) as [E2|(N2 & S2 & U2)];
    destruct (H1 k) as [E1|(N1 & S1 & U1)].
  - left. congruence.
  - right. rewrite E2. auto.
  - right. rewrite <- E1. auto.
  - congruence.
Qed.

Lemma mkdir_exist_ok_spec (p : list string) (σ σ1 : fs) (r : result unit) :
  try_except_M (FS.os_mkdir p) FS.is_OSError
    (fun e' => let* d := FS.is_dir p in if negb d then raise e' else ret tt) σ
    = (r, σ1) ->
  only_creates p σ σ1 /\ (r = Ok tt -> σ1 !! p = Some Dir).
Proof.
  unfold try_except_M, FS.os_mkdir, bind, FS.is_dir, gets, raise, ret.
  intros H.
  destruct (σ !! p) as [[|]|] eqn:Ep; simpl in H; rewrite ?Ep in H; simpl in H.
  - injection H as <- <-. split; [apply only_creates_refl | discriminate].
  - injection H as <- <-. split; [apply only_creates_refl | auto].
  - destruct (σ !! FS.parent p) as [[|]|] eqn:Epp; simpl in H; rewrite ?Ep in H;
      simpl in H; injection H as <- <-.
    + split; [apply only_creates_refl | discriminate].
    + split; [|intros _; apply lookup_insert_eq].
      intros k. destruct (decide (k = p)) as [->|Hne].
      * right. rewrite lookup_insert_eq, under_refl. auto.
      * left. apply lookup_insert_ne. congruence.
    + split; [apply only_creates_refl | discriminate].
Qed.

Lemma mkdir_parents_spec (fuel : nat) :
  forall (p : list string) (σ σ1 : fs) (r : result unit),
  FS.mkdir_parents_exist_ok fuel p σ = (r, σ1) ->
  only_creates p σ σ1 /\ (r = Ok tt -> σ1 !! p = Some Dir).
Proof.
  induction fuel as [|fuel IH]; intros p σ σ1 r H.
  - simpl in H. unfold try_except_M, FS.os_mkdir, bind, FS.is_dir, gets, raise, ret in H.
    destruct (σ !! p) as [[|]|] eqn:Ep; simpl in H; rewrite ?Ep in H; simpl in H.
    + injection H as <- <-. split; [apply only_creates_refl | discriminate].
    + injection H as <- <-. split; [apply only_creates_refl | auto].
    + destruct (σ !! FS.parent p) as [[|]|] eqn:Epp; simpl in H; rewrite ?Ep in H;
        simpl in H; injection H as <- <-.
      * split; [apply only_creates_refl | discriminate].
      * split; [|intros _; apply lookup_insert_eq].
        intros k. destruct (decide (k = p)) as [->|Hne].
        -- right. rewrite lookup_insert_eq, under_refl. auto.
        -- left. apply lookup_insert_ne. congruence.
      * split; [apply only_creates_refl | discriminate].
  - simpl in H. unfold try_except_M at 1 in H.
    destruct (FS.os_mkdir p σ) as [[[]|e] σ0] eqn:Em.
    + injection H as <- <-.
      apply (mkdir_exist_ok_spec p σ σ0 (Ok tt)).
      unfold try_except_M. rewrite Em. reflexivity.
    + assert (Hσ0 : σ0 = σ).
      { unfold FS.os_mkdir in Em. repeat case_match; simplify_eq; reflexivity. }
      subst σ0. destruct (FS.is_OSError e) eqn:Eo.
      2:{ injection H as <- <-. split; [apply only_creates_refl | discriminate]. }
      destruct (FS.is_FileNotFoundError e) eqn:Ef.
      * destruct (bool_decide (FS.parent p = p)).
        { injection H as <- <-. split; [apply only_creates_refl | discriminate]. }
        unfold bind at 1 in H.
        destruct (FS.mkdir_parents_exist_ok fuel (FS.parent p) σ) as [[[]|e1] σ']
          eqn:Er.
        -- destruct (IH _ _ _ _ Er) as [Hc _].
           destruct (mkdir_exist_ok_spec _ _ _ _ H) as [Hc2 Hd].
           split; [|exact Hd].
           apply (only_creates_trans (FS.parent p) p σ σ' σ1);
             [intros k; apply under_parent | exact Hc | exact Hc2].
        -- injection H as <- <-. destruct (IH _ _ _ _ Er) as [Hc _].
           split; [|discriminate]. intros k. destruct (Hc k) as [?|(?&?&?)]; [auto|].
           right. auto using under_parent.
      * apply (mkdir_exist_ok_spec p σ σ1 r).
        unfold try_except_M. rewrite Em, Eo. exact H.
Qed.

(** ** Calls that the operating system may refuse *)

Lemma on_path_refused {A} (env : client_env) (p : list string) (m : M A)
    (σ : fs) (e : exn) :
  path_error env σ p = Some e -> on_path env p m σ = (Raise e, σ).
Proof. intros H. unfold on_path. rewrite H. reflexivity. Qed.

Lemma on_path_accepted {A} (env : client_env) (p : list string) (m : M A)
    (σ : fs) :
  path_error env σ p = None -> on_path env p m σ = m σ.
Proof. intros H. unfold on_path. rewrite H. reflexivity. Qed.

Lemma on_path_cases {A} (env : client_env) (p : list string) (m : M A)
    (σ σ1 : fs) (r : result A) :
  on_path env p m σ = (r, σ1) ->
  (σ1 = σ /\ exists e, r = Raise e) \/ m σ = (r, σ1).
Proof.
  unfold on_path. destruct (path_error env σ p) as [e|]; [|auto].
  intros [= <- <-]. left. eauto.
Qed.

Lemma path_mkdir_exist_ok_spec (env : client_env) (p : list string)
    (σ σ1 : fs) (r : result unit) :
  try_except_M (path_mkdir env p) FS.is_OSError
    (fun e' => let* d := path_is_dir env p in if negb d then raise e' else ret tt) σ
    = (r, σ1) ->
  only_creates p σ σ1 /\ (r = Ok tt -> σ1 !! p = Some Dir).
Proof.
  unfold path_mkdir, path_is_dir.
  destruct (path_error env σ p) as [e|] eqn:Hx.
  - unfold try_except_M, bind. rewrite !(on_path_refused _ _ _ _ _ Hx).
    destruct (FS.is_OSError e); intros H; injection H as <- <-;
      (split; [apply only_creates_refl | discriminate]).
  - intros H. apply (mkdir_exist_ok_spec p σ σ1 r).
    revert H. unfold try_except_M, bind.
    rewrite (on_path_accepted _ _ _ _ Hx).
    destruct (FS.os_mkdir p σ) as [[[]|e] σ0] eqn:Em; [auto|].
    assert (Hσ0 : σ0 = σ).
    { unfold FS.os_mkdir in Em. repeat case_match; simplify_eq; reflexivity. }
    subst σ0. rewrite (on_path_accepted _ _ _ _ Hx). auto.
Qed.

Lemma path_mkdir_parents_spec (env : client_env) (fuel : nat) :
  forall (p : list string) (σ σ1 : fs) (r : result unit),
  path_mkdir_parents_exist_ok env fuel p σ = (r, σ1) ->
  only_creates p σ σ1 /\ (r = Ok tt -> σ1 !! p = Some Dir).
Proof.
  induction fuel as [|fuel IH]; intros p σ σ1 r H.
  - destruct (path_error env σ p) as [e|] eqn:Hx.
    + simpl in H. unfold try_except_M, path_mkdir, path_is_dir, bind in H.
      rewrite (on_path_refused _ _ _ _ _ Hx) in H.
      destruct (FS.is_OSError e); [|injection H as <- <-;
        split; [apply only_creates_refl | discriminate]].
      destruct (FS.is_FileNotFoundError e).
      * injection H as <- <-. split; [apply only_creates_refl | discriminate].
      * cbv beta in H. unfold on_path in H. rewrite Hx in H.
        injection H as <- <-.
        split; [apply only_creates_refl | discriminate].
    + apply (mkdir_parents_spec 0 p σ σ1 r). revert H. simpl.
      unfold try_except_M, path_mkdir, path_is_dir, bind.
      rewrite (on_path_accepted _ _ _ _ Hx).
      destruct (FS.os_mkdir p σ) as [[[]|e] σ0] eqn:Em; [auto|].
      assert (Hσ0 : σ0 = σ).
      { unfold FS.os_mkdir in Em. repeat case_match; simplify_eq; reflexivity. }
      subst σ0. destruct (FS.is_OSError e); [|auto].
      destruct (FS.is_FileNotFoundError e); [auto|].
      cbv beta. unfold on_path. rewrite Hx. auto.
  - simpl in H. unfold try_except_M at 1 in H.
    destruct (path_mkdir env p σ) as [[[]|e] σ0] eqn:Em.
    + injection H as <- <-.
      apply (path_mkdir_exist_ok_spec env p σ σ0 (Ok tt)).
      unfold try_except_M. rewrite Em. reflexivity.
    + assert (Hσ0 : σ0 = σ).
      { unfold path_mkdir in Em. apply on_path_cases in Em as [[-> _]|Em];
          [reflexivity|].
        unfold FS.os_mkdir in Em. repeat case_match; simplify_eq; reflexivity. }
      subst σ0. destruct (FS.is_OSError e) eqn:Eo.
      2:{ injection H as <- <-. split; [apply only_creates_refl | discriminate]. }
      destruct (FS.is_FileNotFoundError e) eqn:Ef.
      * destruct (bool_decide (FS.parent p = p)).
        { injection H as <- <-. split; [apply only_creates_refl | discriminate]. }
        unfold bind at 1 in H.
        destruct (path_mkdir_parents_exist_ok env fuel (FS.parent p) σ)
          as [[[]|e1] σ'] eqn:Er.
        -- destruct (IH _ _ _ _ Er) as [Hc _].
           destruct (path_mkdir_exist_ok_spec _ _ _ _ _ H) as [Hc2 Hd].
           split; [|exact Hd].
           apply (only_creates_trans (FS.parent p) p σ σ' σ1);
             [intros k; apply under_parent | exact Hc | exact Hc2].
        -- injection H as <- <-. destruct (IH _ _ _ _ Er) as [Hc _].
           split; [|discriminate]. intros k. destruct (Hc k) as [?|(?&?&?)]; [auto|].
           right. auto using under_parent.
      * apply (path_mkdir_exist_ok_spec env p σ σ1 r).
        unfold try_except_M. rewrite Em, Eo. exact H.
Qed.

Section extraction_call.
Variables (env : client_env) (pdf_path : Path.t) (mineru_api_base : string)
  (upload_folder : Path.t) (output_dir_field : string) (timeout_s : Z)
  (form_overrides : option (gmap string string)).

#[local] Abbreviation endpoint := (call_endpoint mineru_api_base).
#[local] Abbreviation pdf := (call_pdf env pdf_path).
#[local] Abbreviation extract_dir := (call_extract_dir env upload_folder).
#[local] Abbreviation zip_path := (call_zip_path env pdf_path upload_folder).
#[local] Abbreviation fields :=
  (request_fields output_dir_field form_overrides).

Lemma parse_pdf_after_post (σ σ1 : fs) (f : string) (resp : Response) :
  σ !! pdf = Some (File f) ->
  path_mkdir_parents_exist_ok env (length extract_dir) extract_dir σ
    = (Ok tt, σ1) ->
  requests_post env endpoint fields (path_name pdf, f) timeout_s = Ok resp ->
  σ1 !! pdf = Some (File f)
  /\ σ1 !! extract_dir = Some Dir
  /\ σ1 !! zip_path = σ !! zip_path.
Proof.
  intros Hf Hm Hp. destruct (path_mkdir_parents_spec _ _ _ _ _ _ Hm) as [Hc Hd].
  split; [|split; [auto|]].
  - destruct (Hc pdf) as [E|(N & _)]; congruence.
  - destruct (Hc zip_path) as [E|(_ & _ & U)]; [exact E|].
    apply under_true in U as [q Hq]. unfold call_zip_path in Hq.
    apply (f_equal length) in Hq. rewrite !length_app in Hq. simpl in Hq. lia.
Qed.

Lemma extraction_call_failures_run (σ σ1 : fs) (f : string) (resp : Response) :
  path_error env σ pdf = None ->
  σ !! pdf = Some (File f) ->
  path_mkdir_parents_exist_ok env (length extract_dir) extract_dir σ
    = (Ok tt, σ1) ->
  requests_post env endpoint fields (path_name pdf, f) timeout_s = Ok resp ->
  let r := parse_pdf_via_self_hosted_mineru env pdf_path mineru_api_base
             upload_folder output_dir_field timeout_s form_overrides σ in
  let saved := <[zip_path := File (content resp)]> σ1 in
  (resp_ok resp = false ->
   r = (Raise (RuntimeError
                 ("Self-hosted MinerU error HTTP " +:+ pretty (status_code resp)
                  +:+ ": " +:+ error_snippet (text resp))),
        σ1))
  /\ (resp_ok resp = true ->
      forall e, path_error env σ1 zip_path = Some e -> r = (Raise e, σ1))
  /\ (resp_ok resp = true ->
      path_error env σ1 zip_path = None ->
      σ !! zip_path <> Some Dir ->
      (is_zipfile env (content resp) = false ->
       r = (Raise (RuntimeError
                     (non_zip_message zip_path
                        (decode_utf8_replace env
                           (PyStr.take (Z.to_nat 5000) (content resp))))),
            saved))
      /\ (is_zipfile env (content resp) = true ->
          forall e, ZipFile_infolist env (content resp) = Raise e ->
                    r = (Raise e, saved))).
Proof.
  intros Hx Hf Hm Hp r saved.
  destruct (parse_pdf_after_post σ σ1 f resp Hf Hm Hp) as (Hf1 & Hd1 & Hz1).
  assert (He : path_exists env pdf σ = (Ok true, σ))
    by (unfold path_exists, on_path, FS.exists_, gets; rewrite Hx, Hf;
        reflexivity).
  subst r. unfold parse_pdf_via_self_hosted_mineru, fetch_and_unpack.
  fold endpoint pdf. fold extract_dir. fold zip_path. fold fields.
  split; [|split].
  - intros Hok. apply bind_raise.
    rewrite (bind_ok _ _ _ _ _ He). cbn [negb].
    rewrite (bind_ok _ _ _ _ _ Hm).
    rewrite (bind_raise _ _ _ _ _
               (post_file_parse_error _ _ _ _ _ _ f resp Hf1 Hp Hok)).
    reflexivity.
  - intros Hok e Hz. apply bind_raise.
    rewrite (bind_ok _ _ _ _ _ He). cbn [negb].
    rewrite (bind_ok _ _ _ _ _ Hm).
    rewrite (bind_ok _ _ _ _ _
               (post_file_parse_ok _ _ _ _ _ _ f resp Hf1 Hp Hok)).
    apply bind_raise. unfold path_write_bytes. apply on_path_refused, Hz.
  - intros Hok Hzx Hnd.
    assert (Hw : path_write_bytes env zip_path (content resp) σ1
                 = (Ok tt, saved)).
    { unfold path_write_bytes. rewrite (on_path_accepted _ _ _ _ Hzx).
      unfold FS.write_bytes.
      replace (FS.parent zip_path) with extract_dir
        by (symmetry; apply parent_app).
      rewrite Hd1, Hz1.
      destruct (σ !! zip_path) as [[|]|] eqn:Ez; try contradiction; reflexivity. }
    split.
    + intros Hz. apply bind_raise.
      rewrite (bind_ok _ _ _ _ _ He). cbn [negb].
      rewrite (bind_ok _ _ _ _ _ Hm).
      rewrite (bind_ok _ _ _ _ _
                 (post_file_parse_ok _ _ _ _ _ _ f resp Hf1 Hp Hok)).
      rewrite (bind_ok _ _ _ _ _ Hw). rewrite Hz. cbn [negb]. reflexivity.
    + intros Hz e Hbad. apply bind_raise.
      rewrite (bind_ok _ _ _ _ _ He). cbn [negb].
      rewrite (bind_ok _ _ _ _ _ Hm).
      rewrite (bind_ok _ _ _ _ _
                 (post_file_parse_ok _ _ _ _ _ _ f resp Hf1 Hp Hok)).
      rewrite (bind_ok _ _ _ _ _ Hw). rewrite Hz. cbn [negb].
      assert (Hr : FS.read_bytes zip_path saved = (Ok (content resp), saved)).
      { unfold FS.read_bytes, saved. rewrite lookup_insert_eq. reflexivity. }
      rewrite (bind_ok _ _ _ _ _ Hr).
      apply bind_raise. unfold lift. rewrite Hbad. reflexivity.
Qed.

Lemma resp_ok_status (resp : Response) :
  resp_ok resp = false <-> 400 <= status_code resp < 600.
Proof. unfold resp_ok. rewrite negb_false_iff, andb_true_iff. lia. Qed.

(** C3 as stated fails: a payload can pass the test of
    [zipfile.is_zipfile], which looks for the end record only, and still
    not be an archive that [zipfile.ZipFile] opens; the call then raises
    [BadZipFile], not the malformed-response [RuntimeError]. *)
Lemma extraction_call_claim_counterexample :
  ~ (forall (env : client_env) (pdf_path upload_folder : Path.t) (σ : fs)
            (f : string) (resp : Response) (e : exn),
       σ !! call_pdf env pdf_path = Some (File f) ->
       requests_post env (call_endpoint "http://host:8023")
         (request_fields "./output" None)
         (path_name (call_pdf env pdf_path), f) 300 = Ok resp ->
       resp_ok resp = true ->
       ZipFile_infolist env (content resp) = Raise e ->
       exists msg : string,
         fst (parse_pdf_via_self_hosted_mineru env pdf_path "http://host:8023"
                upload_folder "./output" 300 None σ)
         = Raise (RuntimeError msg)).
Proof.
  intros H.
  destruct (H sample_bad_zip_client (Path.parse "/doc.pdf") (Path.parse "/up")
              sample_fs "%PDF-1.7" (mkResponse 200 "" html_with_end_record)
              (BadZipFile "Truncated central directory")
              ltac:(vm_compute; reflexivity) eq_refl eq_refl eq_refl)
    as [msg Hmsg].
  vm_compute in Hmsg. discriminate Hmsg.
Qed.

(** C3 (amended). In an extraction call whose PDF is a regular file at a
    path that the operating system does not refuse and whose result
    directory could be created.  A response with a 4xx or 5xx status makes
    the call raise the
    [RuntimeError] "Self-hosted MinerU error HTTP <status>: <text>", with
    the whole response text when it has at most 10000 characters, and
    otherwise with its first 10000 characters followed by a line feed and
    "... (truncated) ...".  A response with another status has its content
    written to the archive file first, unless the operating system refuses
    the path of that file, whose error is then raised.  If
    [zipfile.is_zipfile] then
    refuses the content, the call raises the [RuntimeError] "Self-hosted
    MinerU returned non-zip payload. Saved to <file>. Snippet:" with the
    first 5000 bytes decoded; if it accepts the content and
    [zipfile.ZipFile] cannot open it, the error of [zipfile.ZipFile]
    ([BadZipFile]) is what the call raises.  In both cases the content is
    on disk, in the file the message names. *)
Theorem extraction_call_failures (σ : fs) (f : string) (resp : Response) :
  let made :=
    path_mkdir_parents_exist_ok env (length extract_dir) extract_dir σ in
  path_error env σ pdf = None ->
  σ !! pdf = Some (File f) ->
  fst made = Ok tt ->
  requests_post env endpoint fields (path_name pdf, f) timeout_s = Ok resp ->
  let σ1 := snd made in
  let r := parse_pdf_via_self_hosted_mineru env pdf_path mineru_api_base
             upload_folder output_dir_field timeout_s form_overrides σ in
  let saved := <[zip_path := File (content resp)]> σ1 in
  (400 <= status_code resp < 600 ->
   (Z.of_nat (String.length (text resp)) <= 10000 ->
    r = (Raise (RuntimeError
                  ("Self-hosted MinerU error HTTP "
                   +:+ pretty (status_code resp) +:+ ": " +:+ text resp)),
         σ1))
   /\ (10000 < Z.of_nat (String.length (text resp)) ->
       r = (Raise (RuntimeError
                     ("Self-hosted MinerU error HTTP "
                      +:+ pretty (status_code resp) +:+ ": "
                      +:+ PyStr.take (Z.to_nat 10000) (text resp)
                      +:+ String "010" "... (truncated) ...")),
            σ1)))
  /\ (~ 400 <= status_code resp < 600 ->
      forall e, path_error env σ1 zip_path = Some e -> r = (Raise e, σ1))
  /\ (~ 400 <= status_code resp < 600 ->
      path_error env σ1 zip_path = None ->
      σ !! zip_path <> Some Dir ->
      (is_zipfile env (content resp) = false ->
       r = (Raise (RuntimeError
                     ("Self-hosted MinerU returned non-zip payload. Saved to "
                      +:+ Path.str (Path.of_abs zip_path) +:+ ". Snippet:"
                      +:+ String "010"
                            (decode_utf8_replace env
                               (PyStr.take (Z.to_nat 5000) (content resp))))),
            saved))
      /\ (is_zipfile env (content resp) = true ->
          forall e, ZipFile_infolist env (content resp) = Raise e ->
                    r = (Raise e, saved))
      /\ saved !! zip_path = Some (File (content resp))).
Proof.
  intros made Hx Hf Hm Hp σ1 r saved.
  assert (Hmade : made = (Ok tt, σ1)).
  { subst σ1. unfold made in *. clear made.
    destruct (path_mkdir_parents_exist_ok env (length extract_dir) extract_dir σ)
      as [u σ']. simpl in *. subst u. reflexivity. }
  destruct (extraction_call_failures_run σ σ1 f resp Hx Hf Hmade Hp)
    as (Herr & Hrefused & Hzip).
  fold r in Herr, Hrefused, Hzip. fold saved in Hzip.
  assert (Hoks : ~ 400 <= status_code resp < 600 -> resp_ok resp = true).
  { intros Hst. destruct (resp_ok resp) eqn:E; [reflexivity|].
    apply resp_ok_status in E. contradiction. }
  split; [|split].
  - intros Hst. apply resp_ok_status in Hst. specialize (Herr Hst).
    destruct (error_snippet_bound (text resp)) as (_ & Hshort & Hlong).
    split; intros Hl; rewrite Herr;
      [rewrite (Hshort Hl) | rewrite (Hlong Hl)]; reflexivity.
  - intros Hst. apply Hrefused, Hoks, Hst.
  - intros Hst Hzx Hnd.
    destruct (Hzip (Hoks Hst) Hzx Hnd) as [Hno Hbad].
    split; [|split; [exact Hbad | apply lookup_insert_eq]].
    intros Hz. rewrite (Hno Hz). reflexivity.
Qed.
End extraction_call.

(** * [_ensure_layout_json_from_middle_json] *)

Lemma NoDup_singleton_eq {A} (l : list A) (x : A) :
  NoDup l -> (forall y, y ∈ l <-> y = x) -> l = [x].
Proof.
  intros Hnd H. destruct l as [|a l].
  - assert (Hx : x ∈ @nil A) by (apply H; reflexivity). inversion Hx.
  - assert (a = x) by (apply H; left). subst a.
    destruct l as [|b l]; [reflexivity|].
    assert (b = x) by (apply H; right; left). subst b.
    apply NoDup_cons in Hnd as [Hn _]. exfalso. apply Hn. left.
Qed.

Lemma two_elements {A} (l : list A) (x y : A) :
  x ∈ l -> y ∈ l -> x <> y -> exists a b l', l = a :: b :: l'.
Proof.
  intros Hx Hy Hne. destruct l as [|a [|b l']].
  - inversion Hx.
  - apply list_elem_of_singleton in Hx, Hy. congruence.
  - eauto.
Qed.

Lemma sorted_elem_of (l : list string) (x : string) : x ∈ sorted l <-> x ∈ l.
Proof. unfold sorted. rewrite merge_sort_Permutation. reflexivity. Qed.

Lemma path_name_app (d : list string) (n : string) : path_name (d ++ [n]) = n.
Proof. unfold path_name. apply last_last. Qed.

Lemma map_path_name (d : list string) (l : list string) :
  map path_name (map (fun n => d ++ [n]) l) = l.
Proof.
  induction l as [|n l IH]; [reflexivity|]. simpl. rewrite path_name_app, IH.
  reflexivity.
Qed.

Section layout_backfill.
Variables (o : dir_order) (extract_dir : list string) (pdf_stem : string)
  (σ : fs).

#[local] Abbreviation layout_path := (layout_path_of extract_dir).
#[local] Abbreviation preferred := (preferred_middle extract_dir pdf_stem).
#[local] Abbreviation candidate := (middle_candidate σ extract_dir).

Hypothesis Hdir : σ !! extract_dir = Some Dir.
Hypothesis Hlayout : σ !! layout_path = None.

Lemma layout_copy (chosen : list string) (data : string) :
  σ !! chosen = Some (File data) ->
  (let* data := FS.read_bytes chosen in FS.write_bytes layout_path data) σ =
    (Ok tt, <[layout_path := File data]> σ).
Proof.
  intros Hc. unfold bind, FS.read_bytes, FS.write_bytes. rewrite Hc, Hlayout.
  replace (FS.parent layout_path) with extract_dir
    by (symmetry; apply parent_app).
  rewrite Hdir. reflexivity.
Qed.

Lemma ensure_layout_start :
  _ensure_layout_json_from_middle_json o extract_dir pdf_stem σ =
    let middle_candidates :=
      map (fun n => extract_dir ++ [n])
        (FS.glob_names o σ extract_dir "_middle.json") in
    match (if match σ !! preferred with Some _ => true | None => false end
           then Some preferred
           else match middle_candidates with [c] => Some c | _ => None end) with
    | None =>
        match middle_candidates with
        | [] => (Ok tt, σ)
        | _ => (Raise (RuntimeError
                         (multiple_middle_message extract_dir middle_candidates)),
                σ)
        end
    | Some chosen =>
        (let* data := FS.read_bytes chosen in FS.write_bytes layout_path data) σ
    end.
Proof.
  unfold _ensure_layout_json_from_middle_json. fold layout_path preferred.
  unfold bind at 1, FS.exists_ at 1, gets. rewrite Hlayout.
  unfold bind at 1, FS.glob_suffix, gets.
  unfold bind at 1, FS.exists_ at 1, gets. cbv zeta.
  repeat case_match; reflexivity.
Qed.

(** C2. In a result directory without [layout.json]: when the preferred
    [<pdf_stem>_middle.json] is a file, and when it is absent and exactly
    one entry is named [*_middle.json] and is a file, [layout.json] is
    written with the bytes of that file; when the preferred one is absent
    and two or more entries are named [*_middle.json], the call raises the
    [RuntimeError] "Multiple *_middle.json files found ..." whose message
    ends with the sorted names of all the candidates, one per line, and the
    file system is left as it was, so [layout.json] is not created. *)
Theorem ensure_layout_json_backfill :
  (forall data, σ !! preferred = Some (File data) ->
     _ensure_layout_json_from_middle_json o extract_dir pdf_stem σ =
       (Ok tt, <[layout_path := File data]> σ))
  /\ (forall n data,
        σ !! preferred = None ->
        (forall m, candidate m <-> m = n) ->
        σ !! (extract_dir ++ [n]) = Some (File data) ->
        _ensure_layout_json_from_middle_json o extract_dir pdf_stem σ =
          (Ok tt, <[layout_path := File data]> σ))
  /\ (forall n1 n2,
        σ !! preferred = None ->
        candidate n1 -> candidate n2 -> n1 <> n2 ->
        exists names : list string,
          _ensure_layout_json_from_middle_json o extract_dir pdf_stem σ =
            (Raise (RuntimeError
                      ("Multiple *_middle.json files found but layout.json is missing. "
                       +:+ "Cannot choose which to copy in "
                       +:+ Path.str (Path.of_abs extract_dir) +:+ "." +:+ nl
                       +:+ "Candidates:" +:+ nl +:+ PyStr.join nl names)),
             σ)
          /\ (forall m, m ∈ names <-> candidate m)
          /\ σ !! layout_path = None).
Proof.
  split; [|split].
  - intros data Hp. rewrite ensure_layout_start. cbv zeta. rewrite Hp.
    apply layout_copy, Hp.
  - intros n data Hp Huniq Hn. rewrite ensure_layout_start. cbv zeta. rewrite Hp.
    assert (E : FS.glob_names o σ extract_dir "_middle.json" = [n]).
    { apply NoDup_singleton_eq; [apply NoDup_glob_names|].
      intros m. rewrite (elem_of_glob_names _ _ _ _ _ Hdir). apply Huniq. }
    rewrite E. simpl map. apply layout_copy, Hn.
  - intros n1 n2 Hp H1 H2 Hne.
    exists (sorted (FS.glob_names o σ extract_dir "_middle.json")).
    split; [|split; [|exact Hlayout]].
    + rewrite ensure_layout_start. cbv zeta. rewrite Hp.
      destruct (two_elements (FS.glob_names o σ extract_dir "_middle.json") n1 n2)
        as (a & b & l' & E); [apply elem_of_glob_names; auto.. | exact Hne |].
      unfold multiple_middle_message. rewrite map_path_name. rewrite E. reflexivity.
    + intros m. rewrite sorted_elem_of. apply elem_of_glob_names, Hdir.
Qed.
End layout_backfill.

(** * [_flatten_single_top_level_dir] *)

Lemma strip_prefix_app_app (d a b : list string) :
  FS.strip_prefix (d ++ a) (d ++ b) = FS.strip_prefix a b.
Proof.
  induction d as [|x d IH]; [reflexivity|]. simpl.
  rewrite String.eqb_refl. exact IH.
Qed.

Lemma under_app_app (d a b : list string) :
  FS.under (d ++ a) (d ++ b) = FS.under a b.
Proof. unfold FS.under. rewrite strip_prefix_app_app. reflexivity. Qed.

Lemma strip_prefix_app_self (d a : list string) :
  FS.strip_prefix (d ++ a) d = match a with [] => Some [] | _ => None end.
Proof.
  rewrite <- (app_nil_r d) at 2. rewrite strip_prefix_app_app.
  destruct a; reflexivity.
Qed.

Lemma strip_prefix_outside (d a p : list string) :
  FS.strip_prefix d p = None -> FS.strip_prefix (d ++ a) p = None.
Proof.
  intros H. destruct (FS.strip_prefix (d ++ a) p) as [q|] eqn:E; [|reflexivity].
  apply strip_prefix_Some in E. subst p. rewrite <- app_assoc in H.
  rewrite strip_prefix_app in H. discriminate.
Qed.

Lemma flatten_candidates_filter (entries : list (list string)) (σ : fs) :
  flatten_candidates entries σ =
    (Ok (List.filter (flatten_candidate σ) entries), σ).
Proof.
  induction entries as [|p rest IH]; [reflexivity|].
  cbn [flatten_candidates List.filter]. unfold flatten_candidate at 1.
  generalize (existsb (String.eqb (path_name p)) ignored_names) as ign.
  intros [|]; [exact IH|].
  cbn [negb andb]. unfold bind at 1, FS.is_file, gets.
  destruct (match σ !! p with Some (File _) => true | _ => false end
            && String.eqb (lower (suffix_of (path_name p))) ".zip") eqn:E.
  - cbn [negb]. exact IH.
  - cbn [negb]. unfold bind. rewrite IH. reflexivity.
Qed.

Lemma for_each_map {A B} (f : A -> B) (g : B -> M unit) (l : list A) :
  for_each (map f l) g = for_each l (fun x => g (f x)).
Proof. induction l as [|x l IH]; [reflexivity|]. simpl. rewrite IH. reflexivity. Qed.

Section hoist.
Variables (d : list string) (top : string).

Lemma only_app (n : string) (q : list string) :
  (d ++ [top]) ++ n :: q = d ++ top :: n :: q.
Proof. rewrite <- app_assoc. reflexivity. Qed.

Lemma hoist_entry_ok (σ : fs) (n : string) :
  is_Some (σ !! ((d ++ [top]) ++ [n])) ->
  σ !! (d ++ [n]) = None ->
  σ !! d = Some Dir ->
  hoist_entry d ((d ++ [top]) ++ [n]) σ =
    (Ok tt, FS.move ((d ++ [top]) ++ [n]) (d ++ [n]) σ).
Proof.
  intros [v Hv] Hn Hd. unfold hoist_entry. rewrite path_name_app.
  unfold bind, FS.exists_, gets. rewrite Hn. unfold FS.rename. rewrite Hv.
  rewrite bool_decide_eq_false_2.
  2:{ intros E. apply (f_equal length) in E. rewrite !length_app in E.
      simpl in E. lia. }
  rewrite only_app, under_app_app.
  replace (FS.under [top; n] [n]) with false
    by (unfold FS.under; simpl; destruct (String.eqb top n); reflexivity).
  rewrite parent_app, Hd, Hn. reflexivity.
Qed.

Lemma hoist_entry_collision (σ : fs) (n : string) :
  is_Some (σ !! (d ++ [n])) ->
  hoist_entry d ((d ++ [top]) ++ [n]) σ =
    (Raise (RuntimeError
              ("Cannot flatten zip output; target already exists: "
               +:+ Path.str (Path.of_abs (d ++ [n])))),
     σ).
Proof.
  intros [v Hv]. unfold hoist_entry. rewrite path_name_app.
  unfold bind, FS.exists_, gets. rewrite Hv. reflexivity.
Qed.

Lemma lookup_move_hoist (σ : fs) (n1 : string) (p : list string) :
  n1 <> top ->
  FS.move ((d ++ [top]) ++ [n1]) (d ++ [n1]) σ !! p = hoisted σ d top [n1] p.
Proof.
  intros Hne. rewrite lookup_move. unfold hoisted.
  destruct (FS.strip_prefix d p) as [q0|] eqn:E.
  - apply strip_prefix_Some in E. subst p.
    rewrite only_app, strip_prefix_app_app, under_app_app.
    destruct q0 as [|n q]; [reflexivity|].
    unfold FS.under. simpl.
    destruct (String.eqb_spec n1 n) as [->|Hn1].
    + rewrite bool_decide_eq_true_2 by (left). rewrite <- app_assoc. reflexivity.
    + rewrite bool_decide_eq_false_2
        by (intros H; apply list_elem_of_singleton in H; congruence).
      destruct (String.eqb_spec top n) as [->|Ht].
      * rewrite bool_decide_eq_true_2 by reflexivity.
        destruct q as [|m q]; [reflexivity|].
        destruct (String.eqb_spec n1 m) as [->|Hm].
        -- rewrite bool_decide_eq_true_2 by (left). reflexivity.
        -- rewrite bool_decide_eq_false_2
             by (intros H; apply list_elem_of_singleton in H; congruence).
           reflexivity.
      * rewrite bool_decide_eq_false_2 by congruence. reflexivity.
  - rewrite (strip_prefix_outside d [n1] p E).
    unfold FS.under. rewrite only_app.
    rewrite (strip_prefix_outside d [top; n1] p E). reflexivity.
Qed.

(** Moving [n1] and then the names of [l] is moving the names of
    [n1 :: l]. *)
Lemma hoisted_cons (σ σ1 : fs) (n1 : string) (l : list string) (p : list string) :
  (forall k, σ1 !! k = hoisted σ d top [n1] k) ->
  n1 <> top -> n1 ∉ l -> top ∉ l ->
  hoisted σ1 d top l p = hoisted σ d top (n1 :: l) p.
Proof.
  intros H1 Hne Hn1 Ht. unfold hoisted.
  destruct (FS.strip_prefix d p) as [[|n q]|] eqn:E.
  - rewrite H1. unfold hoisted. rewrite E. reflexivity.
  - apply strip_prefix_Some in E. subst p.
    destruct (decide (n ∈ l)) as [Hin|Hnin].
    + rewrite !bool_decide_eq_true_2 by (auto; right; auto).
      rewrite H1. unfold hoisted.
      rewrite (strip_prefix_app d (top :: n :: q)).
      rewrite bool_decide_eq_false_2
        by (intros H; apply list_elem_of_singleton in H; congruence).
      rewrite bool_decide_eq_true_2 by reflexivity.
      rewrite bool_decide_eq_false_2
        by (intros H; apply list_elem_of_singleton in H; congruence).
      reflexivity.
    + rewrite (bool_decide_eq_false_2 (n ∈ l)) by exact Hnin.
      destruct (decide (n = n1)) as [->|Hn].
      * rewrite (bool_decide_eq_true_2 (n1 ∈ n1 :: l)) by (left).
        rewrite (bool_decide_eq_false_2 (n1 = top)) by exact Hne.
        rewrite H1. unfold hoisted. rewrite strip_prefix_app.
        rewrite bool_decide_eq_true_2 by (left). reflexivity.
      * rewrite (bool_decide_eq_false_2 (n ∈ n1 :: l))
          by (intros H; apply elem_of_cons in H as [?|?]; congruence).
        destruct (decide (n = top)) as [->|Hnt].
        -- rewrite !(bool_decide_eq_true_2 (top = top)) by reflexivity.
           destruct q as [|m q].
           ++ rewrite H1. unfold hoisted. rewrite strip_prefix_app.
              rewrite bool_decide_eq_false_2
                by (intros H; apply list_elem_of_singleton in H; congruence).
              rewrite bool_decide_eq_true_2 by reflexivity. reflexivity.
           ++ destruct (decide (m ∈ l)) as [Hm|Hm].
              ** rewrite !bool_decide_eq_true_2 by (auto; right; auto). reflexivity.
              ** rewrite (bool_decide_eq_false_2 (m ∈ l)) by exact Hm.
                 rewrite H1. unfold hoisted. rewrite strip_prefix_app.
                 rewrite bool_decide_eq_false_2
                   by (intros H; apply list_elem_of_singleton in H; congruence).
                 rewrite bool_decide_eq_true_2 by reflexivity.
                 destruct (decide (m = n1)) as [->|Hmn].
                 --- rewrite !bool_decide_eq_true_2 by (left). reflexivity.
                 --- rewrite !bool_decide_eq_false_2; [reflexivity | |].
                     +++ intros H; apply elem_of_cons in H as [?|?]; congruence.
                     +++ intros H; apply list_elem_of_singleton in H; congruence.
        -- rewrite !(bool_decide_eq_false_2 (n = top)) by exact Hnt.
           rewrite H1. unfold hoisted. rewrite strip_prefix_app.
           rewrite bool_decide_eq_false_2
             by (intros H; apply list_elem_of_singleton in H; congruence).
           rewrite bool_decide_eq_false_2 by exact Hnt. reflexivity.
  - rewrite H1. unfold hoisted. rewrite E. reflexivity.
Qed.

Lemma hoisted_nil (σ : fs) (p : list string) : hoisted σ d top [] p = σ !! p.
Proof.
  unfold hoisted. destruct (FS.strip_prefix d p) as [[|n q]|]; try reflexivity.
  rewrite bool_decide_eq_false_2 by (apply not_elem_of_nil).
  case_bool_decide; [|reflexivity]. destruct q; [reflexivity|].
  rewrite bool_decide_eq_false_2 by (apply not_elem_of_nil). reflexivity.
Qed.
End hoist.

Section hoist_loop.
Variables (d : list string) (top : string).

Lemma hoisted_at_d (σ : fs) (l : list string) : hoisted σ d top l d = σ !! d.
Proof.
  unfold hoisted.
  replace (FS.strip_prefix d d) with (Some (@nil string)); [reflexivity|].
  symmetry. apply strip_prefix_Some. symmetry. apply app_nil_r.
Qed.

Lemma hoisted_at_top (σ : fs) (l : list string) :
  top ∉ l -> hoisted σ d top l (d ++ [top]) = σ !! (d ++ [top]).
Proof.
  intros Ht. unfold hoisted. rewrite strip_prefix_app.
  rewrite bool_decide_eq_false_2 by exact Ht.
  rewrite bool_decide_eq_true_2 by reflexivity. reflexivity.
Qed.

Lemma hoisted_at_target (σ : fs) (l : list string) (n : string) :
  n ∉ l -> n <> top -> hoisted σ d top l (d ++ [n]) = σ !! (d ++ [n]).
Proof.
  intros Hn Ht. unfold hoisted. rewrite strip_prefix_app.
  rewrite bool_decide_eq_false_2 by exact Hn.
  rewrite bool_decide_eq_false_2 by exact Ht. reflexivity.
Qed.

Lemma hoisted_at_entry (σ : fs) (l : list string) (n : string) :
  top ∉ l -> n ∉ l ->
  hoisted σ d top l ((d ++ [top]) ++ [n]) = σ !! ((d ++ [top]) ++ [n]).
Proof.
  intros Ht Hn. unfold hoisted. rewrite only_app, strip_prefix_app.
  rewrite bool_decide_eq_false_2 by exact Ht.
  rewrite bool_decide_eq_true_2 by reflexivity.
  rewrite bool_decide_eq_false_2 by exact Hn. reflexivity.
Qed.

Lemma hoist_inv_step (σ : fs) (n1 : string) (l : list string) :
  hoist_inv d top σ (n1 :: l) -> σ !! (d ++ [n1]) = None ->
  n1 <> top
  /\ hoist_inv d top (FS.move ((d ++ [top]) ++ [n1]) (d ++ [n1]) σ) l.
Proof.
  intros (Hnd & Hch & Hd & Ht) Hn.
  assert (Hne : n1 <> top) by (intros ->; congruence).
  apply NoDup_cons in Hnd as [Hn1 Hnd].
  split; [exact Hne|]. split; [exact Hnd|].
  assert (Hs : forall x, x <> n1 -> x ∉ [n1])
    by (intros x Hx H; apply list_elem_of_singleton in H; congruence).
  split; [|split].
  - intros n Hin. rewrite lookup_move_hoist by exact Hne.
    rewrite hoisted_at_entry; [apply Hch; right; exact Hin | apply Hs; auto |].
    apply Hs. intros ->. contradiction.
  - rewrite lookup_move_hoist by exact Hne. rewrite hoisted_at_d. exact Hd.
  - rewrite lookup_move_hoist by exact Hne.
    rewrite hoisted_at_top; [exact Ht | apply Hs; auto].
Qed.

Lemma hoist_loop_ok (l : list string) : forall σ : fs,
  hoist_inv d top σ l ->
  (forall n, n ∈ l -> σ !! (d ++ [n]) = None) ->
  exists σ' : fs,
    for_each (map (fun n => (d ++ [top]) ++ [n]) l) (hoist_entry d) σ
      = (Ok tt, σ')
    /\ forall p, σ' !! p = hoisted σ d top l p.
Proof.
  induction l as [|n1 l IH]; intros σ Hinv Hfree.
  - exists σ. split; [reflexivity|]. intros p. symmetry. apply hoisted_nil.
  - assert (Hn1 : σ !! (d ++ [n1]) = None) by (apply Hfree; left).
    destruct (hoist_inv_step σ n1 l Hinv Hn1) as [Hne Hinv1].
    destruct Hinv as (Hnd & Hch & Hd & Ht).
    apply NoDup_cons in Hnd as [Hnotin Hnd].
    assert (Htl : top ∉ l).
    { intros Hin. specialize (Hfree top ltac:(right; exact Hin)). congruence. }
    set (σ1 := FS.move ((d ++ [top]) ++ [n1]) (d ++ [n1]) σ) in *.
    destruct (IH σ1 Hinv1) as (σ' & Hrun & Hlook).
    { intros n Hin. subst σ1. rewrite lookup_move_hoist by exact Hne.
      rewrite hoisted_at_target.
      - apply Hfree. right. exact Hin.
      - intros H. apply list_elem_of_singleton in H. subst n. contradiction.
      - intros ->. contradiction. }
    exists σ'. split.
    + cbn [map for_each].
      rewrite (bind_ok _ _ σ σ1 tt); [exact Hrun|].
      apply hoist_entry_ok; [apply Hch; left | exact Hn1 | exact Hd].
    + intros p. rewrite Hlook. apply hoisted_cons; auto.
      intros k. subst σ1. apply lookup_move_hoist, Hne.
Qed.

Lemma hoist_loop_collision (l : list string) : forall σ : fs,
  hoist_inv d top σ l ->
  (exists n, n ∈ l /\ is_Some (σ !! (d ++ [n]))) ->
  exists (n : string) (σ' : fs),
    n ∈ l /\ is_Some (σ !! (d ++ [n]))
    /\ for_each (map (fun n => (d ++ [top]) ++ [n]) l) (hoist_entry d) σ
       = (Raise (RuntimeError
                   ("Cannot flatten zip output; target already exists: "
                    +:+ Path.str (Path.of_abs (d ++ [n])))),
          σ').
Proof.
  induction l as [|n1 l IH]; intros σ Hinv (n & Hin & Hsome).
  - inversion Hin.
  - destruct (σ !! (d ++ [n1])) as [v|] eqn:Hn1.
    + exists n1, σ. split; [left|]. split; [rewrite Hn1; eauto|].
      cbn [map for_each]. apply bind_raise, hoist_entry_collision.
      rewrite Hn1. eauto.
    + destruct (hoist_inv_step σ n1 l Hinv Hn1) as [Hne Hinv1].
      destruct Hinv as (Hnd & Hch & Hd & Ht).
      apply NoDup_cons in Hnd as [Hnotin Hnd].
      set (σ1 := FS.move ((d ++ [top]) ++ [n1]) (d ++ [n1]) σ) in *.
      assert (Hnn : n ∈ l).
      { apply elem_of_cons in Hin as [->|Hin]; [|exact Hin].
        rewrite Hn1 in Hsome. destruct Hsome; discriminate. }
      assert (Hkeep : forall m, m ∈ l -> σ1 !! (d ++ [m]) = σ !! (d ++ [m])).
      { intros m Hm. subst σ1. rewrite lookup_move_hoist by exact Hne.
        unfold hoisted. rewrite strip_prefix_app.
        rewrite bool_decide_eq_false_2.
        2:{ intros H. apply list_elem_of_singleton in H. subst m. contradiction. }
        case_bool_decide; reflexivity. }
      destruct (IH σ1 Hinv1) as (m & σ' & Hm & Hms & Hrun).
      { exists n. split; [exact Hnn|]. rewrite Hkeep; auto. }
      exists m, σ'. split; [right; exact Hm|].
      split; [rewrite <- Hkeep; auto|].
      cbn [map for_each].
      rewrite (bind_ok _ _ σ σ1 tt); [exact Hrun|].
      apply hoist_entry_ok; [apply Hch; left | exact Hn1 | exact Hd].
Qed.
End hoist_loop.

Lemma filter_map_names (f : list string -> bool) (d : list string)
    (l : list string) :
  List.filter f (map (fun n => d ++ [n]) l) =
    map (fun n => d ++ [n]) (List.filter (fun n => f (d ++ [n])) l).
Proof.
  induction l as [|n l IH]; [reflexivity|]. simpl.
  destruct (f (d ++ [n])); simpl; rewrite IH; reflexivity.
Qed.

Section flatten.
Variables (o : dir_order) (d : list string) (σ : fs).
Hypothesis Hdir : σ !! d = Some Dir.

Lemma elem_of_candidate_names (n : string) :
  n ∈ (candidate_names o d σ) <->
  is_Some (σ !! (d ++ [n])) /\ flatten_candidate σ (d ++ [n]) = true.
Proof.
  unfold candidate_names.
  rewrite elem_of_List_filter, elem_of_scan, elem_of_children. reflexivity.
Qed.

Lemma NoDup_candidate_names : NoDup (candidate_names o d σ).
Proof. apply NoDup_List_filter, NoDup_scan, NoDup_children. Qed.

Lemma flatten_start :
  _flatten_single_top_level_dir o d σ =
    match (candidate_names o d σ) with
    | [top] =>
        match σ !! (d ++ [top]) with
        | Some Dir =>
            (let* _ :=
               for_each
                 (map (fun n => (d ++ [top]) ++ [n])
                    (o (FS.children σ (d ++ [top]))))
                 (hoist_entry d) in
             try_except_M (FS.rmdir (d ++ [top])) FS.is_OSError
               (fun _ => ret tt)) σ
        | _ => (Ok tt, σ)
        end
    | _ => (Ok tt, σ)
    end.
Proof.
  unfold _flatten_single_top_level_dir.
  unfold bind at 1, FS.iterdir at 1. rewrite Hdir.
  unfold bind at 1. rewrite flatten_candidates_filter, filter_map_names.
  fold (candidate_names o d σ).
  destruct (candidate_names o d σ) as [|top [|b l]]; try reflexivity.
  cbn [map]. unfold bind at 1, FS.is_dir, gets.
  destruct (σ !! (d ++ [top])) as [[|]|] eqn:Et; try reflexivity.
  cbn [negb]. unfold bind at 1, FS.iterdir. rewrite Et. reflexivity.
Qed.

(** C8. In an extraction directory: when the entries that are neither
    ignored nor a saved zip file are exactly one entry [top], and it is a
    directory, then (1) if a name of [top] is already taken in the
    extraction directory the call raises the [RuntimeError] "Cannot flatten
    zip output; target already exists: ..." that names such a target, and
    (2) if none is taken, every entry of [top] is found one level up with
    all that is below it, nothing is left of it under [top], [top] itself
    is removed and the other paths are as before; in all the other cases
    (no such entry, several, or one that is not a directory) the directory
    is left as it is. *)
Theorem flatten_single_top_level_dir_spec :
  let candidate := top_level_candidate σ d in
  ((forall top, (forall n, candidate n <-> n = top) ->
                σ !! (d ++ [top]) <> Some Dir) ->
   _flatten_single_top_level_dir o d σ = (Ok tt, σ))
  /\ (forall top,
        (forall n, candidate n <-> n = top) ->
        σ !! (d ++ [top]) = Some Dir ->
        ((exists n, is_Some (σ !! (d ++ [top; n])) /\ is_Some (σ !! (d ++ [n]))) ->
         exists (n : string) (σ' : fs),
           is_Some (σ !! (d ++ [top; n])) /\ is_Some (σ !! (d ++ [n]))
           /\ _flatten_single_top_level_dir o d σ =
                (Raise (RuntimeError
                          ("Cannot flatten zip output; target already exists: "
                           +:+ Path.str (Path.of_abs (d ++ [n])))),
                 σ'))
        /\ ((forall n, is_Some (σ !! (d ++ [top; n])) -> σ !! (d ++ [n]) = None) ->
            exists σ' : fs,
              _flatten_single_top_level_dir o d σ = (Ok tt, σ')
              /\ (forall n q, is_Some (σ !! (d ++ [top; n])) ->
                    σ' !! (d ++ n :: q) = σ !! (d ++ top :: n :: q))
              /\ (forall n q, is_Some (σ !! (d ++ [top; n])) ->
                    σ' !! (d ++ top :: n :: q) = None)
              /\ σ' !! (d ++ [top]) = None
              /\ (forall p, FS.under (d ++ [top]) p = false ->
                    (forall n q, is_Some (σ !! (d ++ [top; n])) ->
                                 p <> d ++ n :: q) ->
                    σ' !! p = σ !! p))).
Proof.
  intros candidate. split.
  - intros H. rewrite flatten_start.
    destruct (candidate_names o d σ) as [|top [|b l]] eqn:E; try reflexivity.
    assert (Hu : forall n, candidate n <-> n = top).
    { intros n. unfold candidate, top_level_candidate.
      rewrite <- elem_of_candidate_names, E.
      apply list_elem_of_singleton. }
    specialize (H top Hu).
    destruct (σ !! (d ++ [top])) as [[|]|]; try reflexivity. contradiction.
  - intros top Hu Ht.
    assert (E : candidate_names o d σ = [top]).
    { apply NoDup_singleton_eq; [apply NoDup_candidate_names|].
      intros n. rewrite elem_of_candidate_names. apply Hu. }
    set (l := o (FS.children σ (d ++ [top]))).
    assert (Hl : forall n, n ∈ l <-> is_Some (σ !! (d ++ [top; n]))).
    { intros n. subst l. rewrite elem_of_scan, elem_of_children, only_app.
      reflexivity. }
    assert (Hinv : hoist_inv d top σ l).
    { split; [apply NoDup_scan, NoDup_children|]. split; [|auto].
      intros n Hn. rewrite only_app. apply Hl, Hn. }
    rewrite flatten_start, E, Ht. fold l. split.
    + intros (n & Hn & Hc).
      destruct (hoist_loop_collision d top l σ Hinv) as (m & σ' & Hm & Hmc & Hrun).
      { exists n. split; [apply Hl, Hn | exact Hc]. }
      exists m, σ'. split; [apply Hl, Hm|]. split; [exact Hmc|].
      apply bind_raise, Hrun.
    + intros Hfree.
      destruct (hoist_loop_ok d top l σ Hinv) as (σ' & Hrun & Hlook).
      { intros n Hn. apply Hfree, Hl, Hn. }
      assert (Htl : top ∉ l).
      { intros Hin. apply Hl, Hfree in Hin. congruence. }
      assert (Hrm : FS.rmdir (d ++ [top]) σ' = (Ok tt, delete (d ++ [top]) σ')).
      { unfold FS.rmdir. rewrite Hlook, hoisted_at_top, Ht by exact Htl.
        replace (FS.children σ' (d ++ [top])) with (@nil string); [reflexivity|].
        symmetry. apply children_nil. intros m. rewrite Hlook.
        unfold hoisted. rewrite only_app, strip_prefix_app.
        rewrite bool_decide_eq_false_2 by exact Htl.
        rewrite bool_decide_eq_true_2 by reflexivity.
        case_bool_decide as Hm; [reflexivity|].
        destruct (σ !! (d ++ [top; m])) eqn:Em; [|reflexivity].
        exfalso. apply Hm, Hl. rewrite Em. eauto. }
      exists (delete (d ++ [top]) σ'). split; [|split; [|split; [|split]]].
      * rewrite (bind_ok _ _ σ σ' tt) by exact Hrun.
        unfold try_except_M. rewrite Hrm. reflexivity.
      * intros n q Hn. apply Hl in Hn.
        rewrite lookup_delete_ne.
        2:{ intros Heq. apply app_inv_head in Heq. injection Heq as -> _.
            contradiction. }
        rewrite Hlook. unfold hoisted. rewrite strip_prefix_app.
        rewrite bool_decide_eq_true_2 by exact Hn. reflexivity.
      * intros n q Hn. apply Hl in Hn.
        rewrite lookup_delete_ne.
        2:{ intros Heq. apply app_inv_head in Heq. discriminate. }
        rewrite Hlook. unfold hoisted. rewrite strip_prefix_app.
        rewrite bool_decide_eq_false_2 by exact Htl.
        rewrite bool_decide_eq_true_2 by reflexivity.
        rewrite bool_decide_eq_true_2 by exact Hn. reflexivity.
      * apply lookup_delete_eq.
      * intros p Hp Hnot.
        rewrite lookup_delete_ne.
        2:{ intros <-. rewrite under_refl in Hp. discriminate. }
        rewrite Hlook. unfold hoisted.
        destruct (FS.strip_prefix d p) as [[|n q]|] eqn:Es; try reflexivity.
        apply strip_prefix_Some in Es. subst p.
        case_bool_decide as Hn.
        { exfalso. apply (Hnot n q); [apply Hl, Hn | reflexivity]. }
        case_bool_decide as Hnt; [|reflexivity]. subst n.
        exfalso. change (d ++ top :: q) with (d ++ [top] ++ q) in Hp.
        rewrite app_assoc, under_app in Hp. discriminate.
Qed.
End flatten.

(** * [_safe_extractall] *)

Lemma join_cons (a : string) (l : list string) :
  PyStr.join "/" (a :: l) =
    a +:+ match l with [] => "" | _ => "/" +:+ PyStr.join "/" l end.
Proof.
  destruct l as [|b l]; [|reflexivity]. simpl.
  induction a as [|c a IH]; [reflexivity|].
  change (String c a +:+ "") with (String c (a +:+ "")). rewrite <- IH. reflexivity.
Qed.

Lemma append_assoc (a b c : string) : (a +:+ b) +:+ c = a +:+ (b +:+ c).
Proof.
  induction a as [|x a IH]; [reflexivity|].
  change ((String x a +:+ b) +:+ c) with (String x ((a +:+ b) +:+ c)).
  rewrite IH. reflexivity.
Qed.

Lemma join_slash (l : list string) :
  l <> [] -> PyStr.join "/" l +:+ "/" = join_trailing l.
Proof.
  induction l as [|a l IH]; [contradiction|]. intros _.
  rewrite join_cons. cbn [join_trailing]. destruct l as [|b l].
  - rewrite append_assoc. reflexivity.
  - rewrite append_assoc. f_equal.
    change (("/" +:+ PyStr.join "/" (b :: l)) +:+ "/")
      with ("/" +:+ (PyStr.join "/" (b :: l) +:+ "/")).
    rewrite IH by discriminate. reflexivity.
Qed.

(** A name followed by a separator is matched only by the same name. *)
Lemma startswith_name (a b t k : string) :
  no_slash a = true -> no_slash b = true ->
  (t = "" \/ exists t', t = String "/" t') ->
  PyStr.startswith (b +:+ t) (a +:+ String "/" k) = true ->
  a = b /\ exists t', t = String "/" t' /\ PyStr.startswith t' k = true.
Proof.
  revert b. induction a as [|x a IH]; intros b Ha Hb Ht H.
  - destruct b as [|y b].
    + change ("" +:+ t) with t in H.
      change ("" +:+ String "/" k) with (String "/" k) in H.
      destruct Ht as [->|[t' ->]]; [discriminate H|].
      simpl in H. split; [reflexivity|]. eauto.
    + change (String y b +:+ t) with (String y (b +:+ t)) in H.
      change ("" +:+ String "/" k) with (String "/" k) in H.
      cbn [PyStr.startswith] in H. apply andb_true_iff in H as [Hy _].
      apply Ascii.eqb_eq in Hy. subst y. discriminate Hb.
  - change (String x a +:+ String "/" k) with (String x (a +:+ String "/" k)) in H.
    simpl in Ha. apply andb_true_iff in Ha as [Hx Ha].
    destruct b as [|y b].
    + change ("" +:+ t) with t in H.
      destruct Ht as [->|[t' ->]]; [discriminate H|].
      cbn [PyStr.startswith] in H. apply andb_true_iff in H as [Hy _].
      apply Ascii.eqb_eq in Hy. subst x. discriminate Hx.
    + change (String y b +:+ t) with (String y (b +:+ t)) in H.
      simpl in H. simpl in Hb. apply andb_true_iff in Hb as [_ Hb].
      apply andb_true_iff in H as [Hxy H].
      apply Ascii.eqb_eq in Hxy. subst y.
      destruct (IH b Ha Hb Ht H) as (-> & Hrest). split; [reflexivity | exact Hrest].
Qed.

Lemma startswith_join (out dest : list string) :
  Forall (fun c => no_slash c = true) out ->
  Forall (fun c => no_slash c = true) dest ->
  PyStr.startswith (PyStr.join "/" dest) (join_trailing out) = true ->
  FS.under out dest = true.
Proof.
  revert dest. induction out as [|a out IH]; intros dest Ho Hd H; [reflexivity|].
  apply Forall_cons in Ho as [Ha Ho]. cbn [join_trailing] in H.
  destruct dest as [|b dest].
  - simpl in H. destruct a; discriminate H.
  - apply Forall_cons in Hd as [Hb Hd]. rewrite join_cons in H.
    apply startswith_name in H as (-> & t' & Ht & Hs); [|auto..|].
    + unfold FS.under. simpl. rewrite String.eqb_refl.
      destruct dest as [|c dest]; [discriminate Ht|].
      injection Ht as <-. apply (IH _ Ho Hd Hs).
    + destruct dest; [left; reflexivity | right; eauto].
Qed.

(** The test of line 61 lets through only destinations at or below the
    target directory. *)
Lemma unsafe_dest_outside (out dest : list string) :
  Forall (fun c => no_slash c = true) out ->
  Forall (fun c => no_slash c = true) dest ->
  unsafe_dest out dest = false -> FS.under out dest = true.
Proof.
  intros Ho Hd H. unfold unsafe_dest in H.
  apply andb_false_iff in H as [H|H].
  - apply negb_false_iff in H.
    destruct out as [|a out]; [reflexivity|].
    unfold Path.str, Path.of_abs in H. cbn [Path.root Path.parts] in H.
    change ("/" +:+ PyStr.join "/" dest) with (String "/" (PyStr.join "/" dest)) in H.
    change (("/" +:+ PyStr.join "/" (a :: out)) +:+ "/")
      with (String "/" (PyStr.join "/" (a :: out) +:+ "/")) in H.
    cbn [PyStr.startswith] in H. rewrite Ascii.eqb_refl in H. cbn [andb] in H.
    rewrite join_slash in H by discriminate.
    apply startswith_join; auto.
  - apply negb_false_iff, bool_decide_eq_true in H. subst dest. apply under_refl.
Qed.

Lemma split_no_slash (s : string) :
  Forall (fun c => no_slash c = true) (PyStr.split "/" s).
Proof.
  induction s as [|c s IH]; simpl.
  - repeat constructor.
  - destruct (Ascii.eqb c "/") eqn:Ec.
    + constructor; [reflexivity | exact IH].
    + destruct (PyStr.split "/" s) as [|f l].
      * repeat constructor. simpl. rewrite Ec. reflexivity.
      * apply Forall_cons in IH as [Hf Hl]. constructor; [|exact Hl].
        simpl. rewrite Ec, Hf. reflexivity.
Qed.

Lemma Forall_List_filter {A} (P : A -> Prop) (f : A -> bool) (l : list A) :
  Forall P l -> Forall P (List.filter f l).
Proof.
  induction 1 as [|x l Hx Hl IH]; simpl; [constructor|].
  destruct (f x); [constructor|]; auto.
Qed.

Lemma Forall_removelast {A} (P : A -> Prop) (l : list A) :
  Forall P l -> Forall P (removelast l).
Proof.
  induction 1 as [|x l Hx Hl IH]; simpl; [constructor|].
  destruct l; [constructor | constructor; auto].
Qed.

Lemma resolve_fold_no_slash (l acc : list string) :
  Forall (fun c => no_slash c = true) l ->
  Forall (fun c => no_slash c = true) acc ->
  Forall (fun c => no_slash c = true) (fold_left Path.resolve_step l acc).
Proof.
  revert acc. induction l as [|c l IH]; intros acc Hl Ha; [exact Ha|].
  apply Forall_cons in Hl as [Hc Hl]. simpl. apply IH; [exact Hl|].
  unfold Path.resolve_step. destruct (String.eqb c "..").
  - apply Forall_removelast, Ha.
  - apply Forall_app. split; [exact Ha | repeat constructor; exact Hc].
Qed.

Lemma parse_no_slash (s : string) :
  Forall (fun c => no_slash c = true) (Path.parts (Path.parse s)).
Proof. apply Forall_List_filter, split_no_slash. Qed.

Lemma member_dest_no_slash (cwd out : list string) (member : ZipInfo) :
  Forall (fun c => no_slash c = true) out ->
  Forall (fun c => no_slash c = true) (member_dest cwd out member).
Proof.
  intros Ho. unfold member_dest, Path.resolve, Path.joinpath.
  destruct (PyStr.truthy (Path.root (Path.parse (filename member)))) eqn:E.
  - rewrite E. apply resolve_fold_no_slash; [apply parse_no_slash | constructor].
  - cbn [Path.root Path.parts Path.of_abs PyStr.truthy].
    apply resolve_fold_no_slash; [|constructor].
    apply Forall_app. split; [exact Ho | apply parse_no_slash].
Qed.

(** The loop of lines 59-62 stops at the first unsafe member, and writes
    nothing. *)
Lemma check_loop_run (cwd out : list string) (zf : list ZipInfo) (σ : fs) :
  for_each zf
    (fun member =>
       if unsafe_dest out (member_dest cwd out member) then
         raise (RuntimeError ("Unsafe path in zip: " +:+ filename member))
       else ret tt) σ =
    match List.find (fun m => unsafe_dest out (member_dest cwd out m)) zf with
    | Some m =>
        (Raise (RuntimeError ("Unsafe path in zip: " +:+ filename m)), σ)
    | None => (Ok tt, σ)
    end.
Proof.
  induction zf as [|m zf IH]; [reflexivity|]. cbn [for_each List.find].
  destruct (unsafe_dest out (member_dest cwd out m)).
  - reflexivity.
  - unfold bind, ret. exact IH.
Qed.

Lemma under_comparable (out q k : list string) :
  FS.under k (out ++ q) = true ->
  FS.under out k = true \/ FS.under k out = true.
Proof.
  revert k. induction out as [|a out IH]; intros k H; [left; reflexivity|].
  destruct k as [|b k]; [right; reflexivity|].
  unfold FS.under in *. simpl in *.
  destruct (String.eqb b a) eqn:E; [|discriminate H].
  apply String.eqb_eq in E. subst b. rewrite String.eqb_refl. apply IH, H.
Qed.

Lemma writes_within_refl (out : list string) (σ : fs) : writes_within out σ σ.
Proof. intros k. left. reflexivity. Qed.

Lemma writes_within_trans (out : list string) (σ σ1 σ2 : fs) :
  writes_within out σ σ1 -> writes_within out σ1 σ2 -> writes_within out σ σ2.
Proof.
  intros H1 H2 k.
  destruct (H2 k) as [E2|[U2|(N2 & S2 & U2)]]; [|right; left; exact U2|];
    destruct (H1 k) as [E1|[U1|(N1 & S1 & U1)]];
    try (right; left; assumption).
  - left. congruence.
  - right. right. rewrite E2. auto.
  - right. right. rewrite <- E1. auto.
  - congruence.
Qed.

Lemma only_creates_within (out q : list string) (σ σ1 : fs) :
  only_creates (out ++ q) σ σ1 -> writes_within out σ σ1.
Proof.
  intros H k. destruct (H k) as [E|(N & S & U)]; [left; exact E|].
  destruct (under_comparable _ _ _ U); [right; left | right; right]; auto.
Qed.

Lemma only_creates_parent (p : list string) (σ σ1 : fs) :
  only_creates (FS.parent p) σ σ1 -> only_creates p σ σ1.
Proof.
  intros H k. destruct (H k) as [E|(N & S & U)]; [left; exact E|].
  right. auto using under_parent.
Qed.

Lemma os_mkdir_spec (p : list string) (σ σ1 : fs) (r : result unit) :
  FS.os_mkdir p σ = (r, σ1) -> only_creates p σ σ1.
Proof.
  unfold FS.os_mkdir. intros H.
  destruct (σ !! p) eqn:Ep; [injection H as <- <-; apply only_creates_refl|].
  destruct (σ !! FS.parent p) as [[|]|]; injection H as <- <-;
    try apply only_creates_refl.
  intros k. destruct (decide (k = p)) as [->|Hne].
  - right. rewrite lookup_insert_eq, under_refl. auto.
  - left. apply lookup_insert_ne. congruence.
Qed.

Lemma makedirs_spec (fuel : nat) : forall (p : list string) (σ σ1 : fs)
    (r : result unit),
  FS.makedirs fuel p σ = (r, σ1) -> only_creates p σ σ1.
Proof.
  induction fuel as [|fuel IH]; intros p σ σ1 r H; [apply (os_mkdir_spec _ _ _ _ H)|].
  cbn [FS.makedirs] in H. unfold bind at 1, FS.exists_, gets in H.
  unfold bind at 1 in H.
  destruct (negb (bool_decide (p = []))
            && negb (match σ !! FS.parent p with Some _ => true | None => false end)).
  - unfold try_except_M in H.
    destruct (FS.makedirs fuel (FS.parent p) σ) as [[[]|e] σ'] eqn:Er.
    + pose proof (IH _ _ _ _ Er) as Hc. apply os_mkdir_spec in H.
      apply (only_creates_trans (FS.parent p) p σ σ' σ1);
        [intros k; apply under_parent | exact Hc | exact H].
    + pose proof (IH _ _ _ _ Er) as Hc. apply only_creates_parent in Hc.
      destruct (FS.is_FileExistsError e).
      * unfold ret in H. apply os_mkdir_spec in H.
        apply (only_creates_trans p p σ σ' σ1); auto.
      * injection H as <- <-. exact Hc.
  - unfold ret in H. apply (os_mkdir_spec _ _ _ _ H).
Qed.

Lemma write_bytes_spec (p : list string) (data : string) (σ σ1 : fs)
    (r : result unit) :
  FS.write_bytes p data σ = (r, σ1) -> forall k, k <> p -> σ1 !! k = σ !! k.
Proof.
  unfold FS.write_bytes. intros H k Hk.
  repeat case_match; simplify_eq; try reflexivity;
    apply lookup_insert_ne; congruence.
Qed.

Lemma extract_member_within (out : list string) (member : ZipInfo)
    (σ σ1 : fs) (r : result unit) :
  extract_member out member σ = (r, σ1) -> writes_within out σ σ1.
Proof.
  unfold extract_member.
  set (target := out ++ List.filter valid_part (PyStr.split "/" (filename member))).
  intros H. unfold bind at 1, FS.exists_, gets in H. unfold bind at 1 in H.
  assert (Hup : forall σa σb (ra : result unit),
    (if negb (match σ !! FS.parent target with Some _ => true | None => false end)
     then FS.makedirs (length (FS.parent target)) (FS.parent target)
     else ret tt) σa = (ra, σb) -> writes_within out σa σb).
  { intros σa σb ra Hm. destruct (negb _).
    - apply makedirs_spec, only_creates_parent in Hm.
      apply (only_creates_within _ _ _ _ Hm).
    - injection Hm as <- <-. apply writes_within_refl. }
  destruct ((if negb (match σ !! FS.parent target with
                      | Some _ => true | None => false end)
             then FS.makedirs (length (FS.parent target)) (FS.parent target)
             else ret tt) σ) as [[[]|e] σ'] eqn:Em.
  2:{ injection H as <- <-. apply (Hup _ _ _ Em). }
  apply (writes_within_trans out σ σ' σ1); [apply (Hup _ _ _ Em)|].
  destruct (zip_is_dir member).
  - unfold bind, FS.is_dir, gets in H.
    match type of H with (if ?b then _ else _) _ = _ => destruct b end.
    + apply os_mkdir_spec in H. apply (only_creates_within _ _ _ _ H).
    + injection H as <- <-. apply writes_within_refl.
  - intros k. destruct (decide (k = target)) as [->|Hk].
    + right. left. apply under_app.
    + left. apply (write_bytes_spec _ _ _ _ _ H k Hk).
Qed.

Lemma extractall_within (out : list string) (zf : list ZipInfo) :
  forall (σ σ1 : fs) (r : result unit),
  extractall zf out σ = (r, σ1) -> writes_within out σ σ1.
Proof.
  unfold extractall. induction zf as [|m zf IH]; intros σ σ1 r H.
  - injection H as <- <-. apply writes_within_refl.
  - cbn [for_each] in H. unfold bind in H.
    destruct (extract_member out m σ) as [[[]|e] σ'] eqn:Em.
    + apply (writes_within_trans out σ σ' σ1);
        [apply (extract_member_within _ _ _ _ _ Em) | apply (IH _ _ _ H)].
    + injection H as <- <-. apply (extract_member_within _ _ _ _ _ Em).
Qed.

Lemma safe_extractall_run (cwd : list string) (zf : list ZipInfo)
    (out_dir : Path.t) (σ : fs) :
  let out := Path.resolve cwd out_dir in
  _safe_extractall cwd zf out_dir σ =
    match List.find (fun m => unsafe_dest out (member_dest cwd out m)) zf with
    | Some m =>
        (Raise (RuntimeError ("Unsafe path in zip: " +:+ filename m)), σ)
    | None => extractall zf out σ
    end.
Proof.
  intros out. unfold _safe_extractall. fold out. unfold bind at 1.
  rewrite check_loop_run.
  destruct (List.find _ zf); reflexivity.
Qed.

(** C1 as stated fails: an archive whose only entry is "./" is unpacked
    without an error, and that entry resolves to the target directory
    itself, which is not strictly inside it. *)
Lemma safe_extractall_claim_counterexample :
  ~ (forall (cwd : list string) (zf : list ZipInfo) (out_dir : Path.t)
            (σ σ' : fs),
       _safe_extractall cwd zf out_dir σ = (Ok tt, σ') ->
       forall m, m ∈ zf ->
         strictly_inside (Path.resolve cwd out_dir)
           (member_dest cwd (Path.resolve cwd out_dir) m)).
Proof.
  intros H.
  specialize (H [] [mkZipInfo "./" ""] (Path.parse "/t")
                (list_to_map [([], Dir); (["t"], Dir)])
                (list_to_map [([], Dir); (["t"], Dir)])).
  destruct (H ltac:(vm_compute; reflexivity) (mkZipInfo "./" "")
              ltac:(left)) as [_ Hne].
  apply Hne. vm_compute. reflexivity.
Qed.

(** C1 (amended). When the components of the resolved target directory
    hold no separator: if an entry of the archive resolves to a path that
    is neither the target directory nor below it, the unpacking raises the
    [RuntimeError] "Unsafe path in zip: ..." for an entry that fails the
    test, and the file system is left as it was; if the unpacking returns,
    every entry resolves to the target directory or below it; and whatever
    the outcome, the paths that changed are at or below the target
    directory, or are ancestors of it that were missing and are now
    directories. *)
Theorem safe_extractall_spec (cwd : list string) (zf : list ZipInfo)
    (out_dir : Path.t) (σ : fs) :
  let out := Path.resolve cwd out_dir in
  Forall (fun c => no_slash c = true) out ->
  (forall m, m ∈ zf -> FS.under out (member_dest cwd out m) = false ->
     exists m', m' ∈ zf
       /\ unsafe_dest out (member_dest cwd out m') = true
       /\ _safe_extractall cwd zf out_dir σ =
            (Raise (RuntimeError ("Unsafe path in zip: " +:+ filename m')), σ))
  /\ (forall σ', _safe_extractall cwd zf out_dir σ = (Ok tt, σ') ->
        forall m, m ∈ zf -> FS.under out (member_dest cwd out m) = true)
  /\ (forall r σ', _safe_extractall cwd zf out_dir σ = (r, σ') ->
        writes_within out σ σ').
Proof.
  intros out Hout. pose proof (safe_extractall_run cwd zf out_dir σ) as Hrun.
  fold out in Hrun. cbv zeta in Hrun.
  assert (Hsafe : forall m, unsafe_dest out (member_dest cwd out m) = false ->
                            FS.under out (member_dest cwd out m) = true).
  { intros m. apply unsafe_dest_outside; [exact Hout|].
    apply member_dest_no_slash, Hout. }
  destruct (List.find (fun m => unsafe_dest out (member_dest cwd out m)) zf)
    as [m'|] eqn:Ef.
  - apply find_some in Ef as [Hin Hun]. apply list_elem_of_In in Hin.
    split; [|split].
    + intros _ _ _. exists m'. auto.
    + intros σ' H. rewrite Hrun in H. discriminate H.
    + intros r σ' H. rewrite Hrun in H. injection H as <- <-.
      apply writes_within_refl.
  - pose proof (find_none _ _ Ef) as Hnone. split; [|split].
    + intros m Hm Hout'. exfalso.
      apply list_elem_of_In in Hm. specialize (Hnone m Hm). simpl in Hnone.
      rewrite (Hsafe m Hnone) in Hout'. discriminate.
    + intros σ' _ m Hm. apply Hsafe. apply list_elem_of_In in Hm.
      apply (Hnone m Hm).
    + intros r σ' H. rewrite Hrun in H. apply (extractall_within _ _ _ _ _ H).
Qed.

(** * The theorems at concrete inputs *)

Lemma resolve_self_hosted_endpoint_witness :
  resolve_self_hosted_endpoint (Some " http://host:8023// ")
    = "http://host:8023/file_parse"
  /\ resolve_self_hosted_endpoint (Some "http://host:8023/file_parse")
     = "http://host:8023/file_parse"
  /\ resolve_self_hosted_endpoint (Some "   ") = DEFAULT_SELF_HOSTED_ENDPOINT.
Proof.
  destruct (resolve_self_hosted_endpoint_spec (Some " http://host:8023// "))
    as (_ & _ & _ & H4 & H5).
  destruct (resolve_self_hosted_endpoint_spec (Some "   ")) as (_ & H2 & _).
  split; [|split].
  - exact (H4 ltac:(discriminate) eq_refl).
  - exact H5.
  - exact (H2 eq_refl).
Defined.


Lemma generate_clean_backgrounds_identity_witness :
  both_set None (Some "secret") = false
  /\ generate_clean_backgrounds
       (fun k => if String.eqb k "VOLCENGINE_SECRET_KEY" then Some "secret"
                 else None)
       (fun _ _ _ => Raise (RuntimeError "inpainting is not reached"))
       ["page_1.png"; "page_2.png"] "mineru_files/0123abcd"
     = Ok ["page_1.png"; "page_2.png"].
Proof.
  split; [reflexivity|].
  apply generate_clean_backgrounds_identity. reflexivity.
Defined.


Lemma extract_styles_first_match_witness :
  exists config,
    extract_styles env_sample "templates" default_content_template = Ok config
    /\ title_font config =
         {| name := "Metric"; fallback_name := "Arial"; bold := true;
            italic := false; color_rgb := Some (1, 169, 130) |}
    /\ body_font config =
         {| name := "Metric Light"; fallback_name := "Arial"; bold := false;
            italic := false; color_rgb := None |}.
Proof.
  destruct (extract_styles_first_match env_sample "templates"
              default_content_template (fun _ => Ok sample_inventory)
              sample_inventory eq_refl eq_refl eq_refl eq_refl)
    as (config & H1 & H2 & _ & H3 & _).
  exists config. split; [exact H1|]. split.
  - apply (H2 (Inventory.mkParagraph (Some "Metric") None (Some "01A982"))
             "Metric").
    exists [], (Inventory.mkShape (Some "TITLE")
                  [Inventory.mkParagraph (Some "Metric") None (Some "01A982")]),
      [Inventory.mkShape (Some "BODY")
         [Inventory.mkParagraph (Some "Metric Light") (Some false) None];
       Inventory.mkShape (Some "CENTER_TITLE")
         [Inventory.mkParagraph (Some "Other") (Some false) None]].
    split; [reflexivity|].
    split; [exists "TITLE"; split; [reflexivity | left]|].
    split; [split; [eexists; reflexivity | split; [reflexivity | discriminate]]|].
    intros s p n Hin. inversion Hin.
  - apply (H3 (Inventory.mkParagraph (Some "Metric Light") (Some false) None)
             "Metric Light").
    exists [Inventory.mkShape (Some "TITLE")
              [Inventory.mkParagraph (Some "Metric") None (Some "01A982")]],
      (Inventory.mkShape (Some "BODY")
         [Inventory.mkParagraph (Some "Metric Light") (Some false) None]),
      [Inventory.mkShape (Some "CENTER_TITLE")
         [Inventory.mkParagraph (Some "Other") (Some false) None]].
    split; [reflexivity|].
    split; [exists "BODY"; split; [reflexivity | left]|].
    split; [split; [eexists; reflexivity | split; [reflexivity | discriminate]]|].
    intros s p n Hin (t & Ht & Hty). apply list_elem_of_singleton in Hin.
    subst s. injection Ht as <-.
    repeat (apply elem_of_cons in Hty as [Hty|Hty]; [discriminate Hty|]).
    inversion Hty.
Defined.

Lemma safe_extractall_witness :
  exists m',
    _safe_extractall []
      [mkZipInfo "a/b.txt" "B"; mkZipInfo "../evil.txt" "E"]
      (Path.parse "/t") sample_fs
    = (Raise (RuntimeError ("Unsafe path in zip: " +:+ filename m')), sample_fs)
  /\ writes_within ["t"] sample_fs
       (snd (_safe_extractall [] [mkZipInfo "a/b.txt" "B"] (Path.parse "/t")
               sample_fs)).
Proof.
  assert (Hout : Forall (fun c => no_slash c = true)
                   (Path.resolve [] (Path.parse "/t")))
    by (repeat constructor).
  destruct (safe_extractall_spec []
              [mkZipInfo "a/b.txt" "B"; mkZipInfo "../evil.txt" "E"]
              (Path.parse "/t") sample_fs Hout) as (H1 & _).
  destruct (H1 (mkZipInfo "../evil.txt" "E") ltac:(right; left) eq_refl)
    as (m' & _ & _ & Hrun).
  destruct (safe_extractall_spec [] [mkZipInfo "a/b.txt" "B"]
              (Path.parse "/t") sample_fs Hout) as (_ & _ & H3).
  exists m'. split; [exact Hrun|].
  apply (H3 (fst (_safe_extractall [] [mkZipInfo "a/b.txt" "B"]
                    (Path.parse "/t") sample_fs))).
  apply surjective_pairing.
Defined.

Lemma ensure_layout_json_backfill_witness :
  _ensure_layout_json_from_middle_json map_order ["t"; "doc"] "doc" sample_fs
  = (Ok tt, <[["t"; "doc"; "layout.json"] := File "{}"]> sample_fs).
Proof.
  apply (proj1 (ensure_layout_json_backfill map_order ["t"; "doc"] "doc"
                  sample_fs ltac:(vm_compute; reflexivity)
                  ltac:(vm_compute; reflexivity)) "{}").
  vm_compute. reflexivity.
Defined.

Lemma sample_fs_entries (n : string) :
  is_Some (sample_fs !! (["t"] ++ [n])) -> n = "saved.zip" \/ n = "doc".
Proof.
  intros H. apply elem_of_children in H.
  replace (FS.children sample_fs ["t"]) with ["saved.zip"; "doc"] in H
    by (vm_compute; reflexivity).
  apply elem_of_cons in H as [->|H]; [left; reflexivity|].
  apply list_elem_of_singleton in H. right. exact H.
Qed.

Lemma sample_fs_candidate (n : string) :
  is_Some (sample_fs !! (["t"] ++ [n]))
  /\ flatten_candidate sample_fs (["t"] ++ [n]) = true
  <-> n = "doc".
Proof.
  split.
  - intros [Hn Hc]. destruct (sample_fs_entries n Hn) as [->| ->];
      [vm_compute in Hc; discriminate Hc | reflexivity].
  - intros ->. split; [eexists|]; vm_compute; reflexivity.
Qed.

Lemma sample_fs_free (n : string) :
  is_Some (sample_fs !! (["t"] ++ ["doc"; n])) ->
  sample_fs !! (["t"] ++ [n]) = None.
Proof.
  intros H. change (["t"] ++ ["doc"; n]) with (["t"; "doc"] ++ [n]) in H.
  apply elem_of_children in H.
  replace (FS.children sample_fs ["t"; "doc"]) with ["images"; "doc_middle.json"]
    in H by (vm_compute; reflexivity).
  apply elem_of_cons in H as [->|H]; [vm_compute; reflexivity|].
  apply list_elem_of_singleton in H. subst n. vm_compute. reflexivity.
Qed.

Lemma flatten_single_top_level_dir_witness :
  exists σ' : fs,
    _flatten_single_top_level_dir reverse_order ["t"] sample_fs = (Ok tt, σ')
    /\ σ' !! ["t"; "doc_middle.json"] = Some (File "{}")
    /\ σ' !! ["t"; "images"; "a.png"] = Some (File "PNG")
    /\ σ' !! ["t"; "doc"] = None
    /\ σ' !! ["t"; "saved.zip"] = Some (File "PK").
Proof.
  destruct (flatten_single_top_level_dir_spec reverse_order ["t"] sample_fs
              ltac:(vm_compute; reflexivity)) as [_ H].
  destruct (H "doc" sample_fs_candidate ltac:(vm_compute; reflexivity))
    as [_ Hok].
  destruct (Hok sample_fs_free) as (σ' & Hrun & Hup & _ & Hgone & Hrest).
  exists σ'. split; [exact Hrun|]. split; [|split; [|split]].
  - etransitivity;
      [exact (Hup "doc_middle.json" [] ltac:(eexists; vm_compute; reflexivity))|].
    vm_compute. reflexivity.
  - etransitivity;
      [exact (Hup "images" ["a.png"] ltac:(eexists; vm_compute; reflexivity))|].
    vm_compute. reflexivity.
  - exact Hgone.
  - etransitivity;
      [apply (Hrest ["t"; "saved.zip"] ltac:(vm_compute; reflexivity))|].
    + intros n q Hn Heq. injection Heq as <- <-.
      apply sample_fs_free in Hn. vm_compute in Hn. discriminate Hn.
    + vm_compute. reflexivity.
Defined.

Lemma extraction_call_failures_witness :
  fst (parse_pdf_via_self_hosted_mineru
         (sample_client (mkResponse 500 "Internal Server Error" "") false)
         (Path.parse "/doc.pdf") "http://host:8023" (Path.parse "/up")
         "./output" 300 None sample_fs)
  = Raise (RuntimeError
             "Self-hosted MinerU error HTTP 500: Internal Server Error")
  /\ fst (parse_pdf_via_self_hosted_mineru
            (sample_client (mkResponse 200 "<html>" "<html>") false)
            (Path.parse "/doc.pdf") "http://host:8023" (Path.parse "/up")
            "./output" 300 None sample_fs)
     = Raise (RuntimeError
                ("Self-hosted MinerU returned non-zip payload. Saved to "
                 +:+ "/up/mineru_files/0123abcd/doc-mineru-20260101-120000.zip"
                 +:+ ". Snippet:" +:+ String "010" "<html>"))
  /\ snd (parse_pdf_via_self_hosted_mineru
            (sample_client (mkResponse 200 "<html>" "<html>") false)
            (Path.parse "/doc.pdf") "http://host:8023" (Path.parse "/up")
            "./output" 300 None sample_fs)
     !! (sample_extract_dir ++ ["doc-mineru-20260101-120000.zip"])
     = Some (File "<html>")
  /\ fst (parse_pdf_via_self_hosted_mineru sample_bad_zip_client
            (Path.parse "/doc.pdf") "http://host:8023" (Path.parse "/up")
            "./output" 300 None sample_fs)
     = Raise (BadZipFile "Truncated central directory")
  /\ snd (parse_pdf_via_self_hosted_mineru sample_bad_zip_client
            (Path.parse "/doc.pdf") "http://host:8023" (Path.parse "/up")
            "./output" 300 None sample_fs)
     !! (sample_extract_dir ++ ["doc-mineru-20260101-120000.zip"])
     = Some (File html_with_end_record)
  /\ fst (parse_pdf_via_self_hosted_mineru long_stem_client
            (Path.parse ("/" +:+ long_stem +:+ ".pdf")) "http://host:8023"
            (Path.parse "/up") "./output" 300 None long_stem_fs)
     = Raise (OSError
                ("[Errno 36] File name too long: '/up/mineru_files/0123abcd/"
                 +:+ long_stem +:+ "-mineru-20260101-120000.zip'")).
Proof.
  split; [|split; [|split; [|split; [|split]]]].
  - pose proof (extraction_call_failures
                  (sample_client (mkResponse 500 "Internal Server Error" "") false)
                  (Path.parse "/doc.pdf") "http://host:8023" (Path.parse "/up")
                  "./output" 300 None sample_fs "%PDF-1.7"
                  (mkResponse 500 "Internal Server Error" "")) as H.
    cbv zeta in H. discharge H. discharge H. discharge H. discharge H.
    destruct H as (H1 & _).
    destruct (H1 ltac:(cbn; lia)) as [Hshort _].
    specialize (Hshort ltac:(cbn; lia)).
    exact (eq_trans (f_equal fst Hshort) ltac:(vm_compute; reflexivity)).
  - pose proof (extraction_call_failures
                  (sample_client (mkResponse 200 "<html>" "<html>") false)
                  (Path.parse "/doc.pdf") "http://host:8023" (Path.parse "/up")
                  "./output" 300 None sample_fs "%PDF-1.7"
                  (mkResponse 200 "<html>" "<html>")) as H.
    cbv zeta in H. discharge H. discharge H. discharge H. discharge H.
    destruct H as (_ & _ & H2).
    destruct (H2 ltac:(cbn; lia) ltac:(vm_compute; reflexivity)
                ltac:(vm_compute; discriminate))
      as (Hno & _ & _).
    exact (eq_trans (f_equal fst (Hno eq_refl)) ltac:(vm_compute; reflexivity)).
  - pose proof (extraction_call_failures
                  (sample_client (mkResponse 200 "<html>" "<html>") false)
                  (Path.parse "/doc.pdf") "http://host:8023" (Path.parse "/up")
                  "./output" 300 None sample_fs "%PDF-1.7"
                  (mkResponse 200 "<html>" "<html>")) as H.
    cbv zeta in H. discharge H. discharge H. discharge H. discharge H.
    destruct H as (_ & _ & H2).
    destruct (H2 ltac:(cbn; lia) ltac:(vm_compute; reflexivity)
                ltac:(vm_compute; discriminate))
      as (Hno & _ & Hsaved).
    exact (eq_trans
             (f_equal (fun x => snd x !! (sample_extract_dir
                                          ++ ["doc-mineru-20260101-120000.zip"]))
                (Hno eq_refl))
             Hsaved).
  - pose proof (extraction_call_failures sample_bad_zip_client
                  (Path.parse "/doc.pdf") "http://host:8023" (Path.parse "/up")
                  "./output" 300 None sample_fs "%PDF-1.7"
                  (mkResponse 200 "" html_with_end_record)) as H.
    cbv zeta in H. discharge H. discharge H. discharge H. discharge H.
    destruct H as (_ & _ & H2).
    destruct (H2 ltac:(cbn; lia) ltac:(vm_compute; reflexivity)
                ltac:(vm_compute; discriminate))
      as (_ & Hbad & _).
    exact (f_equal fst (Hbad eq_refl _ eq_refl)).
  - pose proof (extraction_call_failures sample_bad_zip_client
                  (Path.parse "/doc.pdf") "http://host:8023" (Path.parse "/up")
                  "./output" 300 None sample_fs "%PDF-1.7"
                  (mkResponse 200 "" html_with_end_record)) as H.
    cbv zeta in H. discharge H. discharge H. discharge H. discharge H.
    destruct H as (_ & _ & H2).
    destruct (H2 ltac:(cbn; lia) ltac:(vm_compute; reflexivity)
                ltac:(vm_compute; discriminate))
      as (_ & Hbad & Hsaved).
    exact (eq_trans
             (f_equal (fun x => snd x !! (sample_extract_dir
                                          ++ ["doc-mineru-20260101-120000.zip"]))
                (Hbad eq_refl _ eq_refl))
             Hsaved).
  - pose proof (extraction_call_failures long_stem_client
                  (Path.parse ("/" +:+ long_stem +:+ ".pdf")) "http://host:8023"
                  (Path.parse "/up") "./output" 300 None long_stem_fs
                  "%PDF-1.7" (mkResponse 200 "<html>" "<html>")) as H.
    cbv zeta in H. discharge H. discharge H. discharge H. discharge H.
    destruct H as (_ & Hrefused & _).
    specialize (Hrefused ltac:(cbn; lia)).
    assert (He : path_error long_stem_client
                   (snd (path_mkdir_parents_exist_ok long_stem_client
                           (length (call_extract_dir long_stem_client
                                      (Path.parse "/up")))
                           (call_extract_dir long_stem_client (Path.parse "/up"))
                           long_stem_fs))
                   (call_zip_path long_stem_client
                      (Path.parse ("/" +:+ long_stem +:+ ".pdf"))
                      (Path.parse "/up"))
                 = Some (OSError
                           ("[Errno 36] File name too long: "
                            +:+ "'/up/mineru_files/0123abcd/"
                            +:+ long_stem +:+ "-mineru-20260101-120000.zip'")))
      by (vm_compute; reflexivity).
    exact (eq_trans (f_equal fst (Hrefused _ He))
             ltac:(vm_compute; reflexivity)).
Defined.

(** * [is_self_hosted_mineru] *)

Lemma startswith_nil (s : string) : PyStr.startswith s "" = true.
Proof. destruct s; reflexivity. Qed.

Lemma startswith_iff (s sub : string) :
  PyStr.startswith s sub = true <-> exists post, s = sub +:+ post.
Proof.
  revert s. induction sub as [|a sub IH]; intros s.
  - rewrite startswith_nil. split; [intros _; exists s; reflexivity | reflexivity].
  - destruct s as [|c s]; simpl.
    + split; [discriminate | intros [post H]; discriminate H].
    + rewrite andb_true_iff, IH. split.
      * intros [E [post ->]]. apply Ascii.eqb_eq in E. subst c.
        exists post. reflexivity.
      * intros [post H].
        change (String a sub +:+ post) with (String a (sub +:+ post)) in H.
        injection H as -> ->. split; [apply Ascii.eqb_refl | eauto].
Qed.

Lemma str_in_iff (sub s : string) :
  str_in sub s = true <-> exists pre post, s = pre +:+ sub +:+ post.
Proof.
  induction s as [|c s IH].
  - cbn [str_in]. destruct (PyStr.startswith "" sub) eqn:E.
    + split; [intros _|reflexivity]. apply startswith_iff in E as [post E].
      exists "", post. exact E.
    + split; [discriminate|]. intros (pre & post & H).
      destruct pre as [|? ?]; [|discriminate H].
      assert (PyStr.startswith "" sub = true)
        by (apply startswith_iff; exists post; exact H).
      congruence.
  - cbn [str_in]. destruct (PyStr.startswith (String c s) sub) eqn:E.
    + split; [intros _|reflexivity]. apply startswith_iff in E as [post E].
      exists "", post. exact E.
    + rewrite IH. split.
      * intros (pre & post & ->). exists (String c pre), post. reflexivity.
      * intros (pre & post & H). destruct pre as [|c' pre].
        -- assert (PyStr.startswith (String c s) sub = true)
             by (apply startswith_iff; exists post; exact H).
           congruence.
        -- change (String c' pre +:+ sub +:+ post)
             with (String c' (pre +:+ sub +:+ post)) in H.
           injection H as -> ->. eauto.
Qed.

(** X1. *)
Theorem is_self_hosted_mineru_spec (mineru_api_base : option string) :
  is_self_hosted_mineru mineru_api_base = true <->
  exists s pre post,
    mineru_api_base = Some s /\ lower s = pre +:+ "hpecorp" +:+ post.
Proof.
  unfold is_self_hosted_mineru. rewrite str_in_iff. split.
  - intros (pre & post & H). destruct mineru_api_base as [s|].
    + exists s, pre, post. auto.
    + destruct pre; discriminate H.
  - intros (s & pre & post & -> & H). exists pre, post. exact H.
Qed.

Lemma is_self_hosted_mineru_spec_witness :
  is_self_hosted_mineru (Some "http://AI23.Labs.HPECorp.net:8023") = true
  /\ is_self_hosted_mineru (Some "https://mineru.net") = false
  /\ is_self_hosted_mineru None = false.
Proof.
  split; [|split; reflexivity].
  apply (is_self_hosted_mineru_spec (Some "http://AI23.Labs.HPECorp.net:8023")).
  exists "http://AI23.Labs.HPECorp.net:8023", "http://ai23.labs.", ".net:8023".
  split; reflexivity.
Defined.

Lemma lower_app (a b : string) : lower (a +:+ b) = lower a +:+ lower b.
Proof.
  induction a as [|c a IH]; [reflexivity|].
  change (String c a +:+ b) with (String c (a +:+ b)). cbn [lower].
  rewrite IH. reflexivity.
Qed.

Lemma startswith_str_in (sub s : string) :
  PyStr.startswith s sub = true -> str_in sub s = true.
Proof. intros H. destruct s; cbn [str_in]; rewrite H; reflexivity. Qed.

Lemma str_in_cons (sub : string) (c : ascii) (s : string) :
  str_in sub s = true -> str_in sub (String c s) = true.
Proof.
  intros H. cbn [str_in]. rewrite H. destruct (PyStr.startswith _ _); reflexivity.
Qed.

Lemma str_in_app_l (sub a b : string) :
  str_in sub a = true -> str_in sub (a +:+ b) = true.
Proof.
  rewrite !str_in_iff. intros (pre & post & ->). exists pre, (post +:+ b).
  rewrite !append_assoc. reflexivity.
Qed.

Lemma is_space_lower (c : ascii) :
  PyStr.is_space (lower_char c) = PyStr.is_space c.
Proof. destruct c as [[] [] [] [] [] [] [] []]; reflexivity. Qed.

Lemma is_slash_lower (c : ascii) :
  PyStr.is_slash (lower_char c) = PyStr.is_slash c.
Proof. destruct c as [[] [] [] [] [] [] [] []]; reflexivity. Qed.

Section strip_keeps.
Variable p : ascii -> bool.
Hypothesis Hp : forall c, p (lower_char c) = p c.

Lemma startswith_lower_rstrip (s : string) : forall sub : string,
  Forall (fun a => p a = false) (list_ascii_of_string sub) ->
  PyStr.startswith (lower s) sub = true ->
  PyStr.startswith (lower (PyStr.rstrip p s)) sub = true.
Proof.
  induction s as [|c s IH]; intros sub Hsub H; [exact H|].
  destruct sub as [|a sub]; [apply startswith_nil|].
  cbn [lower PyStr.startswith] in H. apply andb_true_iff in H as [E H].
  apply Ascii.eqb_eq in E. subst a.
  cbn [list_ascii_of_string] in Hsub. inversion Hsub as [|? ? Hc Hrest]; subst.
  rewrite Hp in Hc. specialize (IH sub Hrest H).
  cbn [PyStr.rstrip]. destruct (PyStr.rstrip p s) as [|c' r].
  - rewrite Hc. cbn [lower PyStr.startswith]. rewrite Ascii.eqb_refl. exact IH.
  - cbn [lower PyStr.startswith] in *. rewrite Ascii.eqb_refl. exact IH.
Qed.

Lemma str_in_lower_rstrip (sub s : string) :
  sub <> "" ->
  Forall (fun a => p a = false) (list_ascii_of_string sub) ->
  str_in sub (lower s) = true ->
  str_in sub (lower (PyStr.rstrip p s)) = true.
Proof.
  intros Hne Hsub. induction s as [|c s IH]; intros H; [exact H|].
  cbn [lower str_in] in H.
  destruct (PyStr.startswith (String (lower_char c) (lower s)) sub) eqn:E.
  - apply startswith_str_in.
    apply (startswith_lower_rstrip (String c s) sub Hsub). exact E.
  - specialize (IH H). cbn [PyStr.rstrip].
    destruct (PyStr.rstrip p s) as [|c' r].
    + exfalso. cbn [lower str_in] in IH. destruct sub; [congruence|discriminate IH].
    + cbn [lower]. apply str_in_cons. exact IH.
Qed.

Lemma str_in_lower_lstrip (sub s : string) :
  sub <> "" ->
  Forall (fun a => p a = false) (list_ascii_of_string sub) ->
  str_in sub (lower s) = true ->
  str_in sub (lower (PyStr.lstrip p s)) = true.
Proof.
  intros Hne Hsub. induction s as [|c s IH]; intros H; [exact H|].
  cbn [PyStr.lstrip]. destruct (p c) eqn:Ec; [|exact H].
  apply IH. cbn [lower str_in] in H.
  destruct (PyStr.startswith (String (lower_char c) (lower s)) sub) eqn:E;
    [|exact H].
  exfalso. destruct sub as [|a sub]; [congruence|].
  cbn [PyStr.startswith] in E. apply andb_true_iff in E as [E _].
  apply Ascii.eqb_eq in E. subst a.
  inversion Hsub as [|? ? Hc _]; subst. rewrite Hp in Hc. congruence.
Qed.
End strip_keeps.

(** X2. *)
Theorem resolved_endpoint_self_hosted (mineru_api_base : option string) :
  is_self_hosted_mineru mineru_api_base = true
  \/ PyStr.strip (or_empty mineru_api_base) = "" ->
  is_self_hosted_mineru
    (Some (resolve_self_hosted_endpoint mineru_api_base)) = true.
Proof.
  intros H. unfold resolve_self_hosted_endpoint.
  destruct (PyStr.truthy (PyStr.strip (or_empty mineru_api_base))) eqn:Et.
  - destruct H as [H|H]; [|rewrite H in Et; discriminate Et].
    assert (Hin : str_in "hpecorp"
                    (lower (PyStr.strip (or_empty mineru_api_base))) = true).
    { unfold PyStr.strip.
      apply (str_in_lower_rstrip _ is_space_lower); [discriminate| |].
      { repeat constructor. }
      apply (str_in_lower_lstrip _ is_space_lower); [discriminate| |exact H].
      repeat constructor. }
    destruct (PyStr.endswith _ "/file_parse"); [exact Hin|].
    unfold is_self_hosted_mineru, or_empty. rewrite lower_app.
    apply str_in_app_l.
    apply (str_in_lower_rstrip _ is_slash_lower); [discriminate| |exact Hin].
    repeat constructor.
  - reflexivity.
Qed.

Lemma resolved_endpoint_self_hosted_witness :
  is_self_hosted_mineru
    (Some (resolve_self_hosted_endpoint (Some " http://AI23.labs.HPEcorp.net:8023/ ")))
    = true
  /\ resolve_self_hosted_endpoint (Some " http://AI23.labs.HPEcorp.net:8023/ ")
     = "http://AI23.labs.HPEcorp.net:8023/file_parse".
Proof.
  split; [|reflexivity].
  apply (resolved_endpoint_self_hosted
           (Some " http://AI23.labs.HPEcorp.net:8023/ ")).
  left. reflexivity.
Defined.

(** * [check_environment] *)

Lemma truthy_true_iff (s : string) : PyStr.truthy s = true <-> s <> "".
Proof. destruct s; split; try congruence; try discriminate; reflexivity. Qed.

(** X3. *)
Theorem check_environment_spec (getenv : string -> option string) :
  let token := or_empty (getenv "MINERU_TOKEN") in
  let keys := both_set (getenv "VOLCENGINE_ACCESS_KEY")
                (getenv "VOLCENGINE_SECRET_KEY") in
  let r := Recur.check_environment getenv in
  is_Ok r = PyStr.truthy token && keys
  /\ (token = "" ->
      r = Raise (ValueError "MINERU_TOKEN not configured in .env file"))
  /\ (token <> "" -> keys = false ->
      r = Raise (ValueError "VOLCENGINE credentials not configured in .env file"))
  /\ (forall cfg, r = Ok cfg ->
        Recur.mineru_token cfg <> ""
        /\ getenv "MINERU_TOKEN" = Some (Recur.mineru_token cfg)
        /\ (getenv "MINERU_API_BASE" = None ->
            Recur.mineru_api_base cfg = "https://mineru.net")
        /\ (forall v, getenv "MINERU_API_BASE" = Some v ->
              Recur.mineru_api_base cfg = v)
        /\ (Recur.baidu_ocr_enabled cfg = true <->
            or_empty (getenv "BAIDU_OCR_API_KEY") <> "")).
Proof.
  intros token keys r. subst token keys r.
  unfold Recur.check_environment, both_set, getenv_default.
  destruct (getenv "MINERU_TOKEN") as [[|c t]|]; cbn [or_empty PyStr.truthy negb andb].
  1,3: (split; [reflexivity|]; split; [reflexivity|];
        split; [congruence|]; discriminate).
  destruct (PyStr.truthy (or_empty (getenv "VOLCENGINE_ACCESS_KEY")));
    destruct (PyStr.truthy (or_empty (getenv "VOLCENGINE_SECRET_KEY")));
    cbn [negb orb andb];
    (split; [reflexivity|]); (split; [discriminate|]);
    (split; [first [reflexivity | discriminate]|]); try discriminate.
  intros cfg [= <-]. cbn.
  split; [discriminate|]. split; [reflexivity|].
  split; [intros ->; reflexivity|]. split; [intros v ->; reflexivity|].
  apply truthy_true_iff.
Qed.

Lemma check_environment_spec_witness :
  Recur.check_environment
    (fun k => if String.eqb k "MINERU_TOKEN" then Some "" else Some "set")
  = Raise (ValueError "MINERU_TOKEN not configured in .env file")
  /\ Recur.check_environment
       (fun k => if String.eqb k "VOLCENGINE_SECRET_KEY" then None
                 else Some "set")
     = Raise (ValueError "VOLCENGINE credentials not configured in .env file").
Proof.
  split.
  - apply (check_environment_spec
             (fun k => if String.eqb k "MINERU_TOKEN" then Some "" else Some "set")).
    reflexivity.
  - apply (check_environment_spec
             (fun k => if String.eqb k "VOLCENGINE_SECRET_KEY" then None
                       else Some "set")); [discriminate | reflexivity].
Defined.

(** * [parse_pdf_via_self_hosted_mineru]: what a returned pair tells *)

Lemma parse_pdf_via_ok
    (env : client_env) (pdf_path : Path.t) (mineru_api_base : string)
    (upload_folder : Path.t) (output_dir_field : string) (timeout_s : Z)
    (form_overrides : option (gmap string string)) (σ σ' : fs)
    (extract_id : string) (extract_dir : list string) :
  parse_pdf_via_self_hosted_mineru env pdf_path mineru_api_base upload_folder
    output_dir_field timeout_s form_overrides σ
    = (Ok (extract_id, extract_dir), σ') ->
  extract_id = PyStr.take 8 (uuid4_hex env)
  /\ extract_dir = call_extract_dir env upload_folder
  /\ σ' !! extract_dir = Some Dir
  /\ exists n, is_Some (σ' !! (extract_dir ++ [n]))
               /\ PyStr.endswith n "_content_list.json" = true.
Proof.
  unfold parse_pdf_via_self_hosted_mineru. unfold bind at 1.
  destruct (fetch_and_unpack env pdf_path mineru_api_base upload_folder
              output_dir_field timeout_s form_overrides σ)
    as [[[id0 dir0]|e] σ1] eqn:Ef; [|discriminate].
  cbn [fst snd]. unfold check_content_list, bind, FS.glob_suffix, gets.
  destruct (FS.glob_names (listing env) σ1 dir0 "_content_list.json")
    as [|n l] eqn:Eg; cbn [map]; [discriminate|].
  unfold ret. intros [= <- <- <-].
  destruct (fetch_and_unpack_result _ _ _ _ _ _ _ _ _ _ _ Ef) as [Hid Hdir].
  split; [exact Hid|]. split; [subst id0; exact Hdir|].
  assert (Hd : σ1 !! dir0 = Some Dir).
  { unfold FS.glob_names in Eg. destruct (σ1 !! dir0) as [[|]|];
      first [discriminate Eg | reflexivity]. }
  split; [exact Hd|]. exists n.
  apply (elem_of_glob_names (listing env) σ1 dir0 "_content_list.json" n Hd).
  rewrite Eg. left.
Qed.

(** X4. When [parse_pdf_via_self_hosted_mineru] returns a pair, the
    identifier is the first eight characters of the UUID, the directory is
    [<upload_folder>/mineru_files/<identifier>] under the resolved upload
    folder, and in the file system the call leaves behind that directory
    exists and holds an entry named [*_content_list.json]. *)
Theorem parse_pdf_via_self_hosted_mineru_success
    (env : client_env) (pdf_path : Path.t) (mineru_api_base : string)
    (upload_folder : Path.t) (output_dir_field : string) (timeout_s : Z)
    (form_overrides : option (gmap string string)) (σ : fs)
    (extract_id : string) (extract_dir : list string) :
  let run := parse_pdf_via_self_hosted_mineru env pdf_path mineru_api_base
               upload_folder output_dir_field timeout_s form_overrides σ in
  fst run = Ok (extract_id, extract_dir) ->
  extract_id = PyStr.take 8 (uuid4_hex env)
  /\ extract_dir =
       Path.resolve (cwd env) (expanduser env upload_folder)
       ++ ["mineru_files"; extract_id]
  /\ snd run !! extract_dir = Some Dir
  /\ exists n, is_Some (snd run !! (extract_dir ++ [n]))
               /\ PyStr.endswith n "_content_list.json" = true.
Proof.
  intros run H.
  destruct (parse_pdf_via_ok env pdf_path mineru_api_base upload_folder
              output_dir_field timeout_s form_overrides σ (snd run)
              extract_id extract_dir) as (Hid & Hdir & Hd & Hn).
  { rewrite <- H. apply surjective_pairing. }
  split; [exact Hid|]. split; [|split; [exact Hd | exact Hn]].
  rewrite Hdir, Hid. reflexivity.
Qed.

Lemma parse_pdf_via_self_hosted_mineru_success_witness :
  snd (parse_pdf_via_self_hosted_mineru sample_archive_client
         (Path.parse "/doc.pdf") "http://host:8023" (Path.parse "/up")
         "./output" 300 None sample_fs) !! sample_extract_dir = Some Dir.
Proof.
  pose proof (parse_pdf_via_self_hosted_mineru_success sample_archive_client
                (Path.parse "/doc.pdf") "http://host:8023" (Path.parse "/up")
                "./output" 300 None sample_fs "0123abcd" sample_extract_dir) as H.
  cbv zeta in H. discharge H. destruct H as (_ & _ & H & _). exact H.
Defined.



(** * [parse_pdf_with_mineru] *)

Lemma self_hosted_base (getenv : string -> option string) :
  is_self_hosted_mineru
    (Some (getenv_default getenv "MINERU_API_BASE" "https://mineru.net"))
  = is_self_hosted_mineru (getenv "MINERU_API_BASE").
Proof. unfold getenv_default. destruct (getenv "MINERU_API_BASE"); reflexivity. Qed.

Lemma take_nonempty (n : nat) (s : string) :
  s <> "" -> PyStr.take (S n) s <> "".
Proof. destruct s; [congruence | discriminate]. Qed.

(** X6. When MINERU_API_BASE is a self-hosted address,
    [parse_pdf_with_mineru] does not use the cloud flow: its outcome is the
    same whatever MINERU_TOKEN, the cloud parser and the file name are, and
    the identifier it returns is the first eight characters of the
    client's UUID. *)
Theorem parse_pdf_with_mineru_self_hosted
    (env env' : script_env) (pdf_path filename filename' : string) (σ : fs) :
  is_self_hosted_mineru (os_getenv env "MINERU_API_BASE") = true ->
  os_getenv env' "MINERU_API_BASE" = os_getenv env "MINERU_API_BASE" ->
  os_getenv env' "UPLOAD_FOLDER" = os_getenv env "UPLOAD_FOLDER" ->
  script_file env' = script_file env ->
  client env' = client env ->
  parse_pdf_with_mineru env' pdf_path filename' σ
  = parse_pdf_with_mineru env pdf_path filename σ
  /\ forall extract_id,
       fst (parse_pdf_with_mineru env pdf_path filename σ) = Ok extract_id ->
       extract_id = PyStr.take 8 (uuid4_hex (client env)).
Proof.
  intros Hs Hb Hu Hf Hc. split.
  - unfold parse_pdf_with_mineru. rewrite !self_hosted_base, Hb, Hs.
    unfold getenv_default. rewrite Hb, Hu, Hf, Hc. reflexivity.
  - intros extract_id. unfold parse_pdf_with_mineru.
    rewrite self_hosted_base, Hs. unfold bind.
    match goal with
    | |- fst (match ?m with _ => _ end) = _ -> _ =>
        destruct m as [[[id0 dir0]|e] σ1] eqn:Em
    end; cbn; [|discriminate].
    intros [= <-].
    apply (parse_pdf_via_ok _ _ _ _ _ _ _ _ _ _ _ Em).
Qed.

Lemma parse_pdf_with_mineru_self_hosted_witness :
  fst (parse_pdf_with_mineru
         (sample_script [("MINERU_API_BASE", "http://ai23.labs.HPECORP.net:8023");
                         ("UPLOAD_FOLDER", "/up")]
            sample_archive_client
            (mkParseFileResult None None None (Some "not reached") 0))
         "/doc.pdf" "doc.pdf" sample_fs)
  = fst (parse_pdf_with_mineru
           (sample_script [("MINERU_API_BASE", "http://ai23.labs.HPECORP.net:8023");
                           ("UPLOAD_FOLDER", "/up");
                           ("MINERU_TOKEN", "secret")]
              sample_archive_client
              (mkParseFileResult None None (Some "cloud-id") None 0))
           "/doc.pdf" "slides.pdf" sample_fs).
Proof.
  apply (f_equal fst).
  apply (parse_pdf_with_mineru_self_hosted
           (sample_script [("MINERU_API_BASE", "http://ai23.labs.HPECORP.net:8023");
                           ("UPLOAD_FOLDER", "/up");
                           ("MINERU_TOKEN", "secret")]
              sample_archive_client
              (mkParseFileResult None None (Some "cloud-id") None 0))
           (sample_script [("MINERU_API_BASE", "http://ai23.labs.HPECORP.net:8023");
                           ("UPLOAD_FOLDER", "/up")]
              sample_archive_client
              (mkParseFileResult None None None (Some "not reached") 0))
           "/doc.pdf" "slides.pdf" "doc.pdf" sample_fs);
    vm_compute; reflexivity.
Defined.

(** X7. When MINERU_API_BASE is not a self-hosted address: without a
    token [parse_pdf_with_mineru] raises the [ValueError] "MINERU_TOKEN not
    configured ..." and leaves the file system as it was; an identifier is
    returned only if there is a token and the cloud parser answered without
    an error and with that identifier, which is then not empty; and an error
    reported by the parser raises the [ValueError] "MinerU parsing failed:
    <error>" even when the parser also gave an identifier. *)
Theorem parse_pdf_with_mineru_cloud
    (env : script_env) (pdf_path filename : string) (σ : fs) :
  let token := or_empty (os_getenv env "MINERU_TOKEN") in
  let base :=
    getenv_default (os_getenv env) "MINERU_API_BASE" "https://mineru.net" in
  let run := parse_pdf_with_mineru env pdf_path filename σ in
  is_self_hosted_mineru (os_getenv env "MINERU_API_BASE") = false ->
  (token = "" ->
   run = (Raise (ValueError
                   "MINERU_TOKEN not configured in .env file (required for mineru.net)"),
          σ))
  /\ (forall extract_id, fst run = Ok extract_id ->
        extract_id <> "" /\ token <> ""
        /\ exists parsed,
             fst (parse_file env token base pdf_path filename σ) = Ok parsed
             /\ or_empty (parse_error parsed) = ""
             /\ parsed_extract_id parsed = Some extract_id)
  /\ (forall parsed, token <> "" ->
        fst (parse_file env token base pdf_path filename σ) = Ok parsed ->
        or_empty (parse_error parsed) <> "" ->
        fst run = Raise (ValueError
                           ("MinerU parsing failed: "
                            +:+ or_empty (parse_error parsed)))).
Proof.
  intros token base run Hs. subst run. unfold parse_pdf_with_mineru.
  rewrite self_hosted_base, Hs. fold token. fold base.
  destruct token as [|c t] eqn:Et; cbn [PyStr.truthy negb].
  { split; [reflexivity|]. split; [discriminate | congruence]. }
  split; [discriminate|]. unfold bind.
  destruct (parse_file env (String c t) base pdf_path filename σ)
    as [[parsed|e] σ1]; cbn [fst].
  2:{ split; [discriminate | intros parsed _ H; discriminate H]. }
  destruct (or_empty (parse_error parsed)) as [|c1 t1] eqn:Ee;
    cbn [PyStr.truthy negb].
  - split; [|intros parsed' _ [= <-]; congruence].
    intros extract_id.
    destruct (parsed_extract_id parsed) as [[|c2 t2]|] eqn:Ei;
      cbn [or_empty PyStr.truthy negb]; try discriminate.
    intros [= <-]. split; [discriminate|]. split; [discriminate|].
    exists parsed. rewrite Ei. auto.
  - split; [discriminate|]. intros parsed' _ [= <-] _. rewrite Ee. reflexivity.
Qed.

Lemma parse_pdf_with_mineru_cloud_witness :
  parse_pdf_with_mineru
    (sample_script [("UPLOAD_FOLDER", "/up")] sample_archive_client
       (mkParseFileResult (Some "b1") None (Some "cloud-id") None 0))
    "/doc.pdf" "doc.pdf" sample_fs
  = (Raise (ValueError
              "MINERU_TOKEN not configured in .env file (required for mineru.net)"),
     sample_fs)
  /\ fst (parse_pdf_with_mineru
            (sample_script [("MINERU_TOKEN", "secret")] sample_archive_client
               (mkParseFileResult (Some "b1") None (Some "cloud-id")
                  (Some "quota exceeded") 1))
            "/doc.pdf" "doc.pdf" sample_fs)
     = Raise (ValueError "MinerU parsing failed: quota exceeded").
Proof.
  split.
  - pose proof (parse_pdf_with_mineru_cloud
                  (sample_script [("UPLOAD_FOLDER", "/up")] sample_archive_client
                     (mkParseFileResult (Some "b1") None (Some "cloud-id") None 0))
                  "/doc.pdf" "doc.pdf" sample_fs) as H.
    cbv zeta in H. discharge H. destruct H as (H & _).
    apply H. vm_compute. reflexivity.
  - pose proof (parse_pdf_with_mineru_cloud
                  (sample_script [("MINERU_TOKEN", "secret")] sample_archive_client
                     (mkParseFileResult (Some "b1") None (Some "cloud-id")
                        (Some "quota exceeded") 1))
                  "/doc.pdf" "doc.pdf" sample_fs) as H.
    cbv zeta in H. discharge H. destruct H as (_ & _ & H).
    apply (H (mkParseFileResult (Some "b1") None (Some "cloud-id")
                (Some "quota exceeded") 1));
      vm_compute; first [reflexivity | discriminate].
Defined.

(** * Frames *)

Lemma confined_refl (d : list string) (σ : fs) : confined d σ σ.
Proof. intros k _. reflexivity. Qed.

Lemma confined_trans (d : list string) (σ σ1 σ2 : fs) :
  confined d σ σ1 -> confined d σ1 σ2 -> confined d σ σ2.
Proof. intros H1 H2 k Hk. rewrite (H2 k Hk). apply (H1 k Hk). Qed.

Lemma confined_within (d : list string) (σ σ1 : fs) :
  confined d σ σ1 -> writes_within d σ σ1.
Proof.
  intros H k. destruct (FS.under d k) eqn:E; [right; left; reflexivity|].
  left. apply (H k E).
Qed.

Lemma under_trans (a b c : list string) :
  FS.under a b = true -> FS.under b c = true -> FS.under a c = true.
Proof.
  rewrite !under_true. intros [q ->] [q' ->]. exists (q ++ q').
  rewrite app_assoc. reflexivity.
Qed.

Lemma not_under_below (d p k : list string) :
  FS.under d p = true -> FS.under d k = false -> FS.under p k = false.
Proof.
  intros Hp Hk. destruct (FS.under p k) eqn:E; [|reflexivity].
  rewrite (under_trans _ _ _ Hp E) in Hk. discriminate.
Qed.

Lemma move_confined (d src dst : list string) (σ : fs) :
  FS.under d src = true -> FS.under d dst = true ->
  confined d σ (FS.move src dst σ).
Proof.
  intros Hs Hd k Hk. rewrite lookup_move.
  pose proof (not_under_below _ _ _ Hd Hk) as E1.
  pose proof (not_under_below _ _ _ Hs Hk) as E2.
  unfold FS.under in E1. destruct (FS.strip_prefix dst k); [discriminate|].
  rewrite E2. reflexivity.
Qed.

Lemma rename_confined (d src dst : list string) (σ σ1 : fs) (r : result unit) :
  FS.under d src = true -> FS.under d dst = true ->
  FS.rename src dst σ = (r, σ1) -> confined d σ σ1.
Proof.
  intros Hs Hd H. unfold FS.rename in H.
  repeat case_match; simplify_eq;
    first [apply confined_refl | apply move_confined; assumption].
Qed.

Lemma rmdir_confined (d p : list string) (σ σ1 : fs) (r : result unit) :
  FS.under d p = true -> FS.rmdir p σ = (r, σ1) -> confined d σ σ1.
Proof.
  intros Hp H. unfold FS.rmdir in H.
  repeat case_match; simplify_eq; try apply confined_refl.
  intros k Hk. apply lookup_delete_ne. intros <-. congruence.
Qed.

Lemma hoist_entry_confined (d p : list string) (σ σ1 : fs) (r : result unit) :
  FS.under d p = true -> hoist_entry d p σ = (r, σ1) -> confined d σ σ1.
Proof.
  intros Hp H. unfold hoist_entry, bind, FS.exists_, gets, raise in H.
  destruct (σ !! (d ++ [path_name p])).
  - injection H as <- <-. apply confined_refl.
  - apply (rename_confined d _ _ _ _ _ Hp (under_app _ _) H).
Qed.

Lemma hoist_loop_confined (d : list string) (l : list (list string)) :
  Forall (fun p => FS.under d p = true) l ->
  forall (σ σ1 : fs) (r : result unit),
    for_each l (hoist_entry d) σ = (r, σ1) -> confined d σ σ1.
Proof.
  induction 1 as [|p l Hp Hl IH]; intros σ σ1 r H.
  - injection H as <- <-. apply confined_refl.
  - cbn [for_each] in H. unfold bind in H.
    destruct (hoist_entry d p σ) as [[[]|e] σ'] eqn:Eh.
    + apply (confined_trans d σ σ' σ1);
        [apply (hoist_entry_confined _ _ _ _ _ Hp Eh) | apply (IH _ _ _ H)].
    + injection H as <- <-. apply (hoist_entry_confined _ _ _ _ _ Hp Eh).
Qed.

Lemma flatten_confined (o : dir_order) (d : list string) (σ σ1 : fs)
    (r : result unit) :
  _flatten_single_top_level_dir o d σ = (r, σ1) -> confined d σ σ1.
Proof.
  intros H. destruct (σ !! d) as [[|]|] eqn:Ed.
  1,3: (unfold _flatten_single_top_level_dir, bind, FS.iterdir in H;
        rewrite Ed in H; injection H as <- <-; apply confined_refl).
  rewrite (flatten_start o d σ Ed) in H.
  destruct (candidate_names o d σ) as [|top [|b l]];
    try (injection H as <- <-; apply confined_refl).
  destruct (σ !! (d ++ [top])) as [[|]|];
    try (injection H as <- <-; apply confined_refl).
  assert (Hall : Forall (fun p => FS.under d p = true)
                   (map (fun n => (d ++ [top]) ++ [n])
                      (o (FS.children σ (d ++ [top]))))).
  { apply Forall_forall. intros p Hin. apply list_elem_of_fmap in Hin as (n & -> & _).
    rewrite <- app_assoc. apply under_app. }
  unfold bind in H.
  destruct (for_each _ (hoist_entry d) σ) as [[[]|e] σ'] eqn:El.
  - pose proof (hoist_loop_confined d _ Hall _ _ _ El) as Hc.
    apply (confined_trans d σ σ' σ1 Hc).
    unfold try_except_M in H.
    destruct (FS.rmdir (d ++ [top]) σ') as [[[]|e] σ2] eqn:Er.
    + injection H as <- <-.
      apply (rmdir_confined d _ _ _ _ (under_app _ _) Er).
    + pose proof (rmdir_confined d _ _ _ _ (under_app _ _) Er) as Hr.
      destruct (FS.is_OSError e); injection H as <- <-; exact Hr.
  - injection H as <- <-. apply (hoist_loop_confined d _ Hall _ _ _ El).
Qed.

(** X8. Whatever its outcome, [_flatten_single_top_level_dir] leaves
    every path that is not at or below the extraction directory as it was;
    and when the extraction directory is missing or is a file, the listing
    raises an [OSError] and nothing changes at all. *)
Theorem flatten_single_top_level_dir_confined (o : dir_order)
    (extract_dir : list string) (σ : fs) :
  let run := _flatten_single_top_level_dir o extract_dir σ in
  (forall k, FS.under extract_dir k = false -> snd run !! k = σ !! k)
  /\ (σ !! extract_dir <> Some Dir ->
      snd run = σ /\ exists e, fst run = Raise e /\ FS.is_OSError e = true).
Proof.
  intros run. split.
  - apply (flatten_confined o extract_dir σ (snd run) (fst run)).
    apply surjective_pairing.
  - intros Hd. subst run.
    unfold _flatten_single_top_level_dir, bind, FS.iterdir.
    destruct (σ !! extract_dir) as [[|]|]; [|contradiction|];
      (split; [reflexivity|]; eexists; split; reflexivity).
Qed.

Lemma flatten_single_top_level_dir_confined_witness :
  snd (_flatten_single_top_level_dir reverse_order ["t"] sample_fs) !! ["doc.pdf"]
  = Some (File "%PDF-1.7").
Proof.
  etransitivity;
    [apply (proj1 (flatten_single_top_level_dir_confined reverse_order ["t"]
                     sample_fs) ["doc.pdf"]); reflexivity|].
  reflexivity.
Defined.

(** * [_ensure_layout_json_from_middle_json]: frame and idempotence *)

Lemma ensure_layout_cases (o : dir_order) (extract_dir : list string)
    (pdf_stem : string) (σ σ1 : fs) (r : result unit) :
  _ensure_layout_json_from_middle_json o extract_dir pdf_stem σ = (r, σ1) ->
  σ1 = σ
  \/ exists data, r = Ok tt /\ σ !! layout_path_of extract_dir = None
                  /\ σ1 = <[layout_path_of extract_dir := File data]> σ.
Proof.
  unfold _ensure_layout_json_from_middle_json. fold (layout_path_of extract_dir).
  unfold bind at 1, FS.exists_ at 1, gets.
  destruct (σ !! layout_path_of extract_dir) eqn:El.
  { intros [= <- <-]. left. reflexivity. }
  unfold bind at 1, FS.glob_suffix, gets. unfold bind at 1, FS.exists_, gets.
  intros H.
  assert (Hcopy : forall chosen,
    (let* data := FS.read_bytes chosen in
     FS.write_bytes (layout_path_of extract_dir) data) σ = (r, σ1) ->
    σ1 = σ \/ exists data, r = Ok tt /\ None = (None : option node)
                            /\ σ1 = <[layout_path_of extract_dir := File data]> σ).
  { intros chosen Hc. unfold bind, FS.read_bytes in Hc.
    destruct (σ !! chosen) as [[data|]|]; try (injection Hc as <- <-; auto).
    unfold FS.write_bytes in Hc. rewrite El in Hc.
    repeat case_match; simplify_eq; first [left; reflexivity | right; eauto]. }
  unfold ret, raise in H.
  repeat case_match; simplify_eq;
    first [left; reflexivity | apply (Hcopy _ H)].
Qed.

(** X9. [_ensure_layout_json_from_middle_json] changes no path other
    than [layout.json], and never touches a [layout.json] that is already
    there.  Running it a second time changes nothing more: after a first run
    that returned, the second returns too, and after a first run that
    raised, the second raises the same error. *)
Theorem ensure_layout_json_idempotent (o : dir_order)
    (extract_dir : list string) (pdf_stem : string) (σ : fs) :
  let layout_path := extract_dir ++ ["layout.json"] in
  let first := _ensure_layout_json_from_middle_json o extract_dir pdf_stem σ in
  let again :=
    _ensure_layout_json_from_middle_json o extract_dir pdf_stem (snd first) in
  (forall k, k <> layout_path -> snd first !! k = σ !! k)
  /\ (is_Some (σ !! layout_path) -> first = (Ok tt, σ))
  /\ snd again = snd first
  /\ (fst first = Ok tt -> fst again = Ok tt)
  /\ (forall e, fst first = Raise e -> again = first).
Proof.
  intros layout_path first again.
  destruct (ensure_layout_cases o extract_dir pdf_stem σ (snd first) (fst first)
              (surjective_pairing _)) as [E|(data & Er & El & E)].
  - assert (Hagain : again = first).
    { subst again. rewrite E. reflexivity. }
    split; [intros k _; rewrite E; reflexivity|].
    split.
    { intros [v Hv]. subst first.
      unfold _ensure_layout_json_from_middle_json, bind, FS.exists_, gets.
      fold layout_path. rewrite Hv. reflexivity. }
    rewrite Hagain. split; [reflexivity|]. split; [auto | reflexivity].
  - assert (Hagain : again = (Ok tt, snd first)).
    { subst again. rewrite E.
      unfold _ensure_layout_json_from_middle_json, bind, FS.exists_, gets.
      fold (layout_path_of extract_dir). rewrite lookup_insert_eq. reflexivity. }
    split.
    { intros k Hk. rewrite E. apply lookup_insert_ne.
      intros Heq. apply Hk. symmetry. exact Heq. }
    split.
    { intros [v Hv]. unfold layout_path_of in El. fold layout_path in El.
      congruence. }
    rewrite Hagain. split; [reflexivity|]. split; [reflexivity|].
    intros e He. rewrite Er in He. discriminate He.
Qed.

Lemma ensure_layout_json_idempotent_witness :
  fst (_ensure_layout_json_from_middle_json map_order ["t"; "doc"] "doc"
         (snd (_ensure_layout_json_from_middle_json map_order ["t"; "doc"] "doc"
                 sample_fs)))
  = Ok tt.
Proof.
  apply (ensure_layout_json_idempotent map_order ["t"; "doc"] "doc" sample_fs).
  vm_compute. reflexivity.
Defined.

(** * [parse_pdf_via_self_hosted_mineru]: what a call may change *)

Lemma within_ret {A} (out : list string) (a : A) : within out (ret a).
Proof. intros σ r σ1 [= <- <-]. apply writes_within_refl. Qed.

Lemma within_raise {A} (out : list string) (e : exn) : within out (@raise A e).
Proof. intros σ r σ1 [= <- <-]. apply writes_within_refl. Qed.

Lemma within_gets {A} (out : list string) (f : fs -> A) : within out (gets f).
Proof. intros σ r σ1 [= <- <-]. apply writes_within_refl. Qed.

Lemma within_lift {A} (out : list string) (x : result A) : within out (lift x).
Proof. intros σ r σ1 [= <- <-]. apply writes_within_refl. Qed.

Lemma within_on_path {A} (out : list string) (env : client_env)
    (p : list string) (m : M A) : within out m -> within out (on_path env p m).
Proof.
  intros Hm σ r σ1 H. apply on_path_cases in H as [[-> _]|H];
    [apply writes_within_refl | apply (Hm _ _ _ H)].
Qed.

Lemma within_path_exists (out : list string) (env : client_env)
    (p : list string) : within out (path_exists env p).
Proof. apply within_on_path, within_gets. Qed.

Lemma within_bind {A B} (out : list string) (m : M A) (k : A -> M B) :
  within out m -> (forall a, within out (k a)) -> within out (bind m k).
Proof.
  intros Hm Hk σ r σ1 H. unfold bind in H.
  destruct (m σ) as [[a|e] σ'] eqn:Em.
  - apply (writes_within_trans out σ σ' σ1);
      [apply (Hm _ _ _ Em) | apply (Hk a _ _ _ H)].
  - injection H as <- <-. apply (Hm _ _ _ Em).
Qed.

Lemma within_read_bytes (out p : list string) : within out (FS.read_bytes p).
Proof.
  intros σ r σ1 H. unfold FS.read_bytes in H.
  repeat case_match; simplify_eq; apply writes_within_refl.
Qed.

Lemma within_write_bytes (out p : list string) (data : string) :
  FS.under out p = true -> within out (FS.write_bytes p data).
Proof.
  intros Hp σ r σ1 H k. destruct (decide (k = p)) as [->|Hk].
  - right. left. exact Hp.
  - left. apply (write_bytes_spec _ _ _ _ _ H k Hk).
Qed.

Lemma within_mkdir_parents (fuel : nat) (p : list string) :
  within p (FS.mkdir_parents_exist_ok fuel p).
Proof.
  intros σ r σ1 H. apply mkdir_parents_spec in H as [H _].
  apply (only_creates_within p []). rewrite app_nil_r. exact H.
Qed.

Lemma within_path_mkdir_parents (env : client_env) (fuel : nat)
    (p : list string) :
  within p (path_mkdir_parents_exist_ok env fuel p).
Proof.
  intros σ r σ1 H. apply path_mkdir_parents_spec in H as [H _].
  apply (only_creates_within p []). rewrite app_nil_r. exact H.
Qed.

Lemma within_post_file_parse (out : list string) (env : client_env)
    (endpoint : string) (pdf_path : list string)
    (form_fields : gmap string string) (timeout_s : Z) :
  within out (_post_file_parse env endpoint pdf_path form_fields timeout_s).
Proof.
  unfold _post_file_parse.
  apply within_bind; [apply within_read_bytes|]. intros f.
  apply within_bind; [apply within_lift|]. intros resp.
  destruct (negb (resp_ok resp)); [apply within_raise | apply within_ret].
Qed.

Lemma within_flatten (o : dir_order) (d : list string) :
  within d (_flatten_single_top_level_dir o d).
Proof. intros σ r σ1 H. apply confined_within, (flatten_confined _ _ _ _ _ H). Qed.

Lemma within_ensure_layout (o : dir_order) (d : list string) (pdf_stem : string) :
  within d (_ensure_layout_json_from_middle_json o d pdf_stem).
Proof.
  intros σ r σ1 H.
  destruct (ensure_layout_cases _ _ _ _ _ _ H) as [->|(data & _ & _ & ->)];
    [apply writes_within_refl|].
  intros k. destruct (decide (k = layout_path_of d)) as [->|Hk].
  - right. left. apply under_app.
  - left. apply lookup_insert_ne. congruence.
Qed.

Lemma within_check_content_list (out : list string) (o : dir_order)
    (extract_id : string) (extract_dir : list string) :
  within out (check_content_list o extract_id extract_dir).
Proof.
  unfold check_content_list.
  apply within_bind; [apply within_gets|]. intros [|c l]; [|apply within_ret].
  apply within_bind; [apply within_gets|]. intros rel. apply within_raise.
Qed.

Lemma resolve_fold_no_dotdot (l : list string) : forall acc : list string,
  Forall (fun c => c <> "..") acc ->
  Forall (fun c => c <> "..") (fold_left Path.resolve_step l acc).
Proof.
  induction l as [|c l IH]; intros acc Hacc; [exact Hacc|].
  cbn [fold_left]. apply IH. unfold Path.resolve_step.
  destruct (String.eqb c "..") eqn:E.
  - apply Forall_removelast, Hacc.
  - apply String.eqb_neq in E. apply Forall_app. split; [exact Hacc|].
    constructor; [exact E | constructor].
Qed.

Lemma resolve_fold_id (l : list string) :
  Forall (fun c => c <> "..") l ->
  forall acc : list string, fold_left Path.resolve_step l acc = acc ++ l.
Proof.
  induction 1 as [|c l Hc Hl IH]; intros acc; [symmetry; apply app_nil_r|].
  cbn [fold_left]. rewrite IH. unfold Path.resolve_step.
  apply String.eqb_neq in Hc. rewrite Hc. rewrite <- app_assoc. reflexivity.
Qed.

Lemma resolve_of_abs (cwd l : list string) :
  Forall (fun c => c <> "..") l -> Path.resolve cwd (Path.of_abs l) = l.
Proof. intros H. unfold Path.resolve. cbn. apply (resolve_fold_id l H []). Qed.

Lemma resolve_no_dotdot (cwd : list string) (p : Path.t) :
  Forall (fun c => c <> "..") cwd ->
  Forall (fun c => c <> "..") (Path.resolve cwd p).
Proof.
  intros H. unfold Path.resolve. apply resolve_fold_no_dotdot.
  destruct (PyStr.truthy (Path.root p)); [constructor | exact H].
Qed.

Lemma within_safe_extractall (cwd out : list string) (zf : list ZipInfo) :
  Forall (fun c => c <> "..") out ->
  within out (_safe_extractall cwd zf (Path.of_abs out)).
Proof.
  intros Hout σ r σ1 H. rewrite safe_extractall_run in H. cbv zeta in H.
  rewrite (resolve_of_abs cwd out Hout) in H.
  destruct (List.find _ zf).
  - injection H as <- <-. apply writes_within_refl.
  - apply (extractall_within _ _ _ _ _ H).
Qed.

Lemma within_fetch_and_unpack
    (env : client_env) (pdf_path : Path.t) (mineru_api_base : string)
    (upload_folder : Path.t) (output_dir_field : string) (timeout_s : Z)
    (form_overrides : option (gmap string string)) :
  Forall (fun c => c <> "..") (call_extract_dir env upload_folder) ->
  within (call_extract_dir env upload_folder)
    (fetch_and_unpack env pdf_path mineru_api_base upload_folder
       output_dir_field timeout_s form_overrides).
Proof.
  intros Hout. unfold fetch_and_unpack. fold (call_pdf env pdf_path).
  change (Path.resolve (cwd env) (expanduser env upload_folder)
          ++ ["mineru_files"; PyStr.take 8 (uuid4_hex env)])
    with (call_extract_dir env upload_folder).
  apply within_bind; [apply within_path_exists|]. intros e.
  destruct (negb e); [apply within_raise|].
  apply within_bind; [apply within_path_mkdir_parents|]. intros _.
  apply within_bind; [apply within_post_file_parse|]. intros content.
  apply within_bind; [apply within_on_path, within_write_bytes, under_app|].
  intros _.
  destruct (negb (is_zipfile env content)); [apply within_raise|].
  apply within_bind; [apply within_read_bytes|]. intros saved.
  apply within_bind; [apply within_lift|]. intros zf.
  apply within_bind; [apply within_safe_extractall, Hout|]. intros _.
  apply within_bind; [apply within_flatten|]. intros _.
  apply within_bind; [apply within_ensure_layout|]. intros _.
  apply within_ret.
Qed.

(** X10. When the working directory has no ".." component and the
    identifier is not "..", a call of [parse_pdf_via_self_hosted_mineru],
    whatever its outcome, changes nothing outside its result directory
    except that missing ancestors of that directory become directories; so
    every file and directory that was there outside the result directory,
    such as a PDF kept elsewhere, is still there unchanged. *)
Theorem parse_pdf_via_self_hosted_mineru_within
    (env : client_env) (pdf_path : Path.t) (mineru_api_base : string)
    (upload_folder : Path.t) (output_dir_field : string) (timeout_s : Z)
    (form_overrides : option (gmap string string)) (σ : fs) :
  let extract_dir :=
    Path.resolve (cwd env) (expanduser env upload_folder)
    ++ ["mineru_files"; PyStr.take 8 (uuid4_hex env)] in
  let σ' := snd (parse_pdf_via_self_hosted_mineru env pdf_path mineru_api_base
                   upload_folder output_dir_field timeout_s form_overrides σ) in
  Forall (fun c => c <> "..") (cwd env) ->
  PyStr.take 8 (uuid4_hex env) <> ".." ->
  (forall k, FS.under extract_dir k = false ->
     σ' !! k = σ !! k
     \/ (σ !! k = None /\ σ' !! k = Some Dir /\ FS.under k extract_dir = true))
  /\ (forall k n, FS.under extract_dir k = false -> σ !! k = Some n ->
        σ' !! k = Some n).
Proof.
  intros extract_dir σ' Hcwd Hid.
  assert (Hout : Forall (fun c => c <> "..") extract_dir).
  { apply Forall_app. split; [apply resolve_no_dotdot, Hcwd|].
    repeat constructor; [discriminate | exact Hid]. }
  assert (Hw : writes_within extract_dir σ σ').
  { apply (within_bind extract_dir
             (fetch_and_unpack env pdf_path mineru_api_base upload_folder
                output_dir_field timeout_s form_overrides)
             (fun unpacked =>
                check_content_list (listing env) (fst unpacked) (snd unpacked))
             (within_fetch_and_unpack _ _ _ _ _ _ _ Hout)
             (fun u => within_check_content_list _ _ _ _)
             σ (fst (parse_pdf_via_self_hosted_mineru env pdf_path
                       mineru_api_base upload_folder output_dir_field timeout_s
                       form_overrides σ)) σ').
    apply surjective_pairing. }
  assert (H1 : forall k, FS.under extract_dir k = false ->
     σ' !! k = σ !! k
     \/ (σ !! k = None /\ σ' !! k = Some Dir /\ FS.under k extract_dir = true)).
  { intros k Hk. destruct (Hw k) as [E|[U|C]]; [left; exact E | | right; exact C].
    rewrite U in Hk. discriminate. }
  split; [exact H1|]. intros k n Hk Hn.
  destruct (H1 k Hk) as [E|(N & _)]; congruence.
Qed.

Lemma parse_pdf_via_self_hosted_mineru_within_witness :
  snd (parse_pdf_via_self_hosted_mineru sample_archive_client
         (Path.parse "/doc.pdf") "http://host:8023" (Path.parse "/up")
         "./output" 300 None sample_fs) !! ["doc.pdf"]
  = Some (File "%PDF-1.7").
Proof.
  destruct (parse_pdf_via_self_hosted_mineru_within sample_archive_client
              (Path.parse "/doc.pdf") "http://host:8023" (Path.parse "/up")
              "./output" 300 None sample_fs
              ltac:(constructor) ltac:(discriminate)) as [_ H].
  apply H; vm_compute; reflexivity.
Defined.

(** * [_parse_color]: the range of the components *)

Lemma int16_pairs_checked :
  forallb
    (fun c1 =>
       forallb
         (fun c2 =>
            match PyInt.int16 (String c1 (String c2 "")) with
            | Ok v => (-15 <=? v) && (v <=? 255)
            | Raise _ => true
            end)
         (map ascii_of_nat (seq 0 256)))
    (map ascii_of_nat (seq 0 256)) = true.
Proof. vm_compute. reflexivity. Qed.

Lemma int16_pair_bounds (c1 c2 : ascii) (v : Z) :
  PyInt.int16 (String c1 (String c2 "")) = Ok v -> component_ok v.
Proof.
  intros H. pose proof int16_pairs_checked as Hall.
  rewrite forallb_forall in Hall. specialize (Hall c1 (all_ascii c1)).
  rewrite forallb_forall in Hall. specialize (Hall c2 (all_ascii c2)).
  rewrite H in Hall. unfold component_ok. lia.
Qed.

Lemma parse_color_rgb_ok (x : option string) : rgb_ok (color_value x).
Proof.
  unfold color_value, _parse_color.
  destruct (negb (PyStr.truthy (or_empty x))); [exact I|].
  unfold try_except.
  destruct (PyStr.lstrip PyStr.is_hash (or_empty x)) as [|a1 t]; [exact I|].
  destruct (Nat.eqb (String.length (String a1 t)) 6) eqn:El; [|exact I].
  do 5 (destruct t as [|? t]; [discriminate El|]).
  destruct t; [|discriminate El].
  unfold slice. cbn [drop PyStr.take Nat.sub]. unfold bind_result.
  repeat match goal with
         | |- context [PyInt.int16 ?s] =>
             let E := fresh "E" in
             destruct (PyInt.int16 s) eqn:E;
             [apply int16_pair_bounds in E|]
         end;
    cbn; repeat case_match; simplify_eq; cbn; auto; exact I.
Qed.

(** X11. When [_parse_color] returns a triple, the string without its
    leading "#" characters has six characters and each component lies
    between -15 and 255: two hexadecimal digits give at most 255, and a
    sign followed by one digit gives down to -15. *)
Theorem parse_color_components (color_str : option string) (r g b : Z) :
  _parse_color color_str = Ok (Some (r, g, b)) ->
  (-15 <= r <= 255 /\ -15 <= g <= 255 /\ -15 <= b <= 255)
  /\ String.length (PyStr.lstrip PyStr.is_hash (or_empty color_str)) = 6%nat.
Proof.
  intros H. split.
  - pose proof (parse_color_rgb_ok color_str) as Hc.
    unfold color_value in Hc. rewrite H in Hc. exact Hc.
  - destruct (Nat.eq_dec
                (String.length (PyStr.lstrip PyStr.is_hash (or_empty color_str)))
                6%nat) as [E|E]; [exact E|].
    unfold _parse_color in H. apply Nat.eqb_neq in E. rewrite E in H.
    destruct (negb _); discriminate H.
Qed.

Lemma parse_color_components_witness :
  _parse_color (Some "##-fFf 9") = Ok (Some (-15, 255, 9))
  /\ (-15 <= -15 <= 255 /\ -15 <= 255 <= 255 /\ -15 <= 9 <= 255).
Proof.
  split; [reflexivity|].
  apply (parse_color_components (Some "##-fFf 9") (-15) 255 9). reflexivity.
Defined.

(** * [extract_styles]: what every configuration satisfies *)

Lemma first_font_ok (cat : Inventory.ShapeData -> bool)
    (l : list Inventory.ShapeData) (n : string) (b : option bool)
    (c : option rgb) :
  first_font cat l = Some (n, b, c) -> n <> "" /\ rgb_ok c.
Proof.
  induction l as [|s l IH]; [discriminate|]. cbn [first_font].
  destruct (cat s); [|exact IH]. unfold first_run.
  destruct (Inventory.paragraphs s) as [|p ps]; [exact IH|].
  destruct (PyStr.truthy (or_empty (Inventory.font_name p))) eqn:Et; [|exact IH].
  intros [= <- <- <-]. split; [|apply parse_color_rgb_ok].
  intros E. rewrite E in Et. discriminate Et.
Qed.

Lemma style_of_ok (f : option found_font) (d : bool) (dflt : string) :
  dflt <> "" ->
  (forall n b c, f = Some (n, b, c) -> n <> "" /\ rgb_ok c) ->
  font_ok (style_of f d dflt).
Proof.
  intros Hd Hf. destruct f as [[[n b] c]|]; cbn.
  - destruct (Hf n b c eq_refl). repeat split; auto.
  - repeat split; auto.
Qed.

Lemma extract_styles_cases (env : style_env) (template_dir content_template : string) :
  (exists e, extract_styles env template_dir content_template = Raise e)
  \/ extract_styles env template_dir content_template = Ok get_hpe_default_style
  \/ exists inventory,
       template_exists env (template_path_of template_dir content_template) = true
       /\ extract_styles env template_dir content_template =
            Ok {| title_font :=
                    style_of (first_font is_title_shape (shapes_of inventory))
                      true "HPE Graphik Semibold";
                  body_font :=
                    style_of (first_font is_body_shape (shapes_of inventory))
                      false "HPE Graphik";
                  source_template :=
                    Some (Path.str
                            (template_path_of template_dir content_template)) |}.
Proof.
  destruct (exists_error env (template_path_of template_dir content_template))
    as [e|] eqn:Hx.
  { left. exists e. apply (extract_styles_exists_raises _ _ _ _ Hx). }
  right.
  destruct (template_exists env (template_path_of template_dir content_template))
    eqn:He.
  2:{ left. rewrite (extract_styles_after_exists _ _ _ Hx), He. reflexivity. }
  destruct (import_inventory env) as [f|e] eqn:Hi.
  2:{ left. rewrite (extract_styles_after_exists _ _ _ Hx), He, Hi.
      cbn. destruct (is_ImportError e); reflexivity. }
  destruct (f (template_path_of template_dir content_template))
    as [inventory|e] eqn:Hf.
  2:{ left. rewrite (extract_styles_after_exists _ _ _ Hx), He, Hi.
      cbn. rewrite Hf. cbn. destruct (is_ImportError e); reflexivity. }
  right. exists inventory. split; [reflexivity|].
  apply (extract_styles_scan env template_dir content_template f inventory
           Hx He Hi Hf).
Qed.

(** X12. In every configuration [extract_styles] returns, the title and
    the body font have a name that is not empty, the fallback "Arial", no
    italic, and colour components between -15 and 255; and the
    configuration is the brand default, or names the template path as its
    source, in which case the template file exists. *)
Theorem extract_styles_invariants (env : style_env)
    (template_dir content_template : string) (config : StyleConfig) :
  let template_path := template_path_of template_dir content_template in
  extract_styles env template_dir content_template = Ok config ->
  font_ok (title_font config) /\ font_ok (body_font config)
  /\ (config = get_hpe_default_style
      \/ source_template config = Some (Path.str template_path)
         /\ template_exists env template_path = true).
Proof.
  intros template_path H.
  destruct (extract_styles_cases env template_dir content_template)
    as [[e E]|[E|(inventory & He & E)]]; rewrite E in H;
    [discriminate H | injection H as <- | injection H as <-].
  - split; [|split; [|left; reflexivity]];
      (repeat split; first [discriminate | reflexivity | exact I]).
  - cbn [title_font body_font source_template].
    split; [|split; [|right; split; [reflexivity | exact He]]];
      (apply style_of_ok; [discriminate | apply first_font_ok]).
Qed.

Lemma extract_styles_invariants_witness :
  exists config,
    extract_styles env_sample "templates" default_content_template = Ok config
    /\ font_ok (title_font config) /\ font_ok (body_font config)
    /\ source_template config = Some "templates/non-title-slide.pptx".
Proof.
  eexists. split; [reflexivity|].
  destruct (extract_styles_invariants env_sample "templates"
              default_content_template _ eq_refl) as (Ht & Hb & _).
  split; [exact Ht|]. split; [exact Hb | reflexivity].
Defined.

(** * [_safe_extractall]: what an unpacking that returns has written *)

Lemma only_creates_keeps (p k : list string) (σ σ1 : fs) (n : node) :
  only_creates p σ σ1 -> σ !! k = Some n -> σ1 !! k = Some n.
Proof. intros H Hk. destruct (H k) as [E|(N & _)]; congruence. Qed.

Section extract_member_facts.
Variables (out : list string) (member : ZipInfo).

#[local] Abbreviation target := (member_target out member).

Lemma extract_member_start (σ : fs) :
  extract_member out member σ =
    (let* _ := (if negb (match σ !! FS.parent target with
                         | Some _ => true | None => false end)
                then FS.makedirs (length (FS.parent target)) (FS.parent target)
                else ret tt) in
     if zip_is_dir member then
       let* d := FS.is_dir target in
       if negb d then FS.os_mkdir target else ret tt
     else FS.write_bytes target (file_data member)) σ.
Proof. reflexivity. Qed.

Lemma upperdirs_keeps (σ σ1 : fs) (r : result unit) (k : list string) (n : node) :
  (if negb (match σ !! FS.parent target with Some _ => true | None => false end)
   then FS.makedirs (length (FS.parent target)) (FS.parent target)
   else ret tt) σ = (r, σ1) ->
  σ !! k = Some n -> σ1 !! k = Some n.
Proof.
  destruct (negb _); intros H Hk.
  - apply makedirs_spec in H. apply (only_creates_keeps _ _ _ _ _ H Hk).
  - injection H as <- <-. exact Hk.
Qed.

Lemma extract_member_keeps (σ σ1 : fs) (r : result unit) (k : list string)
    (n : node) :
  extract_member out member σ = (r, σ1) ->
  σ !! k = Some n -> (k <> target \/ n = Dir) -> σ1 !! k = Some n.
Proof.
  rewrite extract_member_start. unfold bind at 1. intros H Hk Hne.
  match type of H with
  | (let (_, _) := ?x in _) = _ => destruct x as [[[]|e] σ'] eqn:Eu
  end.
  2:{ injection H as <- <-. apply (upperdirs_keeps _ _ _ _ _ Eu Hk). }
  pose proof (upperdirs_keeps _ _ _ _ _ Eu Hk) as Hk'.
  destruct (zip_is_dir member).
  - unfold bind, FS.is_dir, gets in H.
    destruct (negb _) in H.
    + apply os_mkdir_spec in H. apply (only_creates_keeps _ _ _ _ _ H Hk').
    + injection H as <- <-. exact Hk'.
  - destruct (decide (k = target)) as [->|Hkt].
    + destruct Hne as [Hne| ->]; [contradiction|].
      unfold FS.write_bytes in H. rewrite Hk' in H.
      injection H as <- <-. exact Hk'.
    + rewrite (write_bytes_spec _ _ _ _ _ H k Hkt). exact Hk'.
Qed.

Lemma extract_member_written (σ σ1 : fs) :
  extract_member out member σ = (Ok tt, σ1) ->
  σ1 !! target =
    Some (if zip_is_dir member then Dir else File (file_data member)).
Proof.
  rewrite extract_member_start. unfold bind at 1. intros H.
  match type of H with
  | (let (_, _) := ?x in _) = _ => destruct x as [[[]|e] σ'] eqn:Eu
  end; [|discriminate H].
  destruct (zip_is_dir member).
  - unfold bind, FS.is_dir, gets in H.
    destruct (σ' !! target) as [[|]|] eqn:Et; cbn [negb] in H.
    + unfold FS.os_mkdir in H. rewrite Et in H. discriminate H.
    + injection H as <-. exact Et.
    + unfold FS.os_mkdir in H. rewrite Et in H.
      repeat case_match; simplify_eq; apply lookup_insert_eq.
  - unfold FS.write_bytes in H.
    repeat case_match; simplify_eq; apply lookup_insert_eq.
Qed.
End extract_member_facts.

Lemma extractall_keeps (out : list string) (zf : list ZipInfo) :
  forall (σ σ1 : fs) (r : result unit) (k : list string) (n : node),
  extractall zf out σ = (r, σ1) ->
  σ !! k = Some n ->
  (n = Dir \/ forall m, m ∈ zf -> member_target out m <> k) ->
  σ1 !! k = Some n.
Proof.
  unfold extractall. induction zf as [|m zf IH]; intros σ σ1 r k n H Hk Hne.
  - injection H as <- <-. exact Hk.
  - cbn [for_each] in H. unfold bind in H.
    assert (Hm : k <> member_target out m \/ n = Dir).
    { destruct Hne as [->|Hne]; [right; reflexivity|].
      left. intros ->. apply (Hne m); [left | reflexivity]. }
    destruct (extract_member out m σ) as [[[]|e] σ'] eqn:Em.
    + apply (IH σ' σ1 r k n H).
      * apply (extract_member_keeps _ _ _ _ _ _ _ Em Hk Hm).
      * destruct Hne as [->|Hne]; [left; reflexivity|].
        right. intros m' Hm'. apply Hne. right. exact Hm'.
    + injection H as <- <-. apply (extract_member_keeps _ _ _ _ _ _ _ Em Hk Hm).
Qed.

Lemma extractall_dirs (out : list string) (zf : list ZipInfo) :
  forall (σ σ1 : fs),
  extractall zf out σ = (Ok tt, σ1) ->
  forall m, m ∈ zf -> zip_is_dir m = true ->
  σ1 !! member_target out m = Some Dir.
Proof.
  induction zf as [|m0 zf IH]; intros σ σ1 H m Hin Hd; [inversion Hin|].
  unfold extractall in H. cbn [for_each] in H. unfold bind in H.
  destruct (extract_member out m0 σ) as [[[]|e] σ'] eqn:Em; [|discriminate H].
  apply elem_of_cons in Hin as [->|Hin].
  - apply (extractall_keeps out zf σ' σ1 (Ok tt) _ Dir H); [|left; reflexivity].
    rewrite (extract_member_written _ _ _ _ Em), Hd. reflexivity.
  - apply (IH σ' σ1 H m Hin Hd).
Qed.

Lemma extractall_files (out : list string) (zf : list ZipInfo) :
  forall (σ σ1 : fs),
  extractall zf out σ = (Ok tt, σ1) ->
  forall (i : nat) (m : ZipInfo),
    zf !! i = Some m -> zip_is_dir m = false ->
    (forall (j : nat) (m' : ZipInfo), zf !! j = Some m' -> (i < j)%nat ->
       member_target out m' <> member_target out m) ->
    σ1 !! member_target out m = Some (File (file_data m)).
Proof.
  induction zf as [|m0 zf IH]; intros σ σ1 H i m Hi Hf Hlater;
    [discriminate Hi|].
  unfold extractall in H. cbn [for_each] in H. unfold bind in H.
  destruct (extract_member out m0 σ) as [[[]|e] σ'] eqn:Em; [|discriminate H].
  destruct i as [|i].
  - injection Hi as ->.
    apply (extractall_keeps out zf σ' σ1 (Ok tt) _ _ H).
    + rewrite (extract_member_written _ _ _ _ Em), Hf. reflexivity.
    + right. intros m' Hin. apply list_elem_of_lookup in Hin as [j Hj].
      apply (Hlater (S j) m' Hj). lia.
  - apply (IH σ' σ1 H i m Hi Hf). intros j m' Hj Hlt.
    apply (Hlater (S j) m' Hj). lia.
Qed.

(** X13. When [_safe_extractall] returns: every directory entry of the
    archive is a directory at its target path; every file entry whose
    target path is not written again by a later entry is a file there with
    the bytes of the entry; and every file or directory that was there
    before and is the target of no entry is still there unchanged. *)
Theorem safe_extractall_round_trip (cwd : list string) (zf : list ZipInfo)
    (out_dir : Path.t) (σ : fs) :
  let out := Path.resolve cwd out_dir in
  let run := _safe_extractall cwd zf out_dir σ in
  fst run = Ok tt ->
  (forall m, m ∈ zf -> zip_is_dir m = true ->
     snd run !! member_target out m = Some Dir)
  /\ (forall (i : nat) (m : ZipInfo),
        zf !! i = Some m -> zip_is_dir m = false ->
        (forall (j : nat) (m' : ZipInfo), zf !! j = Some m' -> (i < j)%nat ->
           member_target out m' <> member_target out m) ->
        snd run !! member_target out m = Some (File (file_data m)))
  /\ (forall (k : list string) (n : node),
        σ !! k = Some n ->
        (forall m, m ∈ zf -> member_target out m <> k) ->
        snd run !! k = Some n).
Proof.
  intros out run Hok.
  assert (Hrun : extractall zf out σ = (Ok tt, snd run)).
  { rewrite <- Hok. subst run out. rewrite safe_extractall_run. cbv zeta.
    rewrite safe_extractall_run in Hok. cbv zeta in Hok.
    destruct (List.find _ zf); [discriminate Hok|]. apply surjective_pairing. }
  split; [apply (extractall_dirs out zf σ (snd run) Hrun)|].
  split; [apply (extractall_files out zf σ (snd run) Hrun)|].
  intros k n Hk Hne.
  apply (extractall_keeps out zf σ (snd run) (Ok tt) k n Hrun Hk). right. exact Hne.
Qed.

Lemma safe_extractall_round_trip_witness :
  snd (_safe_extractall [] [mkZipInfo "a/b.txt" "old"; mkZipInfo "a/./b.txt" "new"]
         (Path.parse "/t") sample_fs) !! ["t"; "a"; "b.txt"]
  = Some (File "new").
Proof.
  pose proof (safe_extractall_round_trip []
                [mkZipInfo "a/b.txt" "old"; mkZipInfo "a/./b.txt" "new"]
                (Path.parse "/t") sample_fs) as H.
  cbv zeta in H. discharge H. destruct H as (_ & H & _).
  apply (H 1%nat (mkZipInfo "a/./b.txt" "new") eq_refl eq_refl).
  intros [|[|j]] m' Hj Hlt; [lia | lia | discriminate Hj].
Defined.

(** * [_post_file_parse]: a read and a request *)

(** X14. [_post_file_parse] never changes the file system.  A payload
    it returns is the content of a response with a success status to the
    request that carries the bytes of the PDF under its file name; an
    exception of the request is raised as it is; and when the PDF is not a
    regular file the call raises an [OSError] without a request. *)
Theorem post_file_parse_reads_only (env : client_env) (endpoint : string)
    (pdf_path : list string) (form_fields : gmap string string)
    (timeout_s : Z) (σ : fs) :
  let run := _post_file_parse env endpoint pdf_path form_fields timeout_s σ in
  snd run = σ
  /\ (forall payload, fst run = Ok payload ->
        exists f resp,
          σ !! pdf_path = Some (File f)
          /\ requests_post env endpoint form_fields (path_name pdf_path, f)
               timeout_s = Ok resp
          /\ resp_ok resp = true /\ payload = content resp)
  /\ (forall f e,
        σ !! pdf_path = Some (File f) ->
        requests_post env endpoint form_fields (path_name pdf_path, f)
          timeout_s = Raise e ->
        fst run = Raise e)
  /\ ((forall f, σ !! pdf_path <> Some (File f)) ->
      exists e, fst run = Raise e /\ FS.is_OSError e = true).
Proof.
  intros run. subst run. unfold _post_file_parse, bind, FS.read_bytes, lift.
  destruct (σ !! pdf_path) as [[f|]|] eqn:Ef.
  - destruct (requests_post env endpoint form_fields (path_name pdf_path, f)
                timeout_s) as [resp|e] eqn:Ep.
    + destruct (resp_ok resp) eqn:Eo; cbn.
      * split; [reflexivity|]. split.
        { intros payload [= <-]. exists f, resp. auto. }
        split; [intros f' e [= <-] He; congruence|].
        intros H. destruct (H f eq_refl).
      * split; [reflexivity|]. split; [discriminate|].
        split; [intros f' e [= <-] He; congruence|].
        intros H. destruct (H f eq_refl).
    + cbn. split; [reflexivity|]. split; [discriminate|].
      split; [intros f' e' [= <-] He; congruence|].
      intros H. destruct (H f eq_refl).
  - cbn. split; [reflexivity|]. split; [discriminate|].
    split; [discriminate|]. intros _. eexists. split; reflexivity.
  - cbn. split; [reflexivity|]. split; [discriminate|].
    split; [discriminate|]. intros _. eexists. split; reflexivity.
Qed.

Lemma post_file_parse_reads_only_witness :
  exists e,
    fst (_post_file_parse sample_archive_client "http://host:8023/file_parse"
           ["up"] (default_fields "./output") 300 sample_fs) = Raise e
    /\ FS.is_OSError e = true.
Proof.
  destruct (post_file_parse_reads_only sample_archive_client
              "http://host:8023/file_parse" ["up"] (default_fields "./output")
              300 sample_fs) as (_ & _ & _ & H).
  apply H. intros f. vm_compute. discriminate.
Defined.

(** * The form fields of a request *)

(** X15. The form fields of a request are the fifteen defaults updated
    with the overrides: a key of the overrides has the value given there,
    any other key has its default; so "output_dir" carries the
    [output_dir_field] argument and "response_format_zip" is "true" unless
    overridden, and every default key is sent whatever the overrides. *)
Theorem request_fields_lookup (output_dir_field : string)
    (form_overrides : option (gmap string string)) (k : string) :
  let overrides := default ∅ form_overrides in
  request_fields output_dir_field form_overrides !! k =
    match overrides !! k with
    | Some v => Some v
    | None => default_fields output_dir_field !! k
    end
  /\ (overrides !! "output_dir" = None ->
      request_fields output_dir_field form_overrides !! "output_dir"
      = Some output_dir_field)
  /\ (overrides !! "response_format_zip" = None ->
      request_fields output_dir_field form_overrides !! "response_format_zip"
      = Some "true")
  /\ (is_Some (default_fields output_dir_field !! k) ->
      is_Some (request_fields output_dir_field form_overrides !! k)).
Proof.
  intros overrides.
  assert (Hl : forall k',
    request_fields output_dir_field form_overrides !! k' =
      match overrides !! k' with
      | Some v => Some v
      | None => default_fields output_dir_field !! k'
      end).
  { intros k'. subst overrides. unfold request_fields.
    destruct form_overrides as [ov|]; cbn [from_option id].
    - case_bool_decide as E.
      + subst ov. rewrite lookup_empty. reflexivity.
      + rewrite lookup_union. destruct (ov !! k'), (default_fields _ !! k');
          reflexivity.
    - rewrite lookup_empty. reflexivity. }
  split; [apply Hl|]. split; [|split].
  - intros H. rewrite Hl, H. reflexivity.
  - intros H. rewrite Hl, H. reflexivity.
  - intros H. rewrite Hl. destruct (overrides !! k); [eauto | exact H].
Qed.

Lemma request_fields_lookup_witness :
  request_fields "./output" (Some {["lang_list" := "ch"]}) !! "lang_list"
  = Some "ch"
  /\ request_fields "./output" (Some {["lang_list" := "ch"]}) !! "output_dir"
     = Some "./output".
Proof.
  destruct (request_fields_lookup "./output" (Some {["lang_list" := "ch"]})
              "lang_list") as (H1 & H2 & _).
  split.
  - rewrite H1. reflexivity.
  - apply H2. reflexivity.
Defined.

(** * [pdf_to_images]: the names of the page images *)

Lemma pretty_N_go_head (x : N) :
  (0 < x)%N -> forall s, exists c t,
    pretty_N_go x s = String c t /\ c <> "0"%char.
Proof.
  induction (N.lt_wf_0 x) as [x _ IH]. intros Hx s.
  rewrite pretty_N_go_step by exact Hx.
  destruct (decide (x < 10)%N) as [Hlt|Hge].
  - rewrite N.div_small by exact Hlt. rewrite pretty_N_go_0.
    rewrite N.mod_small by exact Hlt. eexists _, _. split; [reflexivity|].
    assert (x = 1 \/ x = 2 \/ x = 3 \/ x = 4 \/ x = 5 \/ x = 6
            \/ x = 7 \/ x = 8 \/ x = 9)%N as Hc by lia.
    destruct Hc as [->|[->|[->|[->|[->|[->|[->|[->| ->]]]]]]]]; discriminate.
  - apply IH.
    + apply N.div_lt; lia.
    + apply N.div_str_pos. lia.
Qed.

Lemma pretty_nat_canonical (i : nat) : canonical_digits (pretty i).
Proof.
  unfold pretty, pretty_nat, pretty, pretty_N.
  destruct (decide (N.of_nat i = 0%N)) as [E|E].
  - split; [discriminate|]. intros t [= <-]. reflexivity.
  - destruct (pretty_N_go_head (N.of_nat i) ltac:(lia) "") as (c & t & -> & Hc).
    split; [discriminate|]. intros t' [= -> _]. contradiction.
Qed.

Lemma zeros_inj (a b : string) :
  canonical_digits a -> canonical_digits b ->
  forall n m : nat, zeros n +:+ a = zeros m +:+ b -> a = b.
Proof.
  intros [Ha Ha0] [Hb Hb0].
  assert (Hstuck : forall x y k, x <> "" -> (forall t, y = String "0" t -> t = "") ->
                     y = zeros (S k) +:+ x -> False).
  { intros x y k Hx Hy E. cbn [zeros] in E.
    change (String "0" (zeros k) +:+ x) with (String "0" (zeros k +:+ x)) in E.
    specialize (Hy _ E). destruct k; [exact (Hx Hy) | discriminate Hy]. }
  induction n as [|n IH]; intros [|m] E.
  - exact E.
  - exfalso. apply (Hstuck b a m Hb Ha0 E).
  - exfalso. apply (Hstuck a b n Ha Hb0 (eq_sym E)).
  - cbn [zeros] in E.
    change (String "0" (zeros n) +:+ a) with (String "0" (zeros n +:+ a)) in E.
    change (String "0" (zeros m) +:+ b) with (String "0" (zeros m +:+ b)) in E.
    injection E as E. apply (IH m E).
Qed.

Lemma format_03d_inj (i j : nat) : format_03d i = format_03d j -> i = j.
Proof.
  unfold format_03d. intros E.
  apply (zeros_inj _ _ (pretty_nat_canonical i) (pretty_nat_canonical j)) in E.
  apply (inj pretty) in E. exact E.
Qed.

Lemma append_inj_l (a x y : string) : a +:+ x = a +:+ y -> x = y.
Proof.
  induction a as [|c a IH]; [auto|].
  change (String c a +:+ x) with (String c (a +:+ x)).
  change (String c a +:+ y) with (String c (a +:+ y)).
  intros [= E]. apply IH, E.
Qed.

Lemma append_inj_r (s : string) : forall x y : string,
  x +:+ s = y +:+ s -> x = y.
Proof.
  induction x as [|c x IH]; intros [|d y] E.
  - reflexivity.
  - exfalso. apply (f_equal String.length) in E.
    rewrite !length_append in E. cbn [String.length] in E. lia.
  - exfalso. apply (f_equal String.length) in E.
    rewrite !length_append in E. cbn [String.length] in E. lia.
  - change (String c x +:+ s) with (String c (x +:+ s)) in E.
    change (String d y +:+ s) with (String d (y +:+ s)) in E.
    injection E as -> E. f_equal. apply IH, E.
Qed.

Lemma page_file_name_inj (i j : nat) :
  page_file_name i = page_file_name j -> i = j.
Proof.
  unfold page_file_name. intros E. apply append_inj_l in E.
  apply append_inj_r in E. apply format_03d_inj, E.
Qed.

Lemma os_path_join_page (output_dir : string) (i : nat) :
  os_path_join output_dir (page_file_name i) =
    (if negb (PyStr.truthy output_dir) || PyStr.endswith output_dir "/"
     then output_dir else output_dir +:+ "/") +:+ page_file_name i.
Proof.
  unfold os_path_join.
  replace (PyStr.startswith (page_file_name i) "/") with false by reflexivity.
  destruct (negb (PyStr.truthy output_dir) || PyStr.endswith output_dir "/");
    [reflexivity|].
  rewrite append_assoc. reflexivity.
Qed.

Lemma os_path_join_page_inj (output_dir : string) (i j : nat) :
  os_path_join output_dir (page_file_name i)
  = os_path_join output_dir (page_file_name j) -> i = j.
Proof.
  rewrite !os_path_join_page. intros E. apply append_inj_l in E.
  apply page_file_name_inj, E.
Qed.

Lemma NoDup_page_paths (output_dir : string) (i n : nat) :
  NoDup (page_paths output_dir i n).
Proof.
  unfold page_paths. apply NoDup_fmap_2_strong; [|apply NoDup_seq].
  intros a b _ _. apply os_path_join_page_inj.
Qed.

Lemma lookup_page_paths (output_dir : string) (i n k : nat) (p : string) :
  page_paths output_dir i n !! k = Some p ->
  p = os_path_join output_dir (page_file_name (i + k)) /\ (k < n)%nat.
Proof.
  unfold page_paths. rewrite list_lookup_fmap. intros H.
  destruct (seq i n !! k) as [j|] eqn:E; [|discriminate H].
  apply lookup_seq in E as [-> Hk]. injection H as <-. auto.
Qed.

Lemma save_pages_paths (env : pdf_env) (matrix : option (Z * Z))
    (output_dir : string) (doc : list (page env)) :
  forall (i : nat) (σ σ' : fs) (image_paths : list string),
  save_pages env matrix output_dir i doc σ = (Ok image_paths, σ') ->
  image_paths = page_paths output_dir i (length doc).
Proof.
  induction doc as [|pg rest IH]; intros i σ σ' image_paths H.
  - injection H as <- _. reflexivity.
  - cbn [save_pages] in H. unfold bind, lift in H.
    destruct (get_pixmap env pg matrix) as [pix|e]; [|discriminate H].
    destruct (pix_save env pix _ σ) as [[[]|e] σ1]; [|discriminate H].
    destruct (save_pages env matrix output_dir (S i) rest σ1)
      as [[paths|e] σ2] eqn:Er; [|discriminate H].
    injection H as <- _. rewrite (IH _ _ _ _ Er). reflexivity.
Qed.

Lemma pdf_to_images_run (env : pdf_env) (matrix : option (Z * Z))
    (pdf_path output_dir : string) (σ : fs) (image_paths : list string) :
  fst ((let* _ := os_makedirs_exist_ok env output_dir in
        let* doc := fitz_open env pdf_path in
        let* image_paths := save_pages env matrix output_dir 0 doc in
        let* _ := doc_close env in
        ret image_paths) σ) = Ok image_paths ->
  exists (σ1 : fs) (doc : list (page env)),
    os_makedirs_exist_ok env output_dir σ = (Ok tt, σ1)
    /\ fst (fitz_open env pdf_path σ1) = Ok doc
    /\ image_paths = page_paths output_dir 0 (length doc).
Proof.
  unfold bind. intros H.
  destruct (os_makedirs_exist_ok env output_dir σ) as [[[]|e] σ1];
    [|discriminate H].
  destruct (fitz_open env pdf_path σ1) as [[doc|e] σ2] eqn:Eo;
    [|discriminate H].
  destruct (save_pages env matrix output_dir 0 doc σ2) as [[paths|e] σ3] eqn:Es;
    [|discriminate H].
  destruct (doc_close env σ3) as [[[]|e] σ4]; [|discriminate H].
  cbn in H. injection H as <-.
  exists σ1, doc. split; [reflexivity|]. split; [rewrite Eo; reflexivity|].
  apply (save_pages_paths _ _ _ _ _ _ _ _ Es).
Qed.

(** X16. When [pdf_to_images] returns (in the script and in its
    recursive variant alike), the output directory was made first and the
    document opened after it; the list has one path for each page of the
    document; the path at index [i] is the output directory joined with
    [page_<i on three digits>.png]; and no two paths of the list are equal,
    also beyond 999 pages, where the number takes more digits. *)
Theorem pdf_to_images_paths (env : pdf_env) (recursive_variant : bool)
    (pdf_path output_dir : string) (σ : fs) (image_paths : list string) :
  fst ((if recursive_variant then Recur.pdf_to_images env pdf_path output_dir
        else pdf_to_images env pdf_path output_dir) σ) = Ok image_paths ->
  NoDup image_paths
  /\ (forall (i : nat) (p : string), image_paths !! i = Some p ->
        p = os_path_join output_dir ("page_" +:+ format_03d i +:+ ".png"))
  /\ exists (σ1 : fs) (doc : list (page env)),
       os_makedirs_exist_ok env output_dir σ = (Ok tt, σ1)
       /\ fst (fitz_open env pdf_path σ1) = Ok doc
       /\ length image_paths = length doc.
Proof.
  intros H.
  assert (Hrun : exists (σ1 : fs) (doc : list (page env)),
    os_makedirs_exist_ok env output_dir σ = (Ok tt, σ1)
    /\ fst (fitz_open env pdf_path σ1) = Ok doc
    /\ image_paths = page_paths output_dir 0 (length doc)).
  { destruct recursive_variant;
      [apply (pdf_to_images_run env None) | apply (pdf_to_images_run env (Some (2, 2)))];
      exact H. }
  destruct Hrun as (σ1 & doc & Hm & Ho & ->).
  split; [apply NoDup_page_paths|]. split.
  - intros i p Hp. apply lookup_page_paths in Hp as [-> _]. reflexivity.
  - exists σ1, doc. split; [exact Hm|]. split; [exact Ho|].
    unfold page_paths. rewrite length_map, length_seq. reflexivity.
Qed.

Lemma pdf_to_images_paths_witness :
  fst (pdf_to_images sample_pdf_env "/doc.pdf" "out" sample_fs)
  = Ok ["out/page_000.png"; "out/page_001.png"; "out/page_002.png"]
  /\ NoDup ["out/page_000.png"; "out/page_001.png"; "out/page_002.png"].
Proof.
  assert (Hrun : fst (pdf_to_images sample_pdf_env "/doc.pdf" "out" sample_fs)
                 = Ok ["out/page_000.png"; "out/page_001.png"; "out/page_002.png"])
    by (vm_compute; reflexivity).
  split; [exact Hrun|].
  apply (pdf_to_images_paths sample_pdf_env false "/doc.pdf" "out" sample_fs
           ["out/page_000.png"; "out/page_001.png"; "out/page_002.png"] Hrun).
Defined.

(** * [main]: the directory of the MinerU results *)



(** * [main]: the early ends *)

(** X18. When the input file does not exist, [main] ends in
    [sys.exit(1)] right after the test, before any directory is made or any
    page rendered; so a run that reaches its end had an input that existed;
    and an exception of the test is raised as it is. *)
Theorem main_early_ends (env : main_env) (pdf_path : string)
    (output_dir template_dir mineru_results_dir : option string) (σ : fs) :
  let run := main env pdf_path output_dir template_dir mineru_results_dir σ in
  (fst (os_path_exists env pdf_path σ) = Ok false ->
   run = (Ok (Exited 1), snd (os_path_exists env pdf_path σ)))
  /\ (fst run = Ok Completed -> fst (os_path_exists env pdf_path σ) = Ok true)
  /\ (forall e, fst (os_path_exists env pdf_path σ) = Raise e ->
        run = (Raise e, snd (os_path_exists env pdf_path σ))).
Proof.
  intros run. subst run.
  destruct (os_path_exists env pdf_path σ) as [[[|]|e] σ1] eqn:E; cbn [fst snd].
  - split; [discriminate|]. split; [intros _; reflexivity|]. discriminate.
  - assert (Hrun : main env pdf_path output_dir template_dir mineru_results_dir σ
                   = (Ok (Exited 1), σ1)).
    { unfold main. rewrite (bind_ok _ _ _ _ _ E). reflexivity. }
    rewrite Hrun. split; [intros _; reflexivity|]. split; discriminate.
  - assert (Hrun : main env pdf_path output_dir template_dir mineru_results_dir σ
                   = (Raise e, σ1)).
    { unfold main. apply bind_raise, E. }
    rewrite Hrun. split; [discriminate|]. split; [discriminate|].
    intros e' [= <-]. reflexivity.
Qed.

Lemma main_early_ends_witness :
  fst (main (sample_main sample_self_hosted) "/missing.pdf" None None None
         sample_fs)
  = Ok (Exited 1).
Proof.
  pose proof (main_early_ends (sample_main sample_self_hosted) "/missing.pdf"
                None None None sample_fs) as H.
  cbv zeta in H. destruct H as (H & _).
  exact (f_equal fst (H ltac:(vm_compute; reflexivity))).
Defined.

(** * [main]: the directory handed to the later steps *)

Lemma append_cons (c : ascii) (a b : string) :
  String c a +:+ b = String c (a +:+ b).
Proof. reflexivity. Qed.

Lemma append_nil_l (b : string) : "" +:+ b = b.
Proof. reflexivity. Qed.

Lemma split_cons (c : ascii) (s : string) :
  PyStr.split "/" (String c s) =
    if Ascii.eqb c "/" then "" :: PyStr.split "/" s
    else match PyStr.split "/" s with
         | [] => [String c ""]
         | f :: l => String c f :: l
         end.
Proof. reflexivity. Qed.

Lemma split_app_sep (a b : string) :
  PyStr.split "/" (a +:+ String "/" b) = PyStr.split "/" a ++ PyStr.split "/" b.
Proof.
  induction a as [|c a IH].
  - reflexivity.
  - rewrite append_cons, !split_cons, IH.
    destruct (Ascii.eqb c "/"); [reflexivity|].
    destruct (PyStr.split "/" a) as [|f l] eqn:E; [|reflexivity].
    exfalso. destruct a as [|c' a']; [discriminate E|].
    rewrite split_cons in E. destruct (Ascii.eqb c' "/"); [discriminate E|].
    destruct (PyStr.split "/" a'); discriminate E.
Qed.

Lemma split_one (b : string) : no_slash b = true -> PyStr.split "/" b = [b].
Proof.
  induction b as [|c b IH]; [reflexivity|]. cbn [no_slash].
  intros H. apply andb_true_iff in H as [Hc Hb]. rewrite split_cons.
  apply negb_true_iff in Hc. rewrite Hc, (IH Hb). reflexivity.
Qed.

Lemma endswith_split (s suf : string) :
  PyStr.endswith s suf = true -> exists pre, s = pre +:+ suf.
Proof.
  induction s as [|c s IH]; cbn [PyStr.endswith].
  - destruct (String.eqb "" suf) eqn:E; [|discriminate].
    apply String.eqb_eq in E. subst suf. exists "". reflexivity.
  - destruct (String.eqb (String c s) suf) eqn:E.
    + apply String.eqb_eq in E. subst suf. exists "". reflexivity.
    + intros H. destruct (IH H) as [pre ->]. exists (String c pre). reflexivity.
Qed.

Lemma split_root_other (c : ascii) (s : string) :
  c <> "/"%char -> Path.split_root (String c s) = "".
Proof.
  intros H. destruct c as [[] [] [] [] [] [] [] []];
    first [reflexivity | contradiction H; reflexivity].
Qed.

Lemma split_root_one (c : ascii) (s : string) :
  c <> "/"%char -> Path.split_root (String "/" (String c s)) = "/".
Proof.
  intros H. destruct c as [[] [] [] [] [] [] [] []];
    first [reflexivity | contradiction H; reflexivity].
Qed.

Lemma split_root_two (c : ascii) (s : string) :
  c <> "/"%char -> Path.split_root (String "/" (String "/" (String c s))) = "//".
Proof.
  intros H. destruct c as [[] [] [] [] [] [] [] []];
    first [reflexivity | contradiction H; reflexivity].
Qed.

(** A name that can stand as one component of a path. *)
Lemma keep_part_name (b : string) :
  b <> "" -> b <> "." -> Path.keep_part b = true.
Proof.
  intros H1 H2. unfold Path.keep_part.
  apply String.eqb_neq in H1, H2. rewrite H1, H2. reflexivity.
Qed.

Section join_one.
Variables (a b : string).
Hypothesis Ha : a <> "".
Hypothesis Hslash : no_slash b = true.
Hypothesis Hb : b <> "".
Hypothesis Hdot : b <> ".".

Lemma os_path_join_one :
  os_path_join a b =
    a +:+ (if PyStr.endswith a "/" then b else String "/" b).
Proof.
  unfold os_path_join.
  assert (Hs : PyStr.startswith b "/" = false).
  { destruct b as [|c b']; [contradiction|]. cbn [no_slash] in Hslash.
    apply andb_true_iff in Hslash as [Hc _]. apply negb_true_iff in Hc.
    cbn [PyStr.startswith]. rewrite Ascii.eqb_sym, Hc. reflexivity. }
  rewrite Hs. destruct a; [contradiction|]. cbn [PyStr.truthy negb orb].
  destruct (PyStr.endswith _ "/"); reflexivity.
Qed.

Lemma parts_join_one :
  Path.parts (Path.parse (os_path_join a b)) = Path.parts (Path.parse a) ++ [b].
Proof.
  rewrite os_path_join_one. unfold Path.parse. cbn [Path.parts].
  destruct (PyStr.endswith a "/") eqn:E.
  - apply endswith_split in E as [a0 ->].
    rewrite append_assoc. change ("/" +:+ b) with (String "/" b).
    rewrite !split_app_sep, !List.filter_app, (split_one b Hslash).
    cbn [PyStr.split List.filter Path.keep_part String.eqb orb negb].
    cbn [List.filter]. rewrite (keep_part_name b Hb Hdot), app_nil_r.
    reflexivity.
  - rewrite split_app_sep, List.filter_app, (split_one b Hslash).
    cbn [List.filter]. rewrite (keep_part_name b Hb Hdot). reflexivity.
Qed.

Lemma root_join_one :
  Path.root (Path.parse (os_path_join a b)) = Path.root (Path.parse a).
Proof.
  rewrite os_path_join_one. unfold Path.parse. cbn [Path.root].
  destruct b as [|d b']; [contradiction|].
  assert (Hd : d <> "/"%char).
  { cbn [no_slash] in Hslash. apply andb_true_iff in Hslash as [Hc _].
    apply negb_true_iff, Ascii.eqb_neq in Hc. exact Hc. }
  destruct a as [|c1 a1]; [contradiction|]. rewrite append_cons.
  destruct (Ascii.eqb_spec c1 "/") as [->|H1];
    [|rewrite !split_root_other by exact H1; reflexivity].
  destruct a1 as [|c2 a2].
  { cbn [PyStr.endswith String.eqb Ascii.eqb Bool.eqb]. rewrite append_nil_l.
    rewrite split_root_one by exact Hd. reflexivity. }
  rewrite append_cons.
  destruct (Ascii.eqb_spec c2 "/") as [->|H2];
    [|rewrite !split_root_one by exact H2; reflexivity].
  destruct a2 as [|c3 a3].
  { replace (PyStr.endswith "//" "/") with true by reflexivity.
    rewrite append_nil_l, split_root_two by exact Hd. reflexivity. }
  rewrite append_cons.
  destruct (Ascii.eqb_spec c3 "/") as [->|H3];
    [reflexivity | rewrite !split_root_two by exact H3; reflexivity].
Qed.

Lemma resolve_join_one (cwd : list string) :
  b <> ".." ->
  Path.resolve cwd (Path.parse (os_path_join a b))
  = Path.resolve cwd (Path.parse a) ++ [b].
Proof.
  intros Hdd. unfold Path.resolve. rewrite root_join_one, parts_join_one.
  rewrite fold_left_app. cbn [fold_left]. unfold Path.resolve_step at 1.
  apply String.eqb_neq in Hdd. rewrite Hdd. reflexivity.
Qed.

Lemma os_path_join_nonempty : os_path_join a b <> "".
Proof.
  rewrite os_path_join_one. destruct a; [contradiction | discriminate].
Qed.
End join_one.

Lemma hex_value_plain (c : ascii) (d : Z) :
  PyInt.hex_value c = Some d -> c <> "/"%char /\ c <> "."%char.
Proof.
  destruct c as [[] [] [] [] [] [] [] []];
    intros H; vm_compute in H; try discriminate H; split; discriminate.
Qed.

Lemma all_hex_take (n : nat) : forall s : string,
  all_hex s = true -> all_hex (PyStr.take n s) = true.
Proof.
  induction n as [|n IH]; intros [|c s] H; try reflexivity.
  cbn [PyStr.take all_hex] in *. destruct (PyInt.hex_value c); [auto | discriminate].
Qed.

Lemma all_hex_name (s : string) :
  all_hex s = true -> s <> "" ->
  no_slash s = true /\ s <> "." /\ s <> "..".
Proof.
  intros H Hne. split.
  - induction s as [|c s IH]; [reflexivity|]. cbn [all_hex no_slash] in *.
    destruct (PyInt.hex_value c) as [d|] eqn:E; [|discriminate].
    destruct (hex_value_plain c d E) as [Hs _].
    apply Ascii.eqb_neq in Hs. rewrite Hs. cbn [negb andb].
    destruct s; [reflexivity|]. apply IH; [exact H | discriminate].
  - destruct s as [|c s]; [contradiction|]. cbn [all_hex] in H.
    destruct (PyInt.hex_value c) as [d|] eqn:E; [|discriminate].
    destruct (hex_value_plain c d E) as [_ Hd].
    split; intros [= -> _]; contradiction.
Qed.

(** X19. With UPLOAD_FOLDER set and a self-hosted MinerU address, the
    directory that step 2 of [main] rebuilds with [os.path.join] from
    UPLOAD_FOLDER, "mineru_files" and the identifier is the directory into
    which [parse_pdf_via_self_hosted_mineru] unpacked the results: both
    resolve to the same path, which after the step is a directory that
    holds an entry named [*_content_list.json]. *)
Theorem main_results_dir_is_client_dir (env : main_env) (pdf_path : string)
    (upload_folder result_dir : string) (σ : fs) :
  let c := client (script env) in
  let run := mineru_results_of env pdf_path None σ in
  let extract_dir := Path.resolve (cwd c) (Path.parse result_dir) in
  os_getenv (script env) "UPLOAD_FOLDER" = Some upload_folder ->
  upload_folder <> "" ->
  is_self_hosted_mineru (os_getenv (script env) "MINERU_API_BASE") = true ->
  expanduser c (Path.parse upload_folder) = Path.parse upload_folder ->
  all_hex (uuid4_hex c) = true ->
  uuid4_hex c <> "" ->
  fst run = Ok result_dir ->
  result_dir =
    os_path_join (os_path_join upload_folder "mineru_files")
      (PyStr.take 8 (uuid4_hex c))
  /\ extract_dir =
       Path.resolve (cwd c) (expanduser c (Path.parse upload_folder))
       ++ ["mineru_files"; PyStr.take 8 (uuid4_hex c)]
  /\ snd run !! extract_dir = Some Dir
  /\ exists n, is_Some (snd run !! (extract_dir ++ [n]))
               /\ PyStr.endswith n "_content_list.json" = true.
Proof.
  intros c run extract_dir Hup Hne Hs He Hhex Hu Hrun.
  assert (Hid : no_slash (PyStr.take 8 (uuid4_hex c)) = true
                /\ PyStr.take 8 (uuid4_hex c) <> "."
                /\ PyStr.take 8 (uuid4_hex c) <> "..").
  { apply all_hex_name; [apply all_hex_take, Hhex | apply take_nonempty, Hu]. }
  destruct Hid as (Hid1 & Hid2 & Hid3).
  pose proof (take_nonempty 7 _ Hu) as Hid0.
  assert (Hjoin : forall cwd0,
    Path.resolve cwd0
      (Path.parse (os_path_join (os_path_join upload_folder "mineru_files")
                     (PyStr.take 8 (uuid4_hex c))))
    = Path.resolve cwd0 (Path.parse upload_folder)
      ++ ["mineru_files"; PyStr.take 8 (uuid4_hex c)]).
  { intros cwd0.
    rewrite resolve_join_one; try assumption;
      [|apply os_path_join_nonempty; first [assumption | reflexivity | discriminate]].
    rewrite resolve_join_one;
      first [assumption | reflexivity | discriminate | idtac].
    rewrite <- app_assoc. reflexivity. }
  subst run. unfold mineru_results_of in *.
  change (PyStr.truthy (or_empty None)) with false in *. cbv iota in *.
  rewrite Hup in *. cbn [or_empty] in *.
  assert (Ht : PyStr.truthy upload_folder = true)
    by (destruct upload_folder; [contradiction | reflexivity]).
  rewrite Ht in *. cbn [negb] in *. unfold bind in *.
  destruct (parse_pdf_with_mineru (script env) pdf_path
              (os_path_basename pdf_path) σ) as [[id|e] σ1] eqn:Ep;
    [|discriminate Hrun].
  cbn [fst snd ret] in *. unfold ret in Hrun. cbn [fst] in Hrun.
  injection Hrun as Hrun.
  assert (Hvia : exists dir,
    parse_pdf_via_self_hosted_mineru c (Path.parse pdf_path)
      (getenv_default (os_getenv (script env)) "MINERU_API_BASE"
         "https://mineru.net")
      (Path.parse upload_folder) "./output" 300 None σ = (Ok (id, dir), σ1)).
  { unfold parse_pdf_with_mineru in Ep. rewrite self_hosted_base, Hs in Ep.
    rewrite Hup in Ep. cbn [or_empty] in Ep. rewrite Ht in Ep.
    fold c in Ep. unfold bind in Ep.
    destruct (parse_pdf_via_self_hosted_mineru c _ _ _ _ _ _ σ)
      as [[[id0 dir0]|e] σ'] eqn:Ev; [|discriminate Ep].
    injection Ep as <- <-. exists dir0. reflexivity. }
  destruct Hvia as [dir Hvia].
  destruct (parse_pdf_via_ok _ _ _ _ _ _ _ _ _ _ _ Hvia) as (-> & Hdir & Hd & Hn).
  unfold call_extract_dir in Hdir. rewrite He in Hdir.
  assert (Hx : extract_dir = dir).
  { subst extract_dir. rewrite <- Hrun, Hjoin, Hdir. reflexivity. }
  split; [symmetry; exact Hrun|]. rewrite Hx. split; [rewrite He; exact Hdir|].
  split; [exact Hd | exact Hn].
Qed.

Lemma main_results_dir_is_client_dir_witness :
  Path.resolve []
    (Path.parse "/up/mineru_files/0123abcd") = sample_extract_dir
  /\ fst (mineru_results_of (sample_main sample_self_hosted) "/doc.pdf" None
            sample_fs)
     = Ok "/up/mineru_files/0123abcd".
Proof.
  assert (Hrun : fst (mineru_results_of (sample_main sample_self_hosted)
                        "/doc.pdf" None sample_fs)
                 = Ok "/up/mineru_files/0123abcd")
    by (vm_compute; reflexivity).
  split; [|exact Hrun].
  destruct (main_results_dir_is_client_dir (sample_main sample_self_hosted)
              "/doc.pdf" "/up" "/up/mineru_files/0123abcd" sample_fs
              eq_refl ltac:(discriminate) eq_refl eq_refl eq_refl
              ltac:(discriminate) Hrun) as (_ & H & _).
  exact H.
Defined.

(** * [create_editable_pptx]: the directory of the output file *)

Lemma str_rfind_no_slash (s : string) :
  no_slash s = true -> str_rfind "/" s = None.
Proof.
  induction s as [|c s IH]; [reflexivity|]. cbn [no_slash str_rfind].
  intros H. apply andb_true_iff in H as [Hc Hs]. rewrite (IH Hs).
  apply negb_true_iff in Hc. rewrite Hc. reflexivity.
Qed.

Lemma str_rfind_last (a b : string) :
  no_slash b = true ->
  str_rfind "/" (a +:+ String "/" b) = Some (String.length a).
Proof.
  intros Hb. induction a as [|c a IH].
  - cbn [String.length]. change ("" +:+ String "/" b) with (String "/" b).
    cbn [str_rfind]. rewrite (str_rfind_no_slash b Hb). reflexivity.
  - change (String c a +:+ String "/" b) with (String c (a +:+ String "/" b)).
    cbn [str_rfind String.length]. rewrite IH. reflexivity.
Qed.

Lemma take_app_length (x y : string) : PyStr.take (String.length x) (x +:+ y) = x.
Proof.
  induction x as [|c x IH]; [destruct y; reflexivity|].
  change (String c x +:+ y) with (String c (x +:+ y)).
  cbn [String.length PyStr.take]. rewrite IH. reflexivity.
Qed.

Lemma take_head (a b : string) :
  PyStr.take (S (String.length a)) (a +:+ String "/" b) = a +:+ "/".
Proof.
  replace (S (String.length a)) with (String.length (a +:+ "/"))
    by (rewrite length_append; cbn [String.length]; lia).
  replace (a +:+ String "/" b) with ((a +:+ "/") +:+ b)
    by (rewrite append_assoc; reflexivity).
  apply take_app_length.
Qed.

Lemma slashes_snoc (n : nat) : slashes (S n) = slashes n +:+ "/".
Proof.
  induction n as [|n IH]; [reflexivity|].
  change (slashes (S (S n))) with (String "/" (slashes (S n))).
  rewrite IH at 1. reflexivity.
Qed.

Lemma snoc_inj (x y : string) (c : ascii) :
  x +:+ String c "" = y +:+ String c "" -> x = y.
Proof.
  revert y. induction x as [|a x IH]; intros [|b y] E.
  - reflexivity.
  - exfalso. apply (f_equal String.length) in E.
    rewrite !length_append in E. cbn [String.length] in E. lia.
  - exfalso. apply (f_equal String.length) in E.
    rewrite !length_append in E. cbn [String.length] in E. lia.
  - change (String a x +:+ String c "") with (String a (x +:+ String c "")) in E.
    change (String b y +:+ String c "") with (String b (y +:+ String c "")) in E.
    injection E as -> E. f_equal. apply IH, E.
Qed.

Lemma rstrip_app_stripped (p : ascii -> bool) (a b : string) :
  PyStr.rstrip p b = "" -> PyStr.rstrip p (a +:+ b) = PyStr.rstrip p a.
Proof.
  intros Hb. induction a as [|c a IH]; [exact Hb|].
  change (String c a +:+ b) with (String c (a +:+ b)).
  cbn [PyStr.rstrip]. rewrite IH. reflexivity.
Qed.

Lemma os_path_dirname_bare (output_file : string) :
  no_slash output_file = true -> os_path_dirname output_file = "".
Proof.
  intros H. unfold os_path_dirname, after_last_slash.
  rewrite (str_rfind_no_slash _ H). destruct output_file; reflexivity.
Qed.

Lemma os_path_dirname_file (d name : string) :
  no_slash name = true -> d <> slashes (String.length d) ->
  os_path_dirname (d +:+ String "/" name) = PyStr.rstrip PyStr.is_slash d
  /\ PyStr.rstrip PyStr.is_slash d <> "".
Proof.
  intros Hn Hd. unfold os_path_dirname, after_last_slash.
  rewrite (str_rfind_last d name Hn), take_head.
  assert (Ht : PyStr.truthy (d +:+ "/") = true) by (destruct d; reflexivity).
  rewrite Ht. cbn [andb].
  assert (He : String.eqb (d +:+ "/") (slashes (String.length (d +:+ "/")))
               = false).
  { apply String.eqb_neq. intros E. apply Hd.
    rewrite length_append in E. cbn [String.length] in E.
    rewrite Nat.add_1_r, slashes_snoc in E. apply snoc_inj in E. exact E. }
  rewrite He. cbn [negb]. split; [apply rstrip_app_stripped; reflexivity|].
  intros E. apply Hd. clear -E.
  induction d as [|c d IH]; [reflexivity|]. cbn [PyStr.rstrip] in E.
  destruct (PyStr.rstrip PyStr.is_slash d) eqn:Er; [|discriminate E].
  destruct (PyStr.is_slash c) eqn:Ec; [|discriminate E].
  apply Ascii.eqb_eq in Ec. subst c. cbn [String.length slashes].
  f_equal. apply IH. reflexivity.
Qed.

(** X20. For an output file given by a bare name,
    [create_editable_pptx] makes no directory and calls the export
    directly.  For an output file [d/name], where [d] is not made of
    slashes only, it first makes the directory [d] without its trailing
    slashes, which is not the empty string, and then calls the export; an
    exception of the directory creation is raised before any export. *)
Theorem create_editable_pptx_directory (env : main_env)
    (mineru_result_dir : string) (slide_width slide_height : Z)
    (background_images : list string) (template_dir : option string) (σ : fs) :
  let export output_file :=
    create_editable_pptx_from_mineru env mineru_result_dir output_file
      slide_width slide_height background_images template_dir in
  let run output_file :=
    create_editable_pptx env mineru_result_dir output_file slide_width
      slide_height background_images template_dir σ in
  (forall output_file, no_slash output_file = true ->
     run output_file = export output_file σ)
  /\ (forall d name, no_slash name = true -> d <> slashes (String.length d) ->
        let output_file := d +:+ "/" +:+ name in
        let output_dir := PyStr.rstrip PyStr.is_slash d in
        output_dir <> ""
        /\ run output_file =
             (let* _ := os_makedirs_exist_ok (pdf env) output_dir in
              export output_file) σ
        /\ (forall e σ1,
              os_makedirs_exist_ok (pdf env) output_dir σ = (Raise e, σ1) ->
              run output_file = (Raise e, σ1))).
Proof.
  intros export run. split.
  - intros output_file H. subst run. unfold create_editable_pptx. cbv beta.
    rewrite (os_path_dirname_bare _ H). reflexivity.
  - intros d name Hn Hd output_file output_dir.
    destruct (os_path_dirname_file d name Hn Hd) as [Hdir Hne].
    assert (Hrun : run output_file =
              (let* _ := os_makedirs_exist_ok (pdf env) output_dir in
               export output_file) σ).
    { subst run output_file. unfold create_editable_pptx. cbv beta.
      change (d +:+ "/" +:+ name) with (d +:+ String "/" name).
      rewrite Hdir. subst output_dir.
      destruct (PyStr.rstrip PyStr.is_slash d);
        [contradiction Hne; reflexivity | reflexivity]. }
    split; [exact Hne|]. split; [exact Hrun|].
    intros e σ1 Hm. rewrite Hrun. apply bind_raise, Hm.
Qed.

Lemma create_editable_pptx_directory_witness :
  fst (create_editable_pptx (sample_main sample_self_hosted) "/up" "deck.pptx"
         1920 1080 [] None sample_fs)
  = Ok tt
  /\ create_editable_pptx (sample_main sample_self_hosted) "/up"
       "out/deck.pptx" 1920 1080 [] None sample_fs
     = (let* _ := os_makedirs_exist_ok sample_pdf_env "out" in
        create_editable_pptx_from_mineru (sample_main sample_self_hosted) "/up"
          "out/deck.pptx" 1920 1080 [] None) sample_fs.
Proof.
  destruct (create_editable_pptx_directory (sample_main sample_self_hosted)
              "/up" 1920 1080 [] None sample_fs) as [H1 H2].
  split.
  - etransitivity; [exact (f_equal fst (H1 "deck.pptx" eq_refl))|].
    vm_compute. reflexivity.
  - destruct (H2 "out" "deck.pptx" eq_refl ltac:(discriminate))
      as (_ & H & _).
    exact H.
Defined.

(** * [generate_clean_backgrounds]: the call of the inpainting service *)

(** X21. When both VolcEngine keys are set and not empty,
    [generate_clean_backgrounds] returns what the inpainting service
    returns for the same images and result directory with
    [use_inpainting=True]; the service is never asked with
    [use_inpainting=False], so two services that agree on [True] give the
    same outcome; and an environment that [check_environment] accepts is
    one in which the service is used. *)
Theorem generate_clean_backgrounds_delegates
    (getenv : string -> option string)
    (helper helper' : list string -> string -> bool -> result (list string))
    (image_paths : list string) (mineru_result_dir : string) :
  (both_set (getenv "VOLCENGINE_ACCESS_KEY") (getenv "VOLCENGINE_SECRET_KEY")
   = true ->
   generate_clean_backgrounds getenv helper image_paths mineru_result_dir
   = helper image_paths mineru_result_dir true)
  /\ ((forall l d, helper l d true = helper' l d true) ->
      generate_clean_backgrounds getenv helper image_paths mineru_result_dir
      = generate_clean_backgrounds getenv helper' image_paths mineru_result_dir)
  /\ (is_Ok (Recur.check_environment getenv) = true ->
      generate_clean_backgrounds getenv helper image_paths mineru_result_dir
      = helper image_paths mineru_result_dir true).
Proof.
  unfold generate_clean_backgrounds.
  split; [|split].
  - intros ->. reflexivity.
  - intros H. destruct (both_set _ _); [apply H | reflexivity].
  - unfold Recur.check_environment, both_set.
    destruct (PyStr.truthy (or_empty (getenv "MINERU_TOKEN")));
      [|discriminate].
    destruct (PyStr.truthy (or_empty (getenv "VOLCENGINE_ACCESS_KEY")));
      destruct (PyStr.truthy (or_empty (getenv "VOLCENGINE_SECRET_KEY")));
      cbn; first [discriminate | reflexivity].
Qed.

Lemma generate_clean_backgrounds_delegates_witness :
  generate_clean_backgrounds (fun _ => Some "key")
    (fun l d use => if use then Ok (map (fun p => p +:+ ".clean") l)
                    else Raise (RuntimeError "not reached"))
    ["page_000.png"] "/up/mineru_files/0123abcd"
  = Ok ["page_000.png.clean"].
Proof.
  apply (proj1 (generate_clean_backgrounds_delegates (fun _ => Some "key")
                  (fun l d use => if use then Ok (map (fun p => p +:+ ".clean") l)
                                  else Raise (RuntimeError "not reached"))
                  (fun _ _ _ => Ok [])
                  ["page_000.png"] "/up/mineru_files/0123abcd")).
  reflexivity.
Defined.

(** * [_safe_extractall]: the path that is checked and the path that is
    written *)

Lemma filter_valid_keep (l : list string) :
  Forall (fun c => c <> "..") l ->
  List.filter valid_part l = List.filter Path.keep_part l.
Proof.
  induction 1 as [|c l Hc Hl IH]; [reflexivity|]. cbn [List.filter].
  rewrite IH. unfold valid_part, Path.keep_part.
  apply String.eqb_neq in Hc. rewrite Hc, orb_false_r. reflexivity.
Qed.

(** X22. For an archive entry whose name is relative and has no ".."
    component, and an extraction directory without a ".." component, the
    destination that [_safe_extractall] checks is the path at which
    [extractall] writes the entry. *)
Theorem member_dest_is_target (cwd out : list string) (member : ZipInfo) :
  Forall (fun c => c <> "..") out ->
  Path.root (Path.parse (filename member)) = "" ->
  Forall (fun c => c <> "..") (PyStr.split "/" (filename member)) ->
  member_dest cwd out member = member_target out member.
Proof.
  intros Hout Hroot Hname. unfold member_dest, member_target, Path.joinpath.
  rewrite Hroot. cbn [PyStr.truthy Path.root Path.of_abs Path.parts].
  unfold Path.resolve. cbn [Path.root Path.parts PyStr.truthy].
  assert (Hall : Forall (fun c => c <> "..")
                   (out ++ Path.parts (Path.parse (filename member)))).
  { apply Forall_app. split; [exact Hout|].
    unfold Path.parse. cbn [Path.parts]. apply Forall_List_filter, Hname. }
  rewrite (resolve_fold_id _ Hall []).
  unfold Path.parse. cbn [Path.parts app].
  rewrite (filter_valid_keep _ Hname). reflexivity.
Qed.

Lemma member_dest_is_target_witness :
  member_dest [] ["t"] (mkZipInfo "doc/./images//a.png" "PNG")
  = ["t"; "doc"; "images"; "a.png"]
  /\ member_target ["t"] (mkZipInfo "doc/./images//a.png" "PNG")
     = ["t"; "doc"; "images"; "a.png"].
Proof.
  assert (H : member_dest [] ["t"] (mkZipInfo "doc/./images//a.png" "PNG")
              = member_target ["t"] (mkZipInfo "doc/./images//a.png" "PNG")).
  { apply member_dest_is_target; [repeat constructor; discriminate | reflexivity |].
    repeat constructor; discriminate. }
  split; [rewrite H|]; reflexivity.
Defined.

(** * [parse_pdf_via_self_hosted_mineru]: the listing of the message *)

Lemma listing_preview_literal (entries : list string) :
  listing_preview entries =
    PyStr.join (String "010" "") (List.firstn 200 entries)
    +:+ (if (200 <? length entries)%nat
         then String "010" "... (truncated) ..." else "").
Proof.
  unfold listing_preview. change (Z.to_nat 200) with 200%nat.
  change nl with (String "010" "").
  destruct (200 <? length entries)%nat; [reflexivity|].
  generalize (PyStr.join (String "010" "") (firstn 200 entries)).
  induction s as [|c s IH]; [reflexivity|].
  change (String c s +:+ "") with (String c (s +:+ "")). rewrite <- IH. reflexivity.
Qed.

(** The entries below a directory. *)
Lemma elem_of_descendants (σ : fs) (d k : list string) :
  k ∈ FS.descendants σ d <-> k <> [] /\ is_Some (σ !! (d ++ k)).
Proof.
  unfold FS.descendants. rewrite elem_of_List_filter, list_elem_of_omap. split.
  - intros [(p & Hp & Hs) Hk]. apply strip_prefix_Some in Hs. subst p.
    apply list_elem_of_fmap in Hp as ([p v] & Hpv & Hin). cbn in Hpv. subst p.
    apply elem_of_map_to_list in Hin.
    split; [intros ->; discriminate Hk | eauto].
  - intros [Hk [v Hv]]. split; [|destruct k; [contradiction | reflexivity]].
    exists (d ++ k). split; [|apply strip_prefix_app].
    apply list_elem_of_fmap. exists (d ++ k, v). split; [reflexivity|].
    apply elem_of_map_to_list, Hv.
Qed.

Lemma NoDup_descendants (σ : fs) (d : list string) : NoDup (FS.descendants σ d).
Proof.
  unfold FS.descendants. apply NoDup_List_filter.
  assert (Hnd : NoDup (map_to_list σ).*1) by apply NoDup_fst_map_to_list.
  induction Hnd as [|k l Hk Hl IH]; simpl; [constructor|].
  destruct (FS.strip_prefix d k) as [q|] eqn:E; [|exact IH].
  constructor; [|exact IH]. rewrite list_elem_of_omap. intros (k' & Hk' & E').
  apply strip_prefix_Some in E, E'. subst k k'. contradiction.
Qed.

#[local] Instance str_le_total : Total str_le.
Proof. intros a b. apply String.leb_total. Qed.

Lemma sorted_relative_entries (o : dir_order) (σ : fs) (d : list string) :
  σ !! d = Some Dir ->
  sorted (FS.relative_entries o σ d)
    ≡ₚ map (PyStr.join "/") (FS.descendants σ d)
  /\ Sorted str_le (sorted (FS.relative_entries o σ d)).
Proof.
  intros Hd. unfold sorted, FS.relative_entries. rewrite Hd. split.
  - rewrite merge_sort_Permutation. apply scan_perm.
  - apply Sorted_merge_sort. apply _.
Qed.

(** ** The result directory stays a directory *)

Lemma post_file_parse_state (env : client_env) (endpoint : string)
    (pdf_path : list string) (form_fields : gmap string string)
    (timeout_s : Z) (σ σ1 : fs) (r : result string) :
  _post_file_parse env endpoint pdf_path form_fields timeout_s σ = (r, σ1) ->
  σ1 = σ.
Proof.
  unfold _post_file_parse, bind, FS.read_bytes, lift, raise, ret. intros H.
  repeat case_match; simplify_eq; reflexivity.
Qed.

Lemma not_under_longer (d a : list string) :
  a <> [] -> FS.under (d ++ a) d = false.
Proof.
  intros Ha. unfold FS.under. rewrite strip_prefix_app_self.
  destruct a; [contradiction | reflexivity].
Qed.

Lemma rename_keeps (k src dst : list string) (σ σ1 : fs) (r : result unit) :
  FS.under src k = false -> FS.under dst k = false ->
  FS.rename src dst σ = (r, σ1) -> σ1 !! k = σ !! k.
Proof.
  intros Hs Hd H.
  assert (Hm : FS.move src dst σ !! k = σ !! k).
  { rewrite lookup_move. unfold FS.under in Hd.
    destruct (FS.strip_prefix dst k); [discriminate Hd|]. rewrite Hs. reflexivity. }
  unfold FS.rename in H. repeat case_match; simplify_eq; first [reflexivity | exact Hm].
Qed.

Lemma hoist_entry_keeps (d : list string) (top n : string) (σ σ1 : fs)
    (r : result unit) :
  hoist_entry d ((d ++ [top]) ++ [n]) σ = (r, σ1) -> σ1 !! d = σ !! d.
Proof.
  unfold hoist_entry, bind, FS.exists_, gets, raise. intros H.
  destruct (σ !! (d ++ [path_name ((d ++ [top]) ++ [n])])).
  - injection H as <- <-. reflexivity.
  - apply (rename_keeps d _ _ _ _ _) in H; [exact H | |].
    + rewrite <- app_assoc. apply not_under_longer. discriminate.
    + apply not_under_longer. discriminate.
Qed.

Lemma hoist_loop_keeps (d : list string) (top : string) (l : list string) :
  forall (σ σ1 : fs) (r : result unit),
  for_each (map (fun n => (d ++ [top]) ++ [n]) l) (hoist_entry d) σ = (r, σ1) ->
  σ1 !! d = σ !! d.
Proof.
  induction l as [|n l IH]; intros σ σ1 r H.
  - injection H as <- <-. reflexivity.
  - cbn [map for_each] in H. unfold bind in H.
    destruct (hoist_entry d ((d ++ [top]) ++ [n]) σ) as [[[]|e] σ'] eqn:Eh.
    + rewrite (IH _ _ _ H). apply (hoist_entry_keeps _ _ _ _ _ _ Eh).
    + injection H as <- <-. apply (hoist_entry_keeps _ _ _ _ _ _ Eh).
Qed.

Lemma flatten_keeps_dir (o : dir_order) (d : list string) (σ σ1 : fs)
    (r : result unit) :
  _flatten_single_top_level_dir o d σ = (r, σ1) -> σ1 !! d = σ !! d.
Proof.
  intros H. destruct (σ !! d) as [[|]|] eqn:Ed.
  1,3: (unfold _flatten_single_top_level_dir, bind, FS.iterdir in H;
        rewrite Ed in H; injection H as <- <-; exact Ed).
  rewrite (flatten_start o d σ Ed) in H.
  destruct (candidate_names o d σ) as [|top [|b l]];
    try (injection H as <- <-; exact Ed).
  destruct (σ !! (d ++ [top])) as [[|]|];
    try (injection H as <- <-; exact Ed).
  unfold bind in H.
  destruct (for_each _ (hoist_entry d) σ) as [[[]|e] σ'] eqn:El.
  - apply hoist_loop_keeps in El. rewrite <- Ed, <- El.
    unfold try_except_M, FS.rmdir, ret in H.
    repeat case_match; simplify_eq; try reflexivity.
    apply lookup_delete_ne. intros E. apply (f_equal length) in E.
    rewrite length_app in E. cbn in E. lia.
  - injection H as <- <-. apply hoist_loop_keeps in El. rewrite El. exact Ed.
Qed.

Lemma ensure_layout_keeps_dir (o : dir_order) (d : list string)
    (pdf_stem : string) (σ σ1 : fs) (r : result unit) :
  _ensure_layout_json_from_middle_json o d pdf_stem σ = (r, σ1) ->
  σ1 !! d = σ !! d.
Proof.
  intros H. destruct (ensure_layout_cases _ _ _ _ _ _ H) as [->|(data & _ & _ & ->)];
    [reflexivity|].
  apply lookup_insert_ne. unfold layout_path_of. intros E.
  apply (f_equal length) in E. rewrite length_app in E. cbn in E. lia.
Qed.

(** After the request, the unpacking and the normalization the result
    directory is a directory. *)
Lemma fetch_and_unpack_dir
    (env : client_env) (pdf_path : Path.t) (mineru_api_base : string)
    (upload_folder : Path.t) (output_dir_field : string) (timeout_s : Z)
    (form_overrides : option (gmap string string)) (σ σ1 : fs)
    (extract_id : string) (extract_dir : list string) :
  fetch_and_unpack env pdf_path mineru_api_base upload_folder
    output_dir_field timeout_s form_overrides σ
    = (Ok (extract_id, extract_dir), σ1) ->
  σ1 !! extract_dir = Some Dir.
Proof.
  intros H.
  destruct (fetch_and_unpack_result _ _ _ _ _ _ _ _ _ _ _ H) as [Hid Hdir].
  revert H. unfold fetch_and_unpack.
  set (pdf := Path.resolve (cwd env) (expanduser env pdf_path)).
  set (d := Path.resolve (cwd env) (expanduser env upload_folder)
            ++ ["mineru_files"; PyStr.take 8 (uuid4_hex env)]).
  assert (Ed : extract_dir = d) by (subst d; rewrite Hdir, Hid; reflexivity).
  rewrite Ed. clear Hid Hdir Ed.
  unfold bind at 1. destruct (path_exists env pdf σ) as [[[]|e] σa]; try discriminate.
  cbn [negb]. unfold bind at 1.
  destruct (path_mkdir_parents_exist_ok env (length d) d σa)
    as [[[]|e] σb] eqn:Em; [|discriminate].
  destruct (path_mkdir_parents_spec _ _ _ _ _ _ Em) as [_ Hd].
  specialize (Hd eq_refl).
  unfold bind at 1.
  destruct (_post_file_parse env _ pdf _ timeout_s σb) as [[content|e] σc] eqn:Ep;
    [|discriminate].
  apply post_file_parse_state in Ep. subst σc.
  unfold bind at 1.
  match goal with
  | |- context [path_write_bytes env ?z content σb] =>
      destruct (path_write_bytes env z content σb) as [[[]|e] σc] eqn:Ew;
        [|discriminate];
      assert (Hc : σc !! d = Some Dir)
  end.
  { unfold path_write_bytes in Ew.
    apply on_path_cases in Ew as [[_ [e Ee]]|Ew]; [discriminate Ee|].
    rewrite (write_bytes_spec _ _ _ _ _ Ew); [exact Hd|].
    intros E. apply (f_equal length) in E. rewrite length_app in E.
    cbn in E. lia. }
  destruct (negb (is_zipfile env content)); [discriminate|].
  unfold bind at 1.
  match goal with
  | |- context [FS.read_bytes ?z σc] =>
      destruct (FS.read_bytes z σc) as [[saved|e] σc'] eqn:Er; [|discriminate];
      assert (σc' = σc)
        by (unfold FS.read_bytes in Er; repeat case_match; simplify_eq;
            reflexivity)
  end.
  subst σc'. unfold bind at 1, lift.
  destruct (ZipFile_infolist env saved) as [zf|e]; [|discriminate].
  unfold bind at 1.
  destruct (_safe_extractall (cwd env) zf (Path.of_abs d) σc) as [[[]|e] σd] eqn:Es;
    [|discriminate].
  rewrite safe_extractall_run in Es. cbv zeta in Es.
  destruct (List.find _ zf); [discriminate Es|].
  pose proof (extractall_keeps _ _ _ _ _ d Dir Es Hc (or_introl eq_refl)) as Hd1.
  unfold bind at 1.
  destruct (_flatten_single_top_level_dir (listing env) d σd) as [[[]|e] σe] eqn:Ef;
    [|discriminate].
  apply flatten_keeps_dir in Ef.
  unfold bind at 1.
  destruct (_ensure_layout_json_from_middle_json (listing env) d _ σe)
    as [[[]|e] σf] eqn:El; [|discriminate].
  apply ensure_layout_keeps_dir in El.
  unfold ret. intros H. assert (Hσ : σf = σ1) by congruence. subst σ1.
  rewrite El, Ef. exact Hd1.
Qed.

(** C7. Once the archive is unpacked and normalized into the directory
    [extract_dir] (state [σ1], the one the unpacking leaves), that directory
    is a directory.  If no entry of it is named [*_content_list.json], the
    call raises the [RuntimeError] "Self-hosted MinerU ZIP extracted, but no
    *_content_list.json was found under <directory>." followed by
    "Extracted entries:" and the listing: the relative paths, joined with
    "/", of all the entries below the directory at any depth, each once,
    sorted, one per line, cut to the first 200 and followed by a line "...
    (truncated) ..." when there are more.  Otherwise the call returns the
    pair of the identifier and the directory.  Nothing is written by the
    check. *)
Theorem parse_pdf_content_list_check
    (env : client_env) (pdf_path : Path.t) (mineru_api_base : string)
    (upload_folder : Path.t) (output_dir_field : string) (timeout_s : Z)
    (form_overrides : option (gmap string string)) (σ : fs)
    (extract_id : string) (extract_dir : list string) :
  let unpacked := fetch_and_unpack env pdf_path mineru_api_base upload_folder
                    output_dir_field timeout_s form_overrides σ in
  fst unpacked = Ok (extract_id, extract_dir) ->
  let σ1 := snd unpacked in
  let r := parse_pdf_via_self_hosted_mineru env pdf_path mineru_api_base
             upload_folder output_dir_field timeout_s form_overrides σ in
  σ1 !! extract_dir = Some Dir
  /\ ((forall n : string, is_Some (σ1 !! (extract_dir ++ [n])) ->
                          PyStr.endswith n "_content_list.json" = false) ->
      exists (below : list (list string)) (entries : list string),
        NoDup below
        /\ (forall k, k ∈ below <-> k <> [] /\ is_Some (σ1 !! (extract_dir ++ k)))
        /\ entries ≡ₚ map (PyStr.join "/") below
        /\ Sorted str_le entries
        /\ r = (Raise (RuntimeError
                         ("Self-hosted MinerU ZIP extracted, but no "
                          +:+ "*_content_list.json was found under "
                          +:+ Path.str (Path.of_abs extract_dir) +:+ "."
                          +:+ String "010" "Extracted entries:"
                          +:+ String "010" ""
                          +:+ PyStr.join (String "010" "")
                                (List.firstn 200 entries)
                          +:+ (if (200 <? length entries)%nat
                               then String "010" "... (truncated) ..."
                               else ""))),
                σ1))
  /\ (forall n : string,
        is_Some (σ1 !! (extract_dir ++ [n])) ->
        PyStr.endswith n "_content_list.json" = true ->
        r = (Ok (extract_id, extract_dir), σ1))
  /\ extract_id = PyStr.take 8 (uuid4_hex env)
  /\ extract_dir =
       Path.resolve (cwd env) (expanduser env upload_folder)
       ++ ["mineru_files"; extract_id].
Proof.
  intros unpacked Hf σ1 r.
  assert (Hu : fetch_and_unpack env pdf_path mineru_api_base upload_folder
                 output_dir_field timeout_s form_overrides σ
               = (Ok (extract_id, extract_dir), σ1)).
  { subst σ1. unfold unpacked in *. clear unpacked.
    destruct (fetch_and_unpack env pdf_path mineru_api_base upload_folder
                output_dir_field timeout_s form_overrides σ) as [u σ'].
    simpl in *. subst u. reflexivity. }
  pose proof (fetch_and_unpack_dir _ _ _ _ _ _ _ _ _ _ _ Hu) as Hd.
  assert (Hr : r = check_content_list (listing env) extract_id extract_dir σ1).
  { subst r. unfold parse_pdf_via_self_hosted_mineru, bind. rewrite Hu. reflexivity. }
  split; [exact Hd|].
  split; [|split; [|apply (fetch_and_unpack_result _ _ _ _ _ _ _ _ _ _ _ Hu)]].
  - intros Hnone. rewrite Hr, (check_content_list_missing _ _ _ _ Hnone).
    destruct (sorted_relative_entries (listing env) σ1 extract_dir Hd)
      as [Hperm Hsorted].
    exists (FS.descendants σ1 extract_dir),
      (sorted (FS.relative_entries (listing env) σ1 extract_dir)).
    split; [apply NoDup_descendants|].
    split; [intros k; apply elem_of_descendants|].
    split; [exact Hperm|]. split; [exact Hsorted|].
    rewrite listing_preview_literal. reflexivity.
  - intros n Hn He. rewrite Hr. apply (check_content_list_found _ _ _ _ n); auto.
Qed.

(** The archive of this sample holds no content list. *)
Example missing_content_list_example :
  fst (parse_pdf_via_self_hosted_mineru
         (sample_client_of [mkZipInfo "doc/images/a.png" "PNG";
                            mkZipInfo "doc/doc_middle.json" "{}"])
         (Path.parse "/doc.pdf") "http://host:8023" (Path.parse "/up")
         "./output" 300 None sample_fs)
  = Raise (RuntimeError
             ("Self-hosted MinerU ZIP extracted, but no "
              +:+ "*_content_list.json was found under "
              +:+ "/up/mineru_files/0123abcd."
              +:+ String "010" "Extracted entries:"
              +:+ String "010" "doc-mineru-20260101-120000.zip"
              +:+ String "010" "doc_middle.json"
              +:+ String "010" "images"
              +:+ String "010" "images/a.png"
              +:+ String "010" "layout.json")).
Proof. vm_compute. reflexivity. Qed.

Lemma parse_pdf_content_list_check_witness :
  fst (parse_pdf_via_self_hosted_mineru
         (sample_client (mkResponse 200 "" "PK-archive") true)
         (Path.parse "/doc.pdf") "http://host:8023" (Path.parse "/up")
         "./output" 300 None sample_fs)
  = Ok ("0123abcd", sample_extract_dir)
  /\ exists entries : list string,
       "images/a.png" ∈ entries
       /\ Sorted str_le entries
       /\ fst (parse_pdf_via_self_hosted_mineru
                 (sample_client_of [mkZipInfo "doc/images/a.png" "PNG";
                                    mkZipInfo "doc/doc_middle.json" "{}"])
                 (Path.parse "/doc.pdf") "http://host:8023" (Path.parse "/up")
                 "./output" 300 None sample_fs)
          = Raise (RuntimeError
                     ("Self-hosted MinerU ZIP extracted, but no "
                      +:+ "*_content_list.json was found under "
                      +:+ "/up/mineru_files/0123abcd."
                      +:+ String "010" "Extracted entries:"
                      +:+ String "010" ""
                      +:+ PyStr.join (String "010" "") (List.firstn 200 entries)
                      +:+ (if (200 <? length entries)%nat
                           then String "010" "... (truncated) ..." else ""))).
Proof.
  split.
  - pose proof (parse_pdf_content_list_check
                  (sample_client (mkResponse 200 "" "PK-archive") true)
                  (Path.parse "/doc.pdf") "http://host:8023" (Path.parse "/up")
                  "./output" 300 None sample_fs "0123abcd" sample_extract_dir) as H.
    cbv zeta in H. discharge H. destruct H as (_ & _ & H2 & _).
    specialize (H2 "doc_content_list.json").
    assert (Hs : is_Some (Some (File "[]"))) by eauto.
    specialize (H2 ltac:(vm_compute; exact Hs)). discharge H2.
    exact (f_equal fst H2).
  - pose proof (parse_pdf_content_list_check
                  (sample_client_of [mkZipInfo "doc/images/a.png" "PNG";
                                     mkZipInfo "doc/doc_middle.json" "{}"])
                  (Path.parse "/doc.pdf") "http://host:8023" (Path.parse "/up")
                  "./output" 300 None sample_fs "0123abcd" sample_extract_dir) as H.
    cbv zeta in H. discharge H. destruct H as (_ & H1 & _).
    destruct H1 as (below & entries & _ & Hbelow & Hperm & Hsorted & Hr).
    { intros n Hn. apply elem_of_children in Hn.
      match type of Hn with
      | _ ∈ ?l =>
          replace l with ["images"; "doc-mineru-20260101-120000.zip";
                          "layout.json"; "doc_middle.json"] in Hn
            by (vm_compute; reflexivity)
      end.
      repeat (apply elem_of_cons in Hn as [->|Hn]; [reflexivity|]).
      inversion Hn. }
    exists entries. split; [|split; [exact Hsorted | exact (f_equal fst Hr)]].
    rewrite Hperm. apply (list_elem_of_fmap_2 (PyStr.join "/") _ ["images"; "a.png"]).
    apply Hbelow. split; [discriminate|].
    assert (Hs : is_Some (Some (File "PNG"))) by eauto.
    vm_compute. exact Hs.
Defined.
